(** * MCR (Model Context Reasoner): the NL-to-logic session pipeline

    A shallow embedding of the service core of the three source variants

      - [mcrws1.py]  (MCR-V 5.1.1),
      - [mcrws2.py]  (MCR-VIII "Apex" 8.0.0),
      - [mcrws3.py]  (MCR-XI "Aether" 11.0.0),

    and the properties of the clause normalizer, the schema extractor, the
    prompt chain executor, the reasoning dispatcher and the assert / query /
    replace-KB operations.

    Conventions.  A Python [str] is a [list ascii]: the code points 0..255.
    The character classes ([str.isspace], the line boundaries of
    [str.splitlines], the regex classes [\s], [[a-z]], [[a-zA-Z0-9_]]) are
    the Python ones restricted to that range.  Exceptions are values of
    [Exn]; an operation on the session store is a function from the world
    to a result and the next world. *)

From Stdlib Require Import List Ascii String Bool Arith ZArith Lia DecimalString.
From stdpp Require Import gmap strings.
Import ListNotations.

Local Open Scope bool_scope.
Local Open Scope nat_scope.

(* ===================================================================== *)
(** * Python strings *)
(* ===================================================================== *)

Abbreviation str := (list ascii).

(** A literal. *)
Definition py (s : string) : str := list_ascii_of_string s.

Definition code (c : ascii) : nat := nat_of_ascii c.

Definition chr_eqb (a b : ascii) : bool := Ascii.eqb a b.

(** [str.isspace] on one character (code points below 256). *)
Definition is_space (c : ascii) : bool :=
  let n := code c in
  ((9 <=? n) && (n <=? 13)) || ((28 <=? n) && (n <=? 32))
  || (n =? 133) || (n =? 160).

(** The line boundaries of [str.splitlines]: LF, VT, FF, CR, FS, GS, RS, NEL. *)
Definition is_linebreak (c : ascii) : bool :=
  let n := code c in
  ((10 <=? n) && (n <=? 13)) || ((28 <=? n) && (n <=? 30)) || (n =? 133).

Definition is_lower_az (c : ascii) : bool :=
  let n := code c in (97 <=? n) && (n <=? 122).

Definition is_upper_az (c : ascii) : bool :=
  let n := code c in (65 <=? n) && (n <=? 90).

Definition is_digit (c : ascii) : bool :=
  let n := code c in (48 <=? n) && (n <=? 57).

(** The regex class [[a-zA-Z0-9_]]. *)
Definition is_word (c : ascii) : bool :=
  is_lower_az c || is_upper_az c || is_digit c || (code c =? 95).

Definition LF : ascii := ascii_of_nat 10.
Definition CR : ascii := ascii_of_nat 13.
Definition DOT : ascii := "."%char.
Definition COLON : ascii := ":"%char.
Definition DASH : ascii := "-"%char.
Definition COMMA : ascii := ","%char.
Definition LPAREN : ascii := "("%char.
Definition RPAREN : ascii := ")"%char.
Definition PERCENT : ascii := "%"%char.

Fixpoint str_eqb (a b : str) : bool :=
  match a, b with
  | [], [] => true
  | x :: a', y :: b' => chr_eqb x y && str_eqb a' b'
  | _, _ => false
  end.

(** [x in l] for a list (or set, or generator) of strings. *)
Definition str_in (x : str) (l : list str) : bool := existsb (str_eqb x) l.

(** [s.lstrip()], [s.rstrip()], [s.strip()], and the variants that strip a
    given class of characters ([s.rstrip('.')]). *)
Fixpoint lstrip_by (p : ascii -> bool) (s : str) : str :=
  match s with
  | [] => []
  | c :: s' => if p c then lstrip_by p s' else s
  end.

Definition rstrip_by (p : ascii -> bool) (s : str) : str :=
  rev (lstrip_by p (rev s)).

Definition lstrip : str -> str := lstrip_by is_space.
Definition rstrip : str -> str := rstrip_by is_space.
Definition strip (s : str) : str := rstrip (lstrip s).

(** [s.startswith(pre)], [s.endswith(suf)]. *)
Fixpoint startswith (s pre : str) : bool :=
  match pre, s with
  | [], _ => true
  | p :: pre', c :: s' => chr_eqb c p && startswith s' pre'
  | _ :: _, [] => false
  end.

Definition endswith (s suf : str) : bool := startswith (rev s) (rev suf).

(** [sub in s] for strings. *)
Fixpoint contains (s sub : str) : bool :=
  startswith s sub ||
  match s with
  | [] => false
  | _ :: s' => contains s' sub
  end.

(** [s.count(c)] for a one-character [c]. *)
Definition count_char (c : ascii) (s : str) : nat :=
  length (List.filter (chr_eqb c) s).

(** [sep.join(l)]. *)
Fixpoint join (sep : str) (l : list str) : str :=
  match l with
  | [] => []
  | [x] => x
  | x :: l' => x ++ sep ++ join sep l'
  end.

(** Puts [c] in front of the first piece of a split. *)
Definition cons_head (c : ascii) (l : list str) : list str :=
  match l with
  | [] => [[c]]
  | x :: l' => (c :: x) :: l'
  end.

(** [s.split(sep)] for a one-character separator: never the empty list. *)
Fixpoint split_char (sep : ascii) (s : str) : list str :=
  match s with
  | [] => [[]]
  | c :: s' =>
      if chr_eqb c sep then [] :: split_char sep s'
      else cons_head c (split_char sep s')
  end.

(** [s.split(':-')]: the separator is found left to right, without
    overlap. *)
Fixpoint split_neck (s : str) : list str :=
  match s with
  | [] => [[]]
  | c :: s' =>
      match s' with
      | d :: s'' =>
          if chr_eqb c COLON && chr_eqb d DASH then [] :: split_neck s''
          else cons_head c (split_neck s')
      | [] => cons_head c (split_neck s')
      end
  end.

(** [s.splitlines()]: a line ends at a line boundary, CR LF counts as one
    boundary, the boundaries are not kept, and there is no empty last line.
    [after_cr] tells that the character before was a CR; [cur] is the line
    read so far, reversed. *)
Fixpoint splitlines_aux (after_cr : bool) (cur : str) (s : str) : list str :=
  match s with
  | [] => match cur with [] => [] | _ => [rev cur] end
  | c :: s' =>
      if after_cr && chr_eqb c LF then splitlines_aux false cur s'
      else if is_linebreak c then rev cur :: splitlines_aux (chr_eqb c CR) [] s'
      else splitlines_aux false (c :: cur) s'
  end.

Definition splitlines (s : str) : list str := splitlines_aux false [] s.

(** [str(n)] for an [int]. *)
Definition str_of_nat (n : nat) : str := py (NilZero.string_of_uint (Nat.to_uint n)).
Definition str_of_Z (z : Z) : str := py (NilZero.string_of_int (Z.to_int z)).

(** Takes the longest prefix whose characters satisfy [p]: a greedy
    character-class repetition. *)
Fixpoint span (p : ascii -> bool) (s : str) : str * str :=
  match s with
  | [] => ([], [])
  | c :: s' =>
      if p c then let (a, b) := span p s' in (c :: a, b) else ([], s)
  end.

Definition is_empty {A} (l : list A) : bool :=
  match l with [] => true | _ => false end.

(** Lexicographic order on code points: the order of [sorted] on strings. *)
Fixpoint str_leb (a b : str) : bool :=
  match a, b with
  | [], _ => true
  | _ :: _, [] => false
  | x :: a', y :: b' =>
      if code x <? code y then true
      else if code y <? code x then false
      else str_leb a' b'
  end.

Fixpoint sorted_insert (x : str) (l : list str) : list str :=
  match l with
  | [] => [x]
  | y :: l' => if str_leb x y then x :: l else y :: sorted_insert x l'
  end.

(** [sorted(l)]. *)
Definition sorted (l : list str) : list str := fold_right sorted_insert [] l.

(** [s.add(x)] on a set of strings, kept as a list without duplicates. *)
Definition set_add (x : str) (s : list str) : list str :=
  if str_in x s then s else s ++ [x].

(** ASCII part of [str.upper]. *)
Definition upper_chr (c : ascii) : ascii :=
  if is_lower_az c then ascii_of_nat (code c - 32) else c.
Definition upper (s : str) : str := map upper_chr s.

(** [c.islower()] for a code point below 256. *)
Definition islower (c : ascii) : bool :=
  let n := code c in
  is_lower_az c || (n =? 170) || (n =? 181) || (n =? 186)
  || ((223 <=? n) && (n <=? 246)) || ((248 <=? n) && (n <=? 255)).

(** The line terminator rule shared by the three normalizers:
    [l if l.endswith('.') else l + "."]. *)
Definition terminate (l : str) : str :=
  if endswith l [DOT] then l else l ++ [DOT].

(* ===================================================================== *)
(** * The regular expressions of the service *)
(* ===================================================================== *)

Module Regex.

(** [re.search(r'[:.]$', line)]: without MULTILINE, [$] holds at the end of
    the string and before a line feed that ends the string. *)
Definition is_colon_or_dot (c : ascii) : bool := chr_eqb c COLON || chr_eqb c DOT.

Definition search_colon_or_dot_at_end (line : str) : bool :=
  match rev line with
  | [] => false
  | c :: r =>
      is_colon_or_dot c ||
      (chr_eqb c LF && match r with d :: _ => is_colon_or_dot d | [] => false end)
  end.

(** [re.match] of the pattern: group 1 [[a-z][a-zA-Z0-9_]*], then [\(].
    Group 1 when the line begins with a lowercase identifier and an opening
    parenthesis. *)
Definition match_name_lparen (line : str) : option str :=
  match line with
  | c :: s1 =>
      if is_lower_az c then
        let (ident, s2) := span is_word s1 in
        match s2 with
        | p :: _ => if chr_eqb p LPAREN then Some (c :: ident) else None
        | [] => None
        end
      else None
  | [] => None
  end.

(** The lazy [(?:.|\n)*?] followed by [\)]: everything up to the first
    closing parenthesis. *)
Fixpoint upto_rparen (s : str) : option (str * str) :=
  match s with
  | [] => None
  | c :: s' =>
      if chr_eqb c RPAREN then Some ([], s')
      else match upto_rparen s' with
           | Some (a, b) => Some (c :: a, b)
           | None => None
           end
  end.

(** [\.?] *)
Definition optional_dot (s : str) : str * str :=
  match s with
  | c :: s' => if chr_eqb c DOT then ([c], s') else ([], s)
  | [] => ([], s)
  end.

(** The optional group of [:-] and [.*]; the dot does not match a line
    feed. *)
Definition optional_neck (s : str) : str * str :=
  match s with
  | c :: d :: s' =>
      if chr_eqb c COLON && chr_eqb d DASH
      then let (t, r) := span (fun x => negb (chr_eqb x LF)) s' in (c :: d :: t, r)
      else ([], s)
  | _ => ([], s)
  end.

(** One match of [prolog_pattern] at the head of [s]: the matched text and
    what follows it.  The pattern is, in order: [[a-z]], [[a-zA-Z0-9_]*],
    [\(], the lazy [(?:.|\n)*?], [\)], [\.?], [\s*], and the optional group
    of [:-] and [.*].  After the
    closing parenthesis every part is optional, so the first closing
    parenthesis is the one taken and the greedy choices stand. *)
Definition match_prolog_pattern (s : str) : option (str * str) :=
  match s with
  | c :: s1 =>
      if is_lower_az c then
        let (ident, s2) := span is_word s1 in
        match s2 with
        | p :: s3 =>
            if chr_eqb p LPAREN then
              match upto_rparen s3 with
              | Some (body, s4) =>
                  let (dot, s5) := optional_dot s4 in
                  let (ws, s6) := span is_space s5 in
                  let (neck, s7) := optional_neck s6 in
                  Some (c :: ident ++ LPAREN :: body ++ RPAREN :: dot ++ ws ++ neck, s7)
              | None => None
              end
            else None
        | [] => None
        end
      else None
  | [] => None
  end.

(** [prolog_pattern.findall(text)] with [re.MULTILINE]: the text is scanned
    from left to right; [^] holds at the start of the text and after a line
    feed ([bol]); a match is recorded and the scan goes on after it.  A match
    has at least three characters, so [length s] steps are enough. *)
Fixpoint findall_from (fuel : nat) (bol : bool) (s : str) : list str :=
  match fuel with
  | 0 => []
  | S fuel' =>
      match s with
      | [] => []
      | c :: s' =>
          match (if bol then match_prolog_pattern s else None) with
          | Some (m, rest) =>
              m :: findall_from fuel' (endswith m [LF]) rest
          | None => findall_from fuel' (chr_eqb c LF) s'
          end
      end
  end.

Definition findall_prolog_pattern (text : str) : list str :=
  findall_from (length text) true text.

(** [predicate_regex.match(line)], group 1.  The pattern is, in order:
    group 1 [[a-z][a-zA-Z0-9_]*], [\s*], [(?::-|.)].
    The identifier and the white space are taken greedily; the last part
    needs [:-] or one character that is not a line feed.  When nothing
    fitting follows, the white space is given back one character at a time,
    and after that the last character of the identifier. *)
Definition neck_or_any (s : str) : bool :=
  match s with
  | [] => false
  | c :: _ => negb (chr_eqb c LF)
  end.

(** Does [(?::-|.)] match after some suffix of the white space [ws]
    (followed by [rest])? *)
Fixpoint neck_or_any_after (ws rest : str) : bool :=
  match ws with
  | [] => neck_or_any rest
  | c :: ws' => neck_or_any_after ws' rest || neck_or_any (c :: ws' ++ rest)
  end.

Definition match_predicate_regex (line : str) : option str :=
  match line with
  | c :: s1 =>
      if is_lower_az c then
        let (ident, s2) := span is_word s1 in
        let (ws, s3) := span is_space s2 in
        if neck_or_any_after ws s3 then Some (c :: ident)
        else match ident with
             | [] => None
             | _ :: _ => Some (c :: removelast ident)
             end
      else None
  | [] => None
  end.

(** The class [[a-zA-Z0-9_,\s]]. *)
Definition is_atom_list_chr (c : ascii) : bool :=
  is_word c || chr_eqb c COMMA || is_space c.

(** [atom_regex.finditer(line)] for [\(([a-zA-Z0-9_,\s]+)\)], the groups 1
    in order.  The class has no parenthesis, so a match holds no other
    opening parenthesis and trying every position finds the matches of the
    scan without overlap. *)
Fixpoint finditer_atom_regex (s : str) : list str :=
  match s with
  | [] => []
  | c :: s' =>
      if chr_eqb c LPAREN then
        let (g, r) := span is_atom_list_chr s' in
        if negb (is_empty g) && startswith r [RPAREN]
        then g :: finditer_atom_regex s'
        else finditer_atom_regex s'
      else finditer_atom_regex s'
  end.

End Regex.

(* ===================================================================== *)
(** * Values, exceptions, sessions and the world *)
(* ===================================================================== *)

(** What the logic engine hands back ([Any] in the source): [None], a
    boolean, or a list whose items are strings (pytholog's ['Yes'], ['No'])
    or variable-binding records.  [PyStr] is there for the shaped value
    shown to the explanation step. *)
Inductive Item :=
  | IStr (s : str)
  | IDict (bindings : list (str * str)).

Inductive PyValue :=
  | PyNone
  | PyBool (b : bool)
  | PyStr (s : str)
  | PyList (l : list Item).

(** Truth value of a Python object ([if v], [not v], [v or w]). *)
Definition truthy (v : PyValue) : bool :=
  match v with
  | PyNone => false
  | PyBool b => b
  | PyStr s => negb (is_empty s)
  | PyList l => negb (is_empty l)
  end.

(** [v is True], [v is False], [v is not None], [v == ['No']]. *)
Definition is_True (v : PyValue) : bool :=
  match v with PyBool true => true | _ => false end.
Definition is_False (v : PyValue) : bool :=
  match v with PyBool false => true | _ => false end.
Definition is_not_None (v : PyValue) : bool :=
  match v with PyNone => false | _ => true end.
Definition eq_list_No (v : PyValue) : bool :=
  match v with
  | PyList [IStr s] => str_eqb s (py "No")
  | _ => false
  end.

(** The exception classes of the service; [OtherException] stands for
    whatever is not an [MCRError] (a [KeyError], a network error of a
    backend that does not wrap it). *)
Inductive Exn :=
  | NotFoundError (msg : str)
  | ProviderError (msg : str)
  | ValidationError (msg : str)
  | OtherException (msg : str).

Record Session := {
  sessionId : string;
  knowledgeBase : str;
  createdAt : str;
  modifiedAt : str;
}.

Definition set_knowledgeBase (kb : str) (s : Session) : Session :=
  {| sessionId := sessionId s; knowledgeBase := kb;
     createdAt := createdAt s; modifiedAt := modifiedAt s |}.

Definition set_modifiedAt (t : str) (s : Session) : Session :=
  {| sessionId := sessionId s; knowledgeBase := knowledgeBase s;
     createdAt := createdAt s; modifiedAt := t |}.

(** The world: the session files by id, the saves made so far (in order),
    and the prompts sent to the generation backend so far (in order). *)
Record World := {
  sessions : gmap string Session;
  saved : list Session;
  llm_calls : list str;
}.

(** How one evaluation by the logic engine under [asyncio.wait_for] ends. *)
Inductive Evaluation :=
  | Returned (v : PyValue)
  | Raised (msg : str)
  | TimedOut.

(** The collaborators.  [llm_generate history prompt] is the answer of the
    generation backend to [prompt] after the prompts of [history];
    [utcnow n] is the clock reading at the save number [n];
    [engine_load lines] is the message of the exception with which the
    engine rejects the knowledge base, if it does;
    [engine_query lines goal] is building the goal and evaluating it. *)
Record Env := {
  llm_generate : list str -> str -> Exn + str;
  utcnow : nat -> str;
  engine_load : list str -> option str;
  engine_query : list str -> str -> Evaluation;
  json_dumps : PyValue -> str;
}.

(** Keyword arguments of a prompt template. *)
Record Kwargs := {
  kw_text : option str;
  kw_query : option str;
  kw_schema : option (list str);
  kw_result : option str;
  kw_style : option str;
  kw_schema_section : option str;
}.

Definition no_kwargs : Kwargs :=
  {| kw_text := None; kw_query := None; kw_schema := None;
     kw_result := None; kw_style := None; kw_schema_section := None |}.

Definition set_schema_section (sec : str) (k : Kwargs) : Kwargs :=
  {| kw_text := kw_text k; kw_query := kw_query k; kw_schema := kw_schema k;
     kw_result := kw_result k; kw_style := kw_style k;
     kw_schema_section := Some sec |}.

(** A template together with [str.format]. *)
Definition Template : Type := Kwargs -> str.

(** ** Operations: state and exceptions *)

Definition M (A : Type) : Type := World -> (Exn + A) * World.

Definition ret {A} (a : A) : M A := fun w => (inr a, w).

Definition raise {A} (e : Exn) : M A := fun w => (inl e, w).

Definition bind {A B} (m : M A) (k : A -> M B) : M B :=
  fun w =>
    match m w with
    | (inl e, w') => (inl e, w')
    | (inr a, w') => k a w'
    end.

(** A computation that does not touch the world. *)
Definition lift {A} (r : Exn + A) : M A := fun w => (r, w).

Notation "x <~ m ; k" := (bind m (fun x => k))
  (at level 20, m at level 100, k at level 200, only parsing).

(** ** The collaborators as operations *)

(** [ILlmProvider.generate]. *)
Definition generate (env : Env) (prompt : str) : M str :=
  fun w =>
    (llm_generate env (llm_calls w) prompt,
     {| sessions := sessions w; saved := saved w;
        llm_calls := llm_calls w ++ [prompt] |}).

(** [FileContextProvider.get_session]. *)
Definition get_session (session_id : string) : M Session :=
  fun w =>
    match sessions w !! session_id with
    | Some s => (inr s, w)
    | None =>
        (inl (NotFoundError (py "Session '" ++ py session_id ++ py "' not found.")), w)
    end.

(** [FileContextProvider.save_session]. *)
Definition save_session (env : Env) (session : Session) : M unit :=
  fun w =>
    let session' := set_modifiedAt (utcnow env (length (saved w))) session in
    (inr tt,
     {| sessions := <[sessionId session' := session']> (sessions w);
        saved := saved w ++ [session'];
        llm_calls := llm_calls w |}).

(** [PythologReasonProvider.validate]: [None] for [{"valid": True}], the
    error text for [{"valid": False, "error": ...}]. *)
Definition validate (env : Env) (kb_str : str) : option str :=
  engine_load env (splitlines kb_str).

(* ===================================================================== *)
(** * mcrws1.py *)
(* ===================================================================== *)

Module Mcrws1.

Definition REASONING_TIMEOUT_SECONDS : nat := 5.

Record AssertResponse := {
  addedFacts : list str;
  ar_knowledgeBase : str;
}.

Record QueryResponse := {
  queryProlog : str;
  result : PyValue;
  answer : str;
  debugInfo : option (str * PyValue);
}.

(** [MCRService._extract_prolog]. *)
Definition _extract_prolog (text : str) : list str :=
  let lines :=
    map strip
      (List.filter
         (fun line => negb (is_empty (strip line))
                      && negb (startswith (strip line) [PERCENT]))
         (split_char LF text)) in
  map (fun line => if endswith line [DOT] then line else line ++ [DOT]) lines.

(** [current_kb_lines = set(kb.splitlines())] and
    [added = [fact for fact in new_facts if fact not in current_kb_lines]]. *)
Definition not_in_kb (kb : str) (new_facts : list str) : list str :=
  let current_kb_lines := splitlines kb in
  List.filter (fun fact => negb (str_in fact current_kb_lines)) new_facts.

(** The line [result_for_llm = "Yes" if result else "No"]. *)
Definition result_for_llm (result : PyValue) : PyValue :=
  if truthy result then PyStr (py "Yes") else PyStr (py "No").

Section Service.
Context (env : Env).
(** [PromptManager._PROMPTS]. *)
Context (_PROMPTS : string -> option Template).

(** [PromptManager.get]. *)
Definition PromptManager_get (template_name : string) (kwargs : Kwargs) : M str :=
  match _PROMPTS template_name with
  | Some t => ret (t kwargs)
  | None => raise (OtherException (py "KeyError: " ++ py template_name))
  end.

(** [PythologReasonProvider.query]. *)
Definition PythologReasonProvider_query (knowledge_base_str query_str : str)
  : Exn + PyValue :=
  match engine_load env (splitlines knowledge_base_str) with
  | Some e => inl (ProviderError (py "Pytholog reasoning error: " ++ e))
  | None =>
      match engine_query env (splitlines knowledge_base_str) query_str with
      | TimedOut =>
          inl (ProviderError
                 (py "Reasoning query timed out after "
                  ++ str_of_nat REASONING_TIMEOUT_SECONDS ++ py "s."))
      | Raised e => inl (ProviderError (py "Pytholog reasoning error: " ++ e))
      | Returned result => inr (if is_not_None result then result else PyList [])
      end
  end.

(** [MCRService.assert_into_session]. *)
Definition assert_into_session (session_id : string) (text : str)
  : M AssertResponse :=
  session <~ get_session session_id;
  prompt <~ PromptManager_get "NL_TO_RULES"
              {| kw_text := Some text; kw_query := None; kw_schema := None;
                 kw_result := None; kw_style := None;
                 kw_schema_section := None |};
  llm_response <~ generate env prompt;
  let new_facts := _extract_prolog llm_response in
  let added := not_in_kb (knowledgeBase session) new_facts in
  if negb (is_empty added) then
    let session' :=
      set_knowledgeBase
        (strip (knowledgeBase session ++ [LF] ++ join [LF] added)) session in
    _ <~ save_session env session';
    ret {| addedFacts := added; ar_knowledgeBase := knowledgeBase session' |}
  else
    ret {| addedFacts := added; ar_knowledgeBase := knowledgeBase session |}.

(** [MCRService.run_query]. *)
Definition run_query (session_id : string) (request_query : str)
  : M QueryResponse :=
  session <~ get_session session_id;
  query_prompt <~ PromptManager_get "NL_TO_QUERY"
                    {| kw_text := None; kw_query := Some request_query;
                       kw_schema := None; kw_result := None;
                       kw_style := None; kw_schema_section := None |};
  prolog_query_raw <~ generate env query_prompt;
  let prolog_query := rstrip_by (chr_eqb DOT) (strip prolog_query_raw) in
  result <~ lift (PythologReasonProvider_query (knowledgeBase session) prolog_query);
  let result_for_llm := result_for_llm result in
  answer_prompt <~ PromptManager_get "RESULT_TO_NL"
                     {| kw_text := None; kw_query := Some prolog_query;
                        kw_schema := None;
                        kw_result := Some (json_dumps env result_for_llm);
                        kw_style := Some (py "a clear and concise explanation");
                        kw_schema_section := None |};
  answer <~ generate env answer_prompt;
  ret {| queryProlog := prolog_query; result := result; answer := answer;
         debugInfo := Some (prolog_query, result) |}.

(** The route [PUT /sessions/{session_id}/kb]. *)
Definition update_kb (session_id : string) (body_knowledgeBase : str) : M str :=
  session <~ get_session session_id;
  match validate env body_knowledgeBase with
  | Some error => raise (ValidationError (py "KB validation failed: " ++ error))
  | None =>
      _ <~ save_session env (set_knowledgeBase body_knowledgeBase session);
      ret (py "Knowledge base updated.")
  end.

End Service.
End Mcrws1.

(* ===================================================================== *)
(** * mcrws2.py *)
(* ===================================================================== *)

Module Mcrws2.

Definition REASONING_TIMEOUT_SECONDS : nat := 10.

Record AssertResponse := {
  addedFacts : list str;
  ar_knowledgeBase : str;
  translatedProlog : list str;
}.

Record QueryResponse := {
  queryProlog : str;
  result : PyValue;
  answer : str;
  debugInfo : option (str * PyValue);
}.

(** [MCRService._extract_prolog]. *)
Definition _extract_prolog (text : str) : list str :=
  let lines :=
    map strip
      (List.filter
         (fun line => negb (is_empty (strip line))
                      && negb (startswith (strip line) [PERCENT]))
         (split_char LF text)) in
  map (fun line =>
         if Regex.search_colon_or_dot_at_end line then line else line ++ [DOT])
      lines.

(** [current_kb_lines = set(kb.splitlines())] and
    [added = [fact for fact in new_facts if fact not in current_kb_lines]]. *)
Definition not_in_kb (kb : str) (new_facts : list str) : list str :=
  let current_kb_lines := splitlines kb in
  List.filter (fun fact => negb (str_in fact current_kb_lines)) new_facts.

(** The arity of one line in [_get_kb_schema]; a Python [int], which the
    subtraction can make negative. *)
Definition line_arity (line : str) : Z :=
  let arity :=
    if contains line [LPAREN] && contains line [RPAREN]
    then (Z.of_nat (count_char COMMA line) + 1)%Z else 0%Z in
  if contains line [COLON; DASH]
  then (arity - Z.of_nat (count_char COMMA (nth 1 (split_neck line) [])))%Z
  else arity.

(** The body of the loop of [_get_kb_schema] on one line. *)
Definition schema_step (predicates : list str) (line0 : str) : list str :=
  let line := strip line0 in
  if is_empty line || startswith line [PERCENT] then predicates
  else match Regex.match_name_lparen line with
       | Some name =>
           set_add (name ++ py "/" ++ str_of_Z (line_arity line)) predicates
       | None => predicates
       end.

(** [MCRService._get_kb_schema]. *)
Definition _get_kb_schema (kb_string : str) : list str :=
  sorted (fold_left schema_step (splitlines kb_string) []).

(** The line
    [result_for_llm = "true" if result is True else ("No" if result is False else result)]. *)
Definition result_for_llm (result : PyValue) : PyValue :=
  if is_True result then PyStr (py "true")
  else if is_False result then PyStr (py "No")
  else result.

Section Service.
Context (env : Env).
Context (_PROMPTS : string -> option Template).

(** [PromptManager.get]. *)
Definition PromptManager_get (template_name : string) (kwargs : Kwargs) : M str :=
  let schema_section :=
    match kw_schema kwargs with
    | Some ((_ :: _) as schema) =>
        py "--- SCHEMA ---" ++ [LF]
        ++ py "% The knowledge base currently has these predicates: "
        ++ join (py ", ") schema ++ [LF]
    | _ => []
    end in
  let kwargs := set_schema_section schema_section kwargs in
  match _PROMPTS template_name with
  | Some t => ret (t kwargs)
  | None => raise (OtherException (py "KeyError: " ++ py template_name))
  end.

(** [PythologReasonProvider.query]. *)
Definition PythologReasonProvider_query (knowledge_base_str query_str : str)
  : Exn + PyValue :=
  match engine_load env (splitlines knowledge_base_str) with
  | Some e => inl (ProviderError (py "Pytholog reasoning error: " ++ e))
  | None =>
      match engine_query env (splitlines knowledge_base_str) query_str with
      | TimedOut =>
          inl (ProviderError
                 (py "Reasoning query timed out after "
                  ++ str_of_nat REASONING_TIMEOUT_SECONDS ++ py "s."))
      | Raised e => inl (ProviderError (py "Pytholog reasoning error: " ++ e))
      | Returned result => inr (if is_not_None result then result else PyList [])
      end
  end.

(** [MCRService.assert_into_session]. *)
Definition assert_into_session (session_id : string) (text : str)
  : M AssertResponse :=
  session <~ get_session session_id;
  let schema := _get_kb_schema (knowledgeBase session) in
  prompt <~ PromptManager_get "NL_TO_RULES"
              {| kw_text := Some text; kw_query := None;
                 kw_schema := Some schema; kw_result := None;
                 kw_style := None; kw_schema_section := None |};
  llm_response <~ generate env prompt;
  let new_facts := _extract_prolog llm_response in
  let added := not_in_kb (knowledgeBase session) new_facts in
  if negb (is_empty added) then
    let session' :=
      set_knowledgeBase
        (strip (knowledgeBase session ++ [LF] ++ join [LF] added)) session in
    _ <~ save_session env session';
    ret {| addedFacts := added; ar_knowledgeBase := knowledgeBase session';
           translatedProlog := new_facts |}
  else
    ret {| addedFacts := added; ar_knowledgeBase := knowledgeBase session;
           translatedProlog := new_facts |}.

(** [MCRService.run_query]. *)
Definition run_query (session_id : string) (request_query : str)
  : M QueryResponse :=
  session <~ get_session session_id;
  let schema := _get_kb_schema (knowledgeBase session) in
  query_prompt <~ PromptManager_get "NL_TO_QUERY"
                    {| kw_text := None; kw_query := Some request_query;
                       kw_schema := Some schema; kw_result := None;
                       kw_style := None; kw_schema_section := None |};
  prolog_query_raw <~ generate env query_prompt;
  let prolog_query := rstrip_by (chr_eqb DOT) (strip prolog_query_raw) in
  result <~ lift (PythologReasonProvider_query (knowledgeBase session) prolog_query);
  let result_for_llm := result_for_llm result in
  answer_prompt <~ PromptManager_get "RESULT_TO_NL"
                     {| kw_text := None; kw_query := Some prolog_query;
                        kw_schema := None;
                        kw_result := Some (json_dumps env result_for_llm);
                        kw_style := None; kw_schema_section := None |};
  answer <~ generate env answer_prompt;
  ret {| queryProlog := prolog_query; result := result; answer := answer;
         debugInfo := Some (prolog_query, result) |}.

(** The route [PUT /sessions/{session_id}/kb]. *)
Definition update_kb (session_id : string) (body_knowledgeBase : str) : M str :=
  session <~ get_session session_id;
  match validate env body_knowledgeBase with
  | Some error => raise (ValidationError (py "KB validation failed: " ++ error))
  | None =>
      _ <~ save_session env (set_knowledgeBase body_knowledgeBase session);
      ret (py "Knowledge base updated.")
  end.

End Service.
End Mcrws2.

(* ===================================================================== *)
(** * mcrws3.py *)
(* ===================================================================== *)

Module Mcrws3.

Definition REASONING_TIMEOUT_SECONDS : nat := 10.

Record AssertResponse := {
  addedFacts : list str;
  ar_knowledgeBase : str;
  translatedProlog : list str;
  intent : str;
}.

Record QueryResponse := {
  queryProlog : str;
  result : PyValue;
  answer : str;
  debugInfo : option (str * PyValue);
}.

(** [MCRService._extract_prolog]. *)
Definition _extract_prolog (text : str) : list str :=
  let clauses := Regex.findall_prolog_pattern text in
  map (fun line =>
         if endswith (strip line) [DOT] then strip line else strip line ++ [DOT])
      clauses.

(** The arity of one line in [_get_kb_schema]. *)
Definition line_arity (line : str) : nat :=
  let head := hd [] (split_neck line) in
  if contains head [LPAREN; RPAREN] then 0 else count_char COMMA head + 1.

(** The atoms of one parenthesized list: the items of
    [(a.strip() for a in atom_match.group(1).split(','))] that are not empty
    and begin with a lowercase letter. *)
Definition group_atoms (group1 : str) : list str :=
  List.filter
    (fun atom => match atom with
                 | [] => false
                 | a0 :: _ => islower a0
                 end)
    (map strip (split_char COMMA group1)).

(** The body of the loop of [_get_kb_schema] on one line. *)
Definition schema_step (schema_items : list str) (line0 : str) : list str :=
  let line := strip line0 in
  if is_empty line || startswith line [PERCENT] then schema_items
  else
    let schema_items :=
      match Regex.match_predicate_regex line with
      | Some name =>
          set_add (name ++ py "/" ++ str_of_nat (line_arity line)) schema_items
      | None => schema_items
      end in
    fold_left
      (fun items group1 => fold_left (fun items atom => set_add atom items)
                                     (group_atoms group1) items)
      (Regex.finditer_atom_regex line) schema_items.

(** [MCRService._get_kb_schema]. *)
Definition _get_kb_schema (kb_string : str) : list str :=
  sorted (fold_left schema_step (splitlines kb_string) []).

(** The line
    [result_for_llm = "true" if result is True
                      else ("No" if not result or result == ['No'] else result)]. *)
Definition result_for_llm (result : PyValue) : PyValue :=
  if is_True result then PyStr (py "true")
  else if negb (truthy result) || eq_list_No result then PyStr (py "No")
  else result.

(** [intent = "RULE" if "RULE" in intent_raw.upper() else "FACT"]. *)
Definition intent_of (intent_raw : str) : str :=
  if contains (upper intent_raw) (py "RULE") then py "RULE" else py "FACT".

(** [prompt_name = "NL_TO_RULES" if intent == "RULE" else "NL_TO_FACTS"]. *)
Definition prompt_name_of (intent : str) : string :=
  if str_eqb intent (py "RULE") then "NL_TO_RULES"%string else "NL_TO_FACTS"%string.

(** [added = [c for c in new_clauses
              if c not in (line.strip() for line in kb.splitlines())]]. *)
Definition not_in_kb (kb : str) (new_clauses : list str) : list str :=
  List.filter (fun c => negb (str_in c (map strip (splitlines kb)))) new_clauses.

Section Service.
Context (env : Env).
(** [PromptManager._PROMPTS]: the ordered variants of a task, and no
    variant for an unknown name. *)
Context (_PROMPTS : string -> list Template).

(** [PromptManager.get]. *)
Definition PromptManager_get (template_name : string) (kwargs : Kwargs)
  : list str :=
  let schema_section :=
    match kw_schema kwargs with
    | Some ((_ :: _) as schema) =>
        py "--- SCHEMA ---" ++ [LF] ++ py "% KB contains: "
        ++ join (py ", ") schema ++ [LF]
    | _ => []
    end in
  let kwargs := set_schema_section schema_section kwargs in
  map (fun p => p kwargs) (_PROMPTS template_name).

(** [PythologReasonProvider.query]. *)
Definition PythologReasonProvider_query (kb_str query_str : str)
  : Exn + PyValue :=
  match engine_load env (splitlines kb_str) with
  | Some e => inl (ProviderError (py "Pytholog reasoning error: " ++ e))
  | None =>
      match engine_query env (splitlines kb_str) query_str with
      | TimedOut =>
          inl (ProviderError
                 (py "Reasoning query timed out after "
                  ++ str_of_nat REASONING_TIMEOUT_SECONDS ++ py "s."))
      | Raised e => inl (ProviderError (py "Pytholog reasoning error: " ++ e))
      | Returned result => inr (if truthy result then result else PyList [])
      end
  end.

(** The loop of [_run_prompt_chain] over the variants that are left. *)
Fixpoint try_variants (template_name : string) (n_prompts : nat)
  (prompts : list str) : M str :=
  match prompts with
  | [] =>
      raise (ProviderError
               (py "LLM failed for '" ++ py template_name
                ++ py "' after trying all " ++ str_of_nat n_prompts
                ++ py " variants."))
  | prompt :: prompts' =>
      llm_response <~ generate env prompt;
      if negb (is_empty llm_response) && negb (is_empty (strip llm_response))
      then ret (strip llm_response)
      else try_variants template_name n_prompts prompts'
  end.

(** [MCRService._run_prompt_chain]. *)
Definition _run_prompt_chain (template_name : string) (kwargs : Kwargs) : M str :=
  let prompts := PromptManager_get template_name kwargs in
  if is_empty prompts then
    raise (ProviderError
             (py "No prompt templates found for '" ++ py template_name ++ py "'."))
  else try_variants template_name (length prompts) prompts.

(** [MCRService.assert_into_session]. *)
Definition assert_into_session (session_id : string) (text : str)
  : M AssertResponse :=
  session <~ get_session session_id;
  let schema := _get_kb_schema (knowledgeBase session) in
  intent_raw <~ _run_prompt_chain "INTENT_CLASSIFIER"
                  {| kw_text := Some text; kw_query := None; kw_schema := None;
                     kw_result := None; kw_style := None;
                     kw_schema_section := None |};
  let intent := intent_of intent_raw in
  let prompt_name := prompt_name_of intent in
  llm_response <~ _run_prompt_chain prompt_name
                    {| kw_text := Some text; kw_query := None;
                       kw_schema := Some schema; kw_result := None;
                       kw_style := None; kw_schema_section := None |};
  let new_clauses := _extract_prolog llm_response in
  if is_empty new_clauses then
    raise (ProviderError (py "LLM failed to generate valid Prolog code."))
  else
    let added := not_in_kb (knowledgeBase session) new_clauses in
    if negb (is_empty added) then
      let session' :=
        set_knowledgeBase
          (strip (knowledgeBase session ++ [LF] ++ join [LF] added)) session in
      _ <~ save_session env session';
      ret {| addedFacts := added; ar_knowledgeBase := knowledgeBase session';
             translatedProlog := new_clauses; intent := intent |}
    else
      ret {| addedFacts := added; ar_knowledgeBase := knowledgeBase session;
             translatedProlog := new_clauses; intent := intent |}.

(** [MCRService.run_query]. *)
Definition run_query (session_id : string) (request_query : str)
  : M QueryResponse :=
  session <~ get_session session_id;
  let schema := _get_kb_schema (knowledgeBase session) in
  chain_result <~ _run_prompt_chain "NL_TO_QUERY"
                    {| kw_text := None; kw_query := Some request_query;
                       kw_schema := Some schema; kw_result := None;
                       kw_style := None; kw_schema_section := None |};
  let prolog_query := rstrip_by (chr_eqb DOT) chain_result in
  if is_empty prolog_query then
    raise (ProviderError (py "LLM failed to generate a valid Prolog query."))
  else
    result <~ lift (PythologReasonProvider_query (knowledgeBase session) prolog_query);
    let result_for_llm := result_for_llm result in
    answer <~ _run_prompt_chain "RESULT_TO_NL"
                {| kw_text := None; kw_query := Some prolog_query;
                   kw_schema := None;
                   kw_result := Some (json_dumps env result_for_llm);
                   kw_style := None; kw_schema_section := None |};
    ret {| queryProlog := prolog_query; result := result; answer := answer;
           debugInfo := None |}.

(** The route [PUT /sessions/{session_id}/kb]. *)
Definition update_kb (session_id : string) (body_knowledgeBase : str) : M str :=
  session <~ get_session session_id;
  match validate env body_knowledgeBase with
  | Some error => raise (ValidationError (py "KB validation failed: " ++ error))
  | None =>
      _ <~ save_session env (set_knowledgeBase body_knowledgeBase session);
      ret (py "Knowledge base updated successfully.")
  end.

End Service.
End Mcrws3.

(* ===================================================================== *)
(** * Vocabulary of the properties *)
(* ===================================================================== *)

(** A string without white space at either end. *)
Definition trimmed (s : str) : Prop := lstrip s = s /\ rstrip s = s.

(** The shape check of a candidate clause: the string begins with a
    lowercase identifier that an opening parenthesis follows. *)
Definition begins_with_name_lparen (s : str) : bool :=
  match Regex.match_name_lparen s with
  | Some _ => true
  | None => false
  end.

(** [pre] ends where a line of the text begins: nothing, or a line feed, is
    before the position. *)
Definition at_line_start (pre : str) : Prop :=
  pre = [] \/ exists pre', pre = pre' ++ [LF].

(** The error kinds of the specification, as the exceptions that the code
    raises for them.  The code has one class, [ProviderError], for a failed
    translation, a timeout and an engine error; the message tells them
    apart. *)
Definition ReasoningTimeout (seconds : nat) : Exn :=
  ProviderError (py "Reasoning query timed out after "
                 ++ str_of_nat seconds ++ py "s.").

Definition ReasoningError (msg : str) : Exn :=
  ProviderError (py "Pytholog reasoning error: " ++ msg).

Definition ValidationFailure (msg : str) : Exn :=
  ValidationError (py "KB validation failed: " ++ msg).

(** The failure of an assert whose translation holds no clause. *)
Definition TranslationFailure_no_clause : Exn :=
  ProviderError (py "LLM failed to generate valid Prolog code.").

(** The failure of a prompt chain after its last variant. *)
Definition TranslationFailure_exhausted (template_name : string) (n : nat) : Exn :=
  ProviderError (py "LLM failed for '" ++ py template_name
                 ++ py "' after trying all " ++ str_of_nat n ++ py " variants.").

(** The world after the prompts [ps] have been sent to the backend. *)
Definition after_calls (w : World) (ps : list str) : World :=
  {| sessions := sessions w; saved := saved w; llm_calls := llm_calls w ++ ps |}.

(** A binding-list outcome that is not empty: every item is a record. *)
Definition is_binding (i : Item) : bool :=
  match i with IDict _ => true | IStr _ => false end.

Definition nonempty_binding_list (v : PyValue) : Prop :=
  exists l, v = PyList l /\ l <> [] /\ forallb is_binding l = true.

(** An empty outcome: [None] or the empty list. *)
Definition empty_outcome (v : PyValue) : Prop := v = PyNone \/ v = PyList [].

(** ** A small world for the examples *)

(** An engine that rejects a knowledge base with a line that lacks the
    terminator. *)
Definition demo_engine_load (lines : list str) : option str :=
  if forallb (fun l => endswith l [DOT]) lines then None
  else Some (py "unterminated clause").

Definition demo_env (llm : list str -> str -> Exn + str) (ev : Evaluation) : Env :=
  {| llm_generate := llm;
     utcnow := fun n => py "2025-01-01T00:00:0" ++ str_of_nat n;
     engine_load := demo_engine_load;
     engine_query := fun _ _ => ev;
     json_dumps := fun v =>
       match v with
       | PyStr s => py "'" ++ s ++ py "'"
       | PyBool true => py "true"
       | PyBool false => py "false"
       | PyNone => py "null"
       | PyList [] => py "[]"
       | PyList _ => py "[...]"
       end |}.

Definition demo_session (kb : str) : Session :=
  {| sessionId := "s1"; knowledgeBase := kb;
     createdAt := py "2025-01-01T00:00:00"; modifiedAt := py "2025-01-01T00:00:00" |}.

Definition demo_world (kb : str) : World :=
  {| sessions := {[ "s1"%string := demo_session kb ]}; saved := []; llm_calls := [] |}.

(** One template for every task: the name of the task, the text and the
    question. *)
Definition demo_template (name : string) : Template :=
  fun kwargs =>
    py name ++ py "|"
    ++ match kw_text kwargs with Some t => t | None => [] end
    ++ match kw_query kwargs with Some t => t | None => [] end.

(** ** The prompt chain *)

(** A response that the chain does not accept: the negation of
    [llm_response and llm_response.strip()]. *)
Definition blank (llm_response : str) : bool :=
  is_empty llm_response || is_empty (strip llm_response).

(** Every prompt of [prompts], sent in order after [history], is answered by
    the backend without an exception and with a blank response. *)
Fixpoint all_blank (env : Env) (history : list str) (prompts : list str) : bool :=
  match prompts with
  | [] => true
  | p :: ps =>
      match llm_generate env history p with
      | inr r => blank r && all_blank env (history ++ [p]) ps
      | inl _ => false
      end
  end.

(** A task with two variants, and a backend that is down for the first
    prompt and answers the second. *)
Definition two_variants (name : string) : list Template :=
  [fun _ => py "variant 1"; fun _ => py "variant 2"].

Definition flaky_llm (history : list str) (prompt : str) : Exn + str :=
  if str_eqb prompt (py "variant 1")
  then inl (ProviderError (py "Ollama request failed: timeout"))
  else inr (py "fact(a).").

(** A backend that answers the first prompt with white space only. *)
Definition shy_llm (history : list str) (prompt : str) : Exn + str :=
  if str_eqb prompt (py "variant 1") then inr (py "  ") else inr (py " fact(a). ").

(** ** The end of an assert *)

(** The knowledge base after an appending assert: the expression
    [(session.knowledgeBase + "\n" + "\n".join(added)).strip()] of the three
    variants. *)
Definition appended_kb (kb : str) (added : list str) : str :=
  strip (kb ++ [LF] ++ join [LF] added).

(** The world after [save_session] of the session [s] with the text [kb]. *)
Definition saved_world (env : Env) (s : Session) (kb : str) (w : World) : World :=
  let s' := set_modifiedAt (utcnow env (length (saved w))) (set_knowledgeBase kb s) in
  {| sessions := <[sessionId s := s']> (sessions w);
     saved := saved w ++ [s'];
     llm_calls := llm_calls w |}.

(** The text that an assert reports and the world that it leaves, from the
    clauses that passed the duplicate check. *)
Definition commit (env : Env) (s : Session) (added : list str) (w : World)
  : str * World :=
  if is_empty added then (knowledgeBase s, w)
  else (appended_kb (knowledgeBase s) added,
        saved_world env s (appended_kb (knowledgeBase s) added) w).

(** Two worlds with the same session files and the same saves. *)
Definition same_store (w w' : World) : Prop :=
  sessions w' = sessions w /\ saved w' = saved w.

(** A backend that answers every prompt with one text. *)
Definition const_llm (answer : str) (history : list str) (prompt : str) : Exn + str :=
  inr answer.

(** Every task has the one template of its name. *)
Definition demo_prompts3 (name : string) : list Template := [demo_template name].
Definition demo_prompts (name : string) : option Template := Some (demo_template name).

(** A clause as the normalizers emit it: not empty and without white space
    at either end. *)
Definition clean_clause (c : str) : Prop := trimmed c /\ c <> [].

(** What an appending assert on the session [s] leaves: the reported text
    [kb'] and the world [w']. *)
Definition appended_result (s : Session) (added : list str) (kb' : str)
    (w' : World) : Prop :=
  kb' = strip (knowledgeBase s ++ [LF] ++ join [LF] added) /\
  (exists s', sessions w' !! sessionId s = Some s' /\ knowledgeBase s' = kb') /\
  kb' = lstrip (knowledgeBase s ++ [LF]) ++ join [LF] added /\
  (lstrip (knowledgeBase s) <> [] ->
   kb' = lstrip (knowledgeBase s) ++ [LF] ++ join [LF] added).

(** ** The arity of the specification *)

(** The text inside a parenthesis group, up to the closing parenthesis that
    matches the opening one; [depth] counts the groups opened inside. *)
Fixpoint group_body (depth : nat) (s : str) : option str :=
  match s with
  | [] => None
  | c :: s' =>
      if chr_eqb c RPAREN then
        match depth with
        | 0 => Some []
        | S d => option_map (cons c) (group_body d s')
        end
      else if chr_eqb c LPAREN then option_map (cons c) (group_body (S depth) s')
      else option_map (cons c) (group_body depth s')
  end.

(** The text inside the outermost parenthesis group of [head]. *)
Fixpoint outermost_group (head : str) : option str :=
  match head with
  | [] => None
  | c :: s' => if chr_eqb c LPAREN then group_body 0 s' else outermost_group s'
  end.

(** The arity in the words of the specification: the commas inside the
    outermost parenthesis group of the clause head, plus one, and 0 for an
    empty argument list. *)
Definition spec_arity (head : str) : nat :=
  match outermost_group head with
  | Some [] => 0
  | Some args => count_char COMMA args + 1
  | None => 0
  end.

(** The clause head: the text before the first rule separator [:-]. *)
Definition clause_head (line : str) : str := hd [] (split_neck line).

(** A lowercase identifier. *)
Definition is_name (name : str) : Prop :=
  exists c ident, name = c :: ident /\ is_lower_az c = true /\
                  forallb is_word ident = true.

Definition has_no (c : ascii) (s : str) : Prop :=
  forallb (fun x => negb (chr_eqb x c)) s = true.

(** ** Lines *)

(** The pieces of a text between its line boundaries, every boundary
    character taken as one separator.  They are the lines of [splitlines]
    up to empty pieces. *)
Fixpoint fields (s : str) : list str :=
  match s with
  | [] => [[]]
  | c :: s' => if is_linebreak c then [] :: fields s' else cons_head c (fields s')
  end.

(** Puts [a] in front of the first piece. *)
Definition prepend (a : str) (l : list str) : list str :=
  match l with
  | [] => [a]
  | x :: l' => (a ++ x) :: l'
  end.

(** No line boundary is inside [c]. *)
Definition one_line (c : str) : Prop :=
  forallb (fun x => negb (is_linebreak x)) c = true.

(** The session file of an id holds the session of that id. *)
Definition store_ok (w : World) : Prop :=
  forall sid s, sessions w !! sid = Some s -> sessionId s = sid.

(** The text of the knowledge base after an assert that found the clauses
    [added] new. *)
Definition kb_after (kb : str) (added : list str) : str :=
  if is_empty added then kb else appended_kb kb added.

(** The new text keeps the old one: it is the old text, or the old text
    without the white space at its front followed by more text. *)
Definition keeps_old_text (old new : str) : Prop :=
  new = old \/ exists suffix, new = lstrip old ++ suffix.

(** A backend whose translation is one clause written on two lines. *)
Definition two_line_answer : str := py "foo(a," ++ [LF] ++ py "b).".

(** A first and a second assert of one sentence on a store with one session,
    with a backend that answers ["q(b)."]. *)
Definition demo_assert_env : Env := demo_env (const_llm (py "q(b).")) TimedOut.

Definition demo_assert_world1 : World :=
  saved_world demo_assert_env (demo_session (py "p(a)."))
    (py "p(a)." ++ [LF] ++ py "q(b).")
    (after_calls (demo_world (py "p(a)."))
       [py "INTENT_CLASSIFIER|A fact."; py "NL_TO_FACTS|A fact."]).

Definition demo_assert_world2 : World :=
  after_calls demo_assert_world1
    [py "INTENT_CLASSIFIER|A fact."; py "NL_TO_FACTS|A fact."].

Definition demo_assert_resp1 : Mcrws3.AssertResponse :=
  {| Mcrws3.addedFacts := [py "q(b)."];
     Mcrws3.ar_knowledgeBase := py "p(a)." ++ [LF] ++ py "q(b).";
     Mcrws3.translatedProlog := [py "q(b)."];
     Mcrws3.intent := py "FACT" |}.

Definition demo_assert_resp2 : Mcrws3.AssertResponse :=
  {| Mcrws3.addedFacts := [];
     Mcrws3.ar_knowledgeBase := py "p(a)." ++ [LF] ++ py "q(b).";
     Mcrws3.translatedProlog := [py "q(b)."];
     Mcrws3.intent := py "FACT" |}.

(* ===================================================================== *)
(** * The service around the pipeline: sessions, errors, configuration *)
(* ===================================================================== *)

Definition QUOTE : ascii := ascii_of_nat 34.
Definition STAR : ascii := "*"%char.

Definition HTTP_400_BAD_REQUEST : nat := 400.
Definition HTTP_404_NOT_FOUND : nat := 404.
Definition HTTP_500_INTERNAL_SERVER_ERROR : nat := 500.
Definition HTTP_502_BAD_GATEWAY : nat := 502.

(** [isinstance(exc, NotFoundError)] and the like. *)
Definition is_NotFoundError (e : Exn) : bool :=
  match e with NotFoundError _ => true | _ => false end.
Definition is_ProviderError (e : Exn) : bool :=
  match e with ProviderError _ => true | _ => false end.
Definition is_ValidationError (e : Exn) : bool :=
  match e with ValidationError _ => true | _ => false end.
(** [type(exc).__name__] and [str(exc)]. *)
Definition exn_type_name (e : Exn) : str :=
  match e with
  | NotFoundError _ => py "NotFoundError"
  | ProviderError _ => py "ProviderError"
  | ValidationError _ => py "ValidationError"
  | OtherException _ => py "Exception"
  end.

Definition exn_message (e : Exn) : str :=
  match e with
  | NotFoundError m | ProviderError m | ValidationError m | OtherException m => m
  end.

(** The JSON response of the exception handler: the status code, and the
    type and the message of the error. *)
Record ErrorResponse := {
  status_code : nat;
  error_type : str;
  error_message : str;
}.

(** [Session()]: a fresh id, an empty knowledge base, and the two clock
    readings of the default factories. *)
Definition new_Session (uuid4 : string) (created modified : str) : Session :=
  {| sessionId := uuid4; knowledgeBase := [];
     createdAt := created; modifiedAt := modified |}.

(** The route [POST /sessions]: [save_session] sets [modifiedAt] on the
    object that the route returns. *)
Definition create_session (env : Env) (uuid4 : string) (created modified : str)
  : M Session :=
  fun w =>
    let session := new_Session uuid4 created modified in
    match save_session env session w with
    | (inl e, w') => (inl e, w')
    | (inr _, w') =>
        (inr (set_modifiedAt (utcnow env (length (saved w))) session), w')
    end.

(** [FileContextProvider.list_sessions]: the sorted stems of the session
    files. *)
Definition list_sessions : M (list str) :=
  fun w => (inr (sorted (map (fun kv => py (fst kv)) (map_to_list (sessions w)))), w).

(** The route [GET /sessions/{session_id}]. *)
Definition get_session_route (session_id : string) : M Session :=
  get_session session_id.

(** ** The configuration of the backend *)

(** [LlmConfig]. *)
Record LlmConfig := {
  provider : str;
  model : option str;
  api_key : option str;
  base_url : option str;
}.

(** A configuration dictionary: a key is absent, or bound to [None] or to a
    string. *)
Abbreviation ConfigDict := (gmap string (option str)).

(** [config.model_dump()]. *)
Definition model_dump (config : LlmConfig) : ConfigDict :=
  <["provider"%string := Some (provider config)]>
    (<["model"%string := model config]>
       (<["api_key"%string := api_key config]>
          (<["base_url"%string := base_url config]> ∅))).

(** The store at start-up: [{"provider": "Mock", "model": "mock-model"}]. *)
Definition initial_config_store : ConfigDict :=
  <["provider"%string := Some (py "Mock")]>
    (<["model"%string := Some (py "mock-model")]> ∅).

(** [d.get(key)]: [None] for an absent key. *)
Definition dict_get (d : ConfigDict) (key : string) : option str :=
  match d !! key with
  | Some v => v
  | None => None
  end.

(** [d[key]]: a [KeyError], whose text is the quoted key, for an absent
    key. *)
Definition dict_item (d : ConfigDict) (key : string) : str + option str :=
  match d !! key with
  | Some v => inr v
  | None => inl (py "'" ++ py key ++ py "'")
  end.

(** [str(x)] for an optional string. *)
Definition str_of_option (x : option str) : str :=
  match x with Some s => s | None => py "None" end.

(** [key and all(c == '*' for c in key)]. *)
Definition is_masked (key : option str) : bool :=
  match key with
  | Some s => negb (is_empty s) && forallb (fun c => chr_eqb c STAR) s
  | None => false
  end.

(** The backends that the configuration can select. *)
Inductive LlmProvider :=
  | MockLlmProvider
  | OllamaLlmProvider (model base_url : option str)
  | GeminiLlmProvider (model api_key : option str).

(** How the constructor of a backend fails, if it does: with a [KeyError]
    or with another exception, each with its text. *)
Inductive InitFailure :=
  | InitKeyError (msg : str)
  | InitException (msg : str).

Definition failure_text (f : InitFailure) : str :=
  match f with InitKeyError m | InitException m => m end.

(** What the configuration code does not decide: [provider_init p] is the
    failure of the constructor of an Ollama or Gemini backend, if it fails;
    [getenv_GOOGLE_API_KEY] is the environment variable. *)
Record ProviderEnv := {
  provider_init : LlmProvider -> option InitFailure;
  getenv_GOOGLE_API_KEY : option str;
}.

(** The outcome of the route [POST /config/llm]: the message, or the
    [HTTPException] with its status code and detail. *)
Inductive ConfigResult :=
  | ConfigUpdated (message : str)
  | HTTPException (status : nat) (detail : str).

(** The configuration state: the stored dictionary and the backend in use. *)
Record ConfigState := {
  llm_config_store : ConfigDict;
  llm_provider : LlmProvider;
}.

Definition construct (penv : ProviderEnv) (p : LlmProvider)
  : InitFailure + LlmProvider :=
  match provider_init penv p with
  | Some f => inl f
  | None => inr p
  end.

Module Mcrws1_api.

(** [mcr_exception_handler], the handler registered for [MCRError]. *)
Definition mcr_exception_handler (exc : Exn) : ErrorResponse :=
  let code := if is_NotFoundError exc then HTTP_404_NOT_FOUND
              else HTTP_400_BAD_REQUEST in
  let code := if is_ProviderError exc then HTTP_400_BAD_REQUEST else code in
  {| status_code := code; error_type := exn_type_name exc;
     error_message := exn_message exc |}.

(** [MockLlmProvider.generate]. *)
Definition MockLlmProvider_generate (prompt : str) : str :=
  if contains prompt (py "NL_TO_RULES") && contains prompt (py "sphere is red")
  then py "color(sphere, red)."
  else if contains prompt (py "NL_TO_RULES")
          && contains prompt (py "cube is behind the sphere")
  then py "position(cube, behind, sphere)."
  else if contains prompt (py "NL_TO_QUERY")
          && contains prompt (py "sphere in front of the cube")
  then py "position(sphere, in_front_of, cube)"
  else if contains prompt (py "RESULT_TO_NL") then
    if contains prompt (py "position(sphere, in_front_of, cube)")
       && contains prompt ([QUOTE] ++ py "Yes" ++ [QUOTE])
    then py "Yes, based on the rules of spatial reasoning, the sphere is in front of the cube."
    else py "This is a mock answer."
  else py "placeholder(mock).".

(** [create_llm_provider]. *)
Definition create_llm_provider (penv : ProviderEnv) (config : ConfigDict)
  : Exn + LlmProvider :=
  let provider_name := dict_get config "provider" in
  let known :=
    match provider_name with
    | Some n => str_eqb n (py "Ollama") || str_eqb n (py "Gemini")
                || str_eqb n (py "Mock")
    | None => false
    end in
  if negb known then
    inl (ProviderError (py "Unknown LLM provider: " ++ str_of_option provider_name))
  else
    let built : str + LlmProvider :=
      if str_eqb (str_of_option provider_name) (py "Ollama") then
        match dict_item config "model" with
        | inl e => inl e
        | inr m => match dict_item config "base_url" with
                   | inl e => inl e
                   | inr b =>
                       match construct penv (OllamaLlmProvider m b) with
                       | inl f => inl (failure_text f)
                       | inr p => inr p
                       end
                   end
        end
      else if str_eqb (str_of_option provider_name) (py "Gemini") then
        match dict_item config "model" with
        | inl e => inl e
        | inr m => match dict_item config "api_key" with
                   | inl e => inl e
                   | inr k =>
                       match construct penv (GeminiLlmProvider m k) with
                       | inl f => inl (failure_text f)
                       | inr p => inr p
                       end
                   end
        end
      else inr MockLlmProvider in
    match built with
    | inr p => inr p
    | inl e =>
        inl (ProviderError (py "Failed to initialize "
                            ++ str_of_option provider_name ++ py ": " ++ e))
    end.

(** The route [POST /config/llm]. *)
Definition set_llm_config (penv : ProviderEnv) (config : LlmConfig)
    (st : ConfigState) : ConfigResult * ConfigState :=
  let new_api_key :=
    if is_masked (api_key config) then dict_get (llm_config_store st) "api_key"
    else api_key config in
  let new_config_dict := <["api_key"%string := new_api_key]> (model_dump config) in
  match create_llm_provider penv new_config_dict with
  | inr llm =>
      (ConfigUpdated (py "LLM provider updated to " ++ provider config ++ py "."),
       {| llm_config_store := new_config_dict; llm_provider := llm |})
  | inl e => (HTTPException 400 (exn_message e), st)
  end.

End Mcrws1_api.

Module Mcrws2_api.

(** [mcr_exception_handler], the handler registered for [MCRError]. *)
Definition mcr_exception_handler (exc : Exn) : ErrorResponse :=
  let code := if is_NotFoundError exc then HTTP_404_NOT_FOUND
              else HTTP_400_BAD_REQUEST in
  let code := if is_ProviderError exc then HTTP_400_BAD_REQUEST else code in
  {| status_code := code; error_type := exn_type_name exc;
     error_message := exn_message exc |}.

(** [MockLlmProvider.generate]. *)
Definition MockLlmProvider_generate (prompt : str) : str :=
  if contains prompt (py "NL_TO_RULES") then py "mock_fact(mock)."
  else if contains prompt (py "NL_TO_QUERY") then py "mock_query(X)"
  else if contains prompt (py "RESULT_TO_NL")
  then py "This is a mock answer from the MockLlmProvider."
  else py "placeholder(mock).".

(** The color of the raw result in [_display_query_trace]: ["#81c784"],
    ["#e57373"] and ["#fff176"]. *)
Inductive TraceColor := Green | Red | Yellow.

Definition result_color (result : PyValue) : TraceColor :=
  if truthy result && negb (eq_list_No result) then Green
  else if eq_list_No result then Red
  else Yellow.

(** [create_llm_provider]: the [match] is inside the [try], so the error of
    an unknown name is wrapped as every other exception; a [KeyError] has
    its own text. *)
Definition create_llm_provider (penv : ProviderEnv) (config : ConfigDict)
  : Exn + LlmProvider :=
  let provider_name := dict_get config "provider" in
  let name := str_of_option provider_name in
  let missing_key (e : str) : Exn + LlmProvider :=
    inl (ProviderError (py "Missing configuration key for " ++ name ++ py ": " ++ e)) in
  let failed (e : str) : Exn + LlmProvider :=
    inl (ProviderError (py "Failed to initialize " ++ name ++ py ": " ++ e)) in
  let named (n : string) : bool :=
    match provider_name with Some p => str_eqb p (py n) | None => false end in
  if named "Ollama" then
    match dict_item config "model" with
    | inl e => missing_key e
    | inr m => match dict_item config "base_url" with
               | inl e => missing_key e
               | inr b => match construct penv (OllamaLlmProvider m b) with
                          | inr p => inr p
                          | inl (InitKeyError e) => missing_key e
                          | inl (InitException e) => failed e
                          end
               end
    end
  else if named "Gemini" then
    match dict_item config "model" with
    | inl e => missing_key e
    | inr m => match dict_item config "api_key" with
               | inl e => missing_key e
               | inr k => match construct penv (GeminiLlmProvider m k) with
                          | inr p => inr p
                          | inl (InitKeyError e) => missing_key e
                          | inl (InitException e) => failed e
                          end
               end
    end
  else if named "Mock" then inr MockLlmProvider
  else failed (py "Unknown LLM provider: " ++ name).

(** The route [POST /config/llm]. *)
Definition set_llm_config (penv : ProviderEnv) (config : LlmConfig)
    (st : ConfigState) : ConfigResult * ConfigState :=
  let new_config_dict := model_dump config in
  let new_config_dict :=
    if is_masked (api_key config)
    then <["api_key"%string := dict_get (llm_config_store st) "api_key"]> new_config_dict
    else new_config_dict in
  match create_llm_provider penv new_config_dict with
  | inr llm =>
      (ConfigUpdated (py "LLM provider updated to " ++ provider config ++ py "."),
       {| llm_config_store := new_config_dict; llm_provider := llm |})
  | inl e => (HTTPException 400 (exn_message e), st)
  end.

End Mcrws2_api.

Module Mcrws3_api.

(** [mcr_exception_handler], the handler registered for [MCRError]. *)
Definition mcr_exception_handler (exc : Exn) : ErrorResponse :=
  let code :=
    if is_NotFoundError exc then HTTP_404_NOT_FOUND
    else if is_ProviderError exc then HTTP_502_BAD_GATEWAY
    else if is_ValidationError exc then HTTP_400_BAD_REQUEST
    else HTTP_500_INTERNAL_SERVER_ERROR in
  {| status_code := code; error_type := exn_type_name exc;
     error_message := exn_message exc |}.

(** [MockLlmProvider.generate]. *)
Definition MockLlmProvider_generate (prompt : str) : str :=
  if contains prompt (py "INTENT_CLASSIFIER") then py "FACT"
  else if contains prompt (py "NL_TO_FACTS") then py "mock_fact(mock)."
  else if contains prompt (py "NL_TO_RULES") then py "mock_rule(X) :- mock_fact(X)."
  else if contains prompt (py "NL_TO_QUERY") && contains prompt (py "george")
  then py "grandparent(Grandparent, george)"
  else if contains prompt (py "NL_TO_QUERY") then py "mock_query(X)"
  else if contains prompt (py "RESULT_TO_NL")
  then py "This is a mock answer from the MockLlmProvider."
  else py "placeholder(mock).".

(** [is_success] in [TraceBuilder.build_query_trace]:
    [result and result != ['No'] and result is not False]. *)
Definition is_success (result : PyValue) : bool :=
  truthy result && negb (eq_list_No result) && negb (is_False result).

(** [DependencyContainer._create_llm_provider]. *)
Definition _create_llm_provider (penv : ProviderEnv) (config : ConfigDict)
  : Exn + LlmProvider :=
  let provider_name := dict_get config "provider" in
  let name := str_of_option provider_name in
  let missing_key (e : str) : Exn + LlmProvider :=
    inl (ProviderError (py "Missing config key for " ++ name ++ py ": " ++ e)) in
  let failed (e : str) : Exn + LlmProvider :=
    inl (ProviderError (py "Failed to init " ++ name ++ py ": " ++ e)) in
  let named (n : string) : bool :=
    match provider_name with Some p => str_eqb p (py n) | None => false end in
  if named "Ollama" then
    match dict_item config "model" with
    | inl e => missing_key e
    | inr m => match dict_item config "base_url" with
               | inl e => missing_key e
               | inr b => match construct penv (OllamaLlmProvider m b) with
                          | inr p => inr p
                          | inl (InitKeyError e) => missing_key e
                          | inl (InitException e) => failed e
                          end
               end
    end
  else if named "Gemini" then
    let api_key :=
      match dict_get config "api_key" with
      | Some ((_ :: _) as k) => Some k
      | _ => getenv_GOOGLE_API_KEY penv
      end in
    match api_key with
    | Some (_ :: _) =>
        match dict_item config "model" with
        | inl e => missing_key e
        | inr m => match construct penv (GeminiLlmProvider m api_key) with
                   | inr p => inr p
                   | inl (InitKeyError e) => missing_key e
                   | inl (InitException e) => failed e
                   end
        end
    | _ => failed (py "Gemini API key not found.")
    end
  else inr MockLlmProvider.

(** [DependencyContainer.set_llm_config]: the store is replaced before the
    backend is built. *)
Definition container_set_llm_config (penv : ProviderEnv) (config : LlmConfig)
    (st : ConfigState) : (Exn + unit) * ConfigState :=
  let new_config_dict := model_dump config in
  let new_config_dict :=
    if is_masked (api_key config)
    then <["api_key"%string := dict_get (llm_config_store st) "api_key"]> new_config_dict
    else new_config_dict in
  match _create_llm_provider penv new_config_dict with
  | inr llm => (inr tt, {| llm_config_store := new_config_dict; llm_provider := llm |})
  | inl e => (inl e, {| llm_config_store := new_config_dict;
                        llm_provider := llm_provider st |})
  end.

(** The route [POST /config/llm]. *)
Definition set_llm_config (penv : ProviderEnv) (config : LlmConfig)
    (st : ConfigState) : ConfigResult * ConfigState :=
  match container_set_llm_config penv config st with
  | (inr _, st') =>
      (ConfigUpdated (py "LLM provider updated to " ++ provider config ++ py "."), st')
  | (inl e, st') => (HTTPException HTTP_400_BAD_REQUEST (exn_message e), st')
  end.

End Mcrws3_api.

(** ** The settings dialog *)

(** The fields of [SettingsDialog] that [get_config_data] reads. *)
Record SettingsDialog := {
  provider_combo : str;
  ollama_base_url : str;
  ollama_model : str;
  gemini_api_key : str;
  gemini_model : str;
}.

(** [SettingsDialog.get_config_data], the same in the three variants; the
    dictionary is the body of the request, read by the service as an
    [LlmConfig]. *)
Definition get_config_data (d : SettingsDialog) : LlmConfig :=
  if str_eqb (provider_combo d) (py "Ollama") then
    {| provider := provider_combo d; model := Some (ollama_model d);
       api_key := None; base_url := Some (ollama_base_url d) |}
  else if str_eqb (provider_combo d) (py "Gemini") then
    {| provider := provider_combo d; model := Some (gemini_model d);
       api_key := Some (if is_empty (gemini_api_key d) then py "********"
                        else gemini_api_key d);
       base_url := None |}
  else
    {| provider := provider_combo d; model := None; api_key := None;
       base_url := None |}.

(** ** Vocabulary of the further properties *)

(** The error of an operation on a session id without a session file. *)
Definition no_session (session_id : string) : Exn :=
  NotFoundError (py "Session '" ++ py session_id ++ py "' not found.").

(** From [w] to [w'] nothing happened but at most [n] calls of the
    generation backend: the session files and the saves are the same. *)
Definition calls_only (n : nat) (w w' : World) : Prop :=
  exists ps, length ps <= n /\ w' = after_calls w ps.

(** A query on a store with one session, with a backend that answers
    ["q(X)."] and an engine that finds nothing. *)
Definition demo_query_env : Env := demo_env (const_llm (py "q(X).")) (Returned PyNone).

Definition demo_query_response3 : Mcrws3.QueryResponse :=
  {| Mcrws3.queryProlog := py "q(X)"; Mcrws3.result := PyList [];
     Mcrws3.answer := py "q(X)."; Mcrws3.debugInfo := None |}.

Definition demo_query_world3 : World :=
  after_calls (demo_world (py "p(a).")) [py "NL_TO_QUERY|Who?"; py "RESULT_TO_NL|q(X)"].

(** What an operation on the session [sid] may do to the store: the files
    of the other sessions are as before; the file of [sid] is as before and
    nothing was saved, or it was saved once, under the same id and with the
    same creation time, and the file holds what was saved. *)
Definition session_step (sid : string) (w w' : World) : Prop :=
  (forall sid', sid' <> sid -> sessions w' !! sid' = sessions w !! sid') /\
  match sessions w !! sid with
  | None => sessions w' !! sid = None /\ saved w' = saved w
  | Some s =>
      exists s', sessions w' !! sid = Some s' /\
        sessionId s' = sid /\ createdAt s' = createdAt s /\
        ((s' = s /\ saved w' = saved w) \/ saved w' = saved w ++ [s'])
  end.





(** The name of a backend that the configuration code knows. *)
Definition known_provider (name : str) : bool :=
  str_eqb name (py "Ollama") || str_eqb name (py "Gemini") || str_eqb name (py "Mock").

(** Requests for the examples. *)
Definition ollama_config : LlmConfig :=
  {| provider := py "Ollama"; model := Some (py "llama3"); api_key := None;
     base_url := Some (py "http://localhost:11434") |}.

Definition gemini_keyless_config : LlmConfig :=
  {| provider := py "Gemini"; model := Some (py "gemini-pro");
     api_key := None; base_url := None |}.

Definition unknown_config : LlmConfig :=
  {| provider := py "OpenAI"; model := None; api_key := None; base_url := None |}.

(** A key that counts as present: a string that is not empty. *)
Definition usable_key (key : option str) : bool :=
  match key with
  | Some (_ :: _) => true
  | _ => false
  end.

(** The dialog with Gemini selected and the key field left empty. *)
Definition demo_dialog : SettingsDialog :=
  {| provider_combo := py "Gemini"; ollama_base_url := py "http://localhost:11434";
     ollama_model := py "llama3"; gemini_api_key := []; gemini_model := py "gemini-pro" |}.

(** A list of strings in ascending order. *)
Fixpoint ascending (l : list str) : Prop :=
  match l with
  | x :: (y :: _) as l' => str_leb x y = true /\ ascending l'
  | _ => True
  end.

(** The number of times [c] occurs in [l]. *)
Definition occurrences (c : str) (l : list str) : nat :=
  length (List.filter (str_eqb c) l).

(** The environment whose backend is the mock of mcrws1, mcrws2, mcrws3. *)
Definition with_llm (env : Env) (llm : str -> str) : Env :=
  {| llm_generate := fun _ prompt => inr (llm prompt);
     utcnow := utcnow env; engine_load := engine_load env;
     engine_query := engine_query env; json_dumps := json_dumps env |}.

(** A configuration environment in which no constructor fails. *)
Definition demo_penv : ProviderEnv :=
  {| provider_init := fun _ => None; getenv_GOOGLE_API_KEY := None |}.

(** One in which the constructor of the Ollama backend fails. *)
Definition failing_penv : ProviderEnv :=
  {| provider_init := fun p => match p with
                               | OllamaLlmProvider _ _ =>
                                   Some (InitException (py "connection refused"))
                               | _ => None
                               end;
     getenv_GOOGLE_API_KEY := None |}.

Definition demo_config_state : ConfigState :=
  {| llm_config_store :=
       <["api_key"%string := Some (py "secret")]> initial_config_store;
     llm_provider := MockLlmProvider |}.

(* ===================================================================== *)
(** * The operations on small inputs *)
(* ===================================================================== *)

Example splitlines_ex :
  splitlines (py "a" ++ [CR; LF] ++ py "b" ++ [LF; LF] ++ py "c" ++ [LF])
  = [py "a"; py "b"; []; py "c"].
Proof. reflexivity. Qed.

Example split_neck_ex :
  split_neck (py "h(X) :- a(X), b(X).") = [py "h(X) "; py " a(X), b(X)."].
Proof. reflexivity. Qed.

Example strip_ex : strip (py "  foo(a).  " ++ [LF]) = py "foo(a).".
Proof. reflexivity. Qed.

Example str_of_int_ex : str_of_Z (-1) = py "-1" /\ str_of_nat 12 = py "12".
Proof. split; reflexivity. Qed.

Example extract_prolog_ex :
  let text := py "Sure:" ++ [LF] ++ py "% facts" ++ [LF] ++ py "  parent(a, b)  "
              ++ [LF] ++ py "g(X) :- parent(X, Y)." in
  Mcrws1._extract_prolog text
  = [py "Sure:."; py "parent(a, b)."; py "g(X) :- parent(X, Y)."] /\
  Mcrws2._extract_prolog text
  = [py "Sure:"; py "parent(a, b)."; py "g(X) :- parent(X, Y)."] /\
  Mcrws3._extract_prolog text = [py "g(X) :- parent(X, Y)."].
Proof. repeat split. Qed.

(** In mcrws3 a line is a candidate only where it begins: the indented fact
    above is passed over, and a clause may run over several lines. *)
Example extract_prolog_lines_ex :
  Mcrws3._extract_prolog (py "parent(a," ++ [LF] ++ py "  b)" ++ [LF] ++ py "q(c).")
  = [py "parent(a," ++ [LF] ++ py "  b)."; py "q(c)."].
Proof. reflexivity. Qed.

Example get_kb_schema_ex :
  let kb := py "parent(elizabeth, charles)." ++ [LF] ++ py "% royal" ++ [LF]
            ++ py "grandparent(GP, GC) :- parent(GP, P), parent(P, GC)." in
  Mcrws2._get_kb_schema kb = [py "grandparent/2"; py "parent/2"] /\
  Mcrws3._get_kb_schema kb
  = [py "charles"; py "elizabeth"; py "grandparent/2"; py "parent/2"].
Proof. split; reflexivity. Qed.

(** The identifier of [predicate_regex] gives back its last character when
    nothing follows it. *)
Example predicate_regex_ex :
  Regex.match_predicate_regex (py "foo") = Some (py "fo") /\
  Regex.match_predicate_regex (py "foo.") = Some (py "foo") /\
  Regex.match_predicate_regex (py "f") = None.
Proof. repeat split. Qed.

(* ===================================================================== *)
(** * Properties of the string operations *)
(* ===================================================================== *)

Lemma chr_eqb_eq (a b : ascii) : chr_eqb a b = true <-> a = b.
Proof. unfold chr_eqb. apply Ascii.eqb_eq. Qed.

Lemma chr_eqb_refl (a : ascii) : chr_eqb a a = true.
Proof. apply chr_eqb_eq. reflexivity. Qed.

Lemma chr_eqb_neq (a b : ascii) : chr_eqb a b = false <-> a <> b.
Proof. unfold chr_eqb. apply Ascii.eqb_neq. Qed.

Lemma str_eqb_eq (a b : str) : str_eqb a b = true <-> a = b.
Proof.
  revert b. induction a as [|x a IH]; intros [|y b]; simpl; split;
    try congruence; try reflexivity.
  - intros H. apply andb_true_iff in H as [H1 H2].
    apply chr_eqb_eq in H1. apply IH in H2. congruence.
  - intros H. injection H as -> ->. rewrite chr_eqb_refl. simpl.
    apply IH. reflexivity.
Qed.

Lemma str_in_In (x : str) (l : list str) : str_in x l = true <-> In x l.
Proof.
  unfold str_in. rewrite existsb_exists. split.
  - intros (y & Hy & E). apply str_eqb_eq in E. subst. exact Hy.
  - intros H. exists x. split; [exact H | apply str_eqb_eq; reflexivity].
Qed.

Lemma str_in_false (x : str) (l : list str) : str_in x l = false <-> ~ In x l.
Proof.
  rewrite <- str_in_In. destruct (str_in x l); split; intros; congruence.
Qed.

Lemma is_empty_true {A} (l : list A) : is_empty l = true <-> l = [].
Proof. destruct l; simpl; split; congruence. Qed.

Lemma is_empty_false {A} (l : list A) : is_empty l = false <-> l <> [].
Proof. destruct l; simpl; split; congruence. Qed.

Section Strip.
Variable p : ascii -> bool.

Lemma lstrip_by_stop (a b : str) (c : ascii) :
  p c = false -> lstrip_by p (a ++ c :: b) = lstrip_by p a ++ c :: b.
Proof.
  intros Hc. induction a as [|x a IH]; simpl.
  - rewrite Hc. reflexivity.
  - destruct (p x); [exact IH | reflexivity].
Qed.

Lemma lstrip_by_all (a b : str) :
  forallb p a = true -> lstrip_by p (a ++ b) = lstrip_by p b.
Proof.
  induction a as [|x a IH]; simpl; intros H; [reflexivity|].
  apply andb_true_iff in H as [Hx Ha]. rewrite Hx. auto.
Qed.

Lemma lstrip_by_head (s r : str) (c : ascii) :
  lstrip_by p s = c :: r -> p c = false.
Proof.
  induction s as [|x s IH]; simpl; [discriminate|].
  destruct (p x) eqn:E; [exact IH|]. intros H. injection H as -> _. exact E.
Qed.

Lemma lstrip_by_keep (s : str) (c : ascii) :
  p c = false -> lstrip_by p (c :: s) = c :: s.
Proof. intros H. simpl. rewrite H. reflexivity. Qed.

Lemma lstrip_by_idem (s : str) : lstrip_by p (lstrip_by p s) = lstrip_by p s.
Proof.
  destruct (lstrip_by p s) as [|c r] eqn:E; [reflexivity|].
  apply lstrip_by_keep. eapply lstrip_by_head. exact E.
Qed.

(** What is stripped on the left is a run of [p]-characters. *)
Lemma lstrip_by_split (s : str) :
  exists a, s = a ++ lstrip_by p s /\ forallb p a = true.
Proof.
  induction s as [|x s (a & E & Ha)]; simpl.
  - exists []. split; reflexivity.
  - destruct (p x) eqn:Hx.
    + exists (x :: a). simpl. rewrite Hx, Ha. split; [congruence | reflexivity].
    + exists []. split; reflexivity.
Qed.

Lemma rstrip_by_stop (a b : str) (c : ascii) :
  p c = false -> rstrip_by p (a ++ c :: b) = a ++ c :: rstrip_by p b.
Proof.
  intros Hc. unfold rstrip_by.
  rewrite rev_app_distr. simpl. rewrite <- app_assoc. simpl.
  rewrite lstrip_by_stop by exact Hc.
  rewrite rev_app_distr. simpl. rewrite rev_involutive, <- app_assoc.
  reflexivity.
Qed.

Lemma rstrip_by_nil : rstrip_by p [] = [].
Proof. reflexivity. Qed.

Lemma rstrip_by_last (s : str) (c : ascii) :
  p c = false -> rstrip_by p (s ++ [c]) = s ++ [c].
Proof. intros H. rewrite rstrip_by_stop by exact H. reflexivity. Qed.


(** The last character that is left by [rstrip_by] is not a [p]-character. *)
Lemma rstrip_by_end (s r : str) (c : ascii) :
  rstrip_by p s = r ++ [c] -> p c = false.
Proof.
  unfold rstrip_by. intros H.
  apply (f_equal (@rev ascii)) in H. rewrite rev_involutive in H.
  rewrite rev_app_distr in H. simpl in H.
  eapply lstrip_by_head. exact H.
Qed.
End Strip.

Lemma trimmed_strip_eq (s : str) : trimmed s -> strip s = s.
Proof. intros [H1 H2]. unfold strip. rewrite H1. exact H2. Qed.

Lemma rstrip_keeps_head (c : ascii) (s : str) :
  is_space c = false -> exists r, rstrip (c :: s) = c :: r.
Proof.
  intros H. unfold rstrip.
  pose proof (rstrip_by_stop is_space [] s c H) as E. simpl in E.
  rewrite E. eauto.
Qed.

Lemma strip_trimmed (s : str) : trimmed (strip s).
Proof.
  unfold trimmed, strip. split.
  - destruct (lstrip s) as [|c r] eqn:E; [reflexivity|].
    assert (Hc : is_space c = false) by (eapply lstrip_by_head; exact E).
    destruct (rstrip_keeps_head c r Hc) as (r' & ->).
    apply lstrip_by_keep. exact Hc.
  - unfold rstrip, rstrip_by. rewrite rev_involutive, lstrip_by_idem.
    reflexivity.
Qed.

Lemma strip_idem (s : str) : strip (strip s) = strip s.
Proof. apply trimmed_strip_eq, strip_trimmed. Qed.

Lemma trimmed_cons (c : ascii) (s : str) :
  trimmed (c :: s) -> is_space c = false.
Proof. intros [H _]. eapply lstrip_by_head. exact H. Qed.

Lemma trimmed_snoc (s : str) (c : ascii) :
  is_space c = false -> lstrip s = s -> trimmed (s ++ [c]).
Proof.
  intros Hc Hs. split.
  - destruct s as [|x s]; simpl.
    + unfold lstrip. simpl. rewrite Hc. reflexivity.
    + apply lstrip_by_keep. eapply lstrip_by_head. exact Hs.
  - apply rstrip_by_last. exact Hc.
Qed.

Lemma startswith_nil (s : str) : startswith s [] = true.
Proof. destruct s; reflexivity. Qed.

Lemma startswith_cons (c : ascii) (s : str) (x : ascii) :
  startswith (c :: s) [x] = chr_eqb c x.
Proof. simpl. rewrite startswith_nil. apply andb_true_r. Qed.

Lemma endswith_snoc (s : str) (c x : ascii) :
  endswith (s ++ [c]) [x] = chr_eqb c x.
Proof.
  unfold endswith. rewrite rev_app_distr. simpl.
  rewrite startswith_nil. apply andb_true_r.
Qed.

Lemma endswith_char (s : str) (x : ascii) :
  endswith s [x] = true -> exists r, s = r ++ [x].
Proof.
  unfold endswith. destruct (rev s) as [|c r] eqn:E; simpl; [discriminate|].
  rewrite startswith_nil, andb_true_r. intros H. apply chr_eqb_eq in H. subst c.
  exists (rev r). apply (f_equal (@rev ascii)) in E.
  rewrite rev_involutive in E. exact E.
Qed.

Lemma dot_not_space : is_space DOT = false.
Proof. reflexivity. Qed.

Lemma terminate_ends (l : str) : endswith (terminate l) [DOT] = true.
Proof.
  unfold terminate. destruct (endswith l [DOT]) eqn:E; [exact E|].
  rewrite endswith_snoc. apply chr_eqb_refl.
Qed.

Lemma terminate_prefix (l : str) : exists t, terminate l = l ++ t.
Proof.
  unfold terminate. destruct (endswith l [DOT]).
  - exists []. rewrite app_nil_r. reflexivity.
  - eauto.
Qed.

Lemma terminate_trimmed (l : str) : trimmed l -> trimmed (terminate l).
Proof.
  intros H. unfold terminate. destruct (endswith l [DOT]); [exact H|].
  apply trimmed_snoc; [apply dot_not_space | apply H].
Qed.

(** Decides a comparison of character classes: every test on the code is
    split into its two cases. *)
Ltac code_cases :=
  repeat match goal with
    | H : context [?a <=? ?b] |- _ => destruct (Nat.leb_spec a b)
    | H : context [?a =? ?b] |- _ => destruct (Nat.eqb_spec a b)
    | |- context [?a <=? ?b] => destruct (Nat.leb_spec a b)
    | |- context [?a =? ?b] => destruct (Nat.eqb_spec a b)
    end;
  simpl in *; try reflexivity; try discriminate; try lia.

Lemma lower_az_not_space (c : ascii) : is_lower_az c = true -> is_space c = false.
Proof.
  unfold is_lower_az, is_space. cbv zeta. generalize (code c). intros n H.
  code_cases.
Qed.

Lemma word_not_space (c : ascii) : is_word c = true -> is_space c = false.
Proof.
  unfold is_word, is_lower_az, is_upper_az, is_digit, is_space. cbv zeta.
  generalize (code c). intros n H. code_cases.
Qed.

Lemma linebreak_is_space (c : ascii) : is_linebreak c = true -> is_space c = true.
Proof.
  unfold is_linebreak, is_space. cbv zeta. generalize (code c). intros n H.
  code_cases.
Qed.

Lemma lower_az_not_percent (c : ascii) : is_lower_az c = true -> chr_eqb c PERCENT = false.
Proof.
  intros H. apply chr_eqb_neq. intros ->. discriminate H.
Qed.

(* ===================================================================== *)
(** * The clause normalizers *)
(* ===================================================================== *)

Lemma span_spec (p : ascii -> bool) (s a b : str) :
  span p s = (a, b) ->
  s = a ++ b /\ forallb p a = true /\ (forall c r, b = c :: r -> p c = false).
Proof.
  revert a b. induction s as [|x s IH]; simpl; intros a b H.
  - injection H as <- <-. repeat split. intros c r E. discriminate E.
  - destruct (p x) eqn:Hx.
    + destruct (span p s) as [a' b'] eqn:E. injection H as <- <-.
      destruct (IH a' b' eq_refl) as (-> & Ha & Hb).
      simpl. rewrite Hx, Ha. repeat split. exact Hb.
    + injection H as <- <-. repeat split.
      intros c r E. injection E as <- _. exact Hx.
Qed.

Lemma span_app_stop (p : ascii -> bool) (a b : str) (c : ascii) :
  forallb p a = true -> p c = false -> span p (a ++ c :: b) = (a, c :: b).
Proof.
  intros Ha Hc. induction a as [|x a IH]; simpl.
  - rewrite Hc. reflexivity.
  - simpl in Ha. apply andb_true_iff in Ha as [Hx Ha].
    rewrite Hx, (IH Ha). reflexivity.
Qed.

Lemma word_not_lparen (c : ascii) : is_word c = true -> chr_eqb c LPAREN = false.
Proof. intros H. apply chr_eqb_neq. intros ->. discriminate H. Qed.

(** The shape check, spelled out. *)
Lemma begins_with_name_lparen_spec (s : str) :
  begins_with_name_lparen s = true <->
  exists c ident rest,
    s = c :: ident ++ LPAREN :: rest /\
    is_lower_az c = true /\ forallb is_word ident = true.
Proof.
  unfold begins_with_name_lparen, Regex.match_name_lparen. split.
  - destruct s as [|c s1]; [discriminate|].
    destruct (is_lower_az c) eqn:Hc; [|discriminate].
    destruct (span is_word s1) as [ident s2] eqn:E.
    destruct (span_spec _ _ _ _ E) as (-> & Hi & _).
    destruct s2 as [|q s3]; [discriminate|].
    destruct (chr_eqb q LPAREN) eqn:Hq; [|discriminate].
    apply chr_eqb_eq in Hq. subst q. intros _. eauto 6.
  - intros (c & ident & rest & -> & Hc & Hi). rewrite Hc.
    rewrite (span_app_stop is_word ident rest LPAREN Hi eq_refl).
    reflexivity.
Qed.

Lemma begins_with_name_lparen_app (s t : str) :
  begins_with_name_lparen s = true -> begins_with_name_lparen (s ++ t) = true.
Proof.
  rewrite !begins_with_name_lparen_spec.
  intros (c & ident & rest & -> & Hc & Hi).
  exists c, ident, (rest ++ t). repeat split; try assumption.
  simpl. rewrite <- app_assoc. reflexivity.
Qed.

(** ** mcrws1 and mcrws2: every line that is not blank and not a comment *)

Lemma v1_extract_prolog_in (text c : str) :
  In c (Mcrws1._extract_prolog text) <->
  exists line,
    In line (split_char LF text) /\ strip line <> [] /\
    startswith (strip line) [PERCENT] = false /\ c = terminate (strip line).
Proof.
  unfold Mcrws1._extract_prolog. rewrite in_map_iff. split.
  - intros (l & <- & Hl). apply in_map_iff in Hl as (line & <- & Hline).
    apply filter_In in Hline as (Hin & Hf).
    apply andb_true_iff in Hf as (H1 & H2).
    apply negb_true_iff in H1, H2. apply is_empty_false in H1.
    exists line. repeat split; assumption.
  - intros (line & Hin & H1 & H2 & ->). exists (strip line).
    split; [reflexivity|]. apply in_map. apply filter_In. split; [exact Hin|].
    apply is_empty_false in H1. rewrite H1, H2. reflexivity.
Qed.

Lemma v2_extract_prolog_in (text c : str) :
  In c (Mcrws2._extract_prolog text) <->
  exists line,
    In line (split_char LF text) /\ strip line <> [] /\
    startswith (strip line) [PERCENT] = false /\
    c = (if Regex.search_colon_or_dot_at_end (strip line)
         then strip line else strip line ++ [DOT]).
Proof.
  unfold Mcrws2._extract_prolog. rewrite in_map_iff. split.
  - intros (l & <- & Hl). apply in_map_iff in Hl as (line & <- & Hline).
    apply filter_In in Hline as (Hin & Hf).
    apply andb_true_iff in Hf as (H1 & H2).
    apply negb_true_iff in H1, H2. apply is_empty_false in H1.
    exists line. repeat split; assumption.
  - intros (line & Hin & H1 & H2 & ->). exists (strip line).
    split; [reflexivity|]. apply in_map. apply filter_In. split; [exact Hin|].
    apply is_empty_false in H1. rewrite H1, H2. reflexivity.
Qed.

(** A trimmed line that is not empty and not a comment stays so when the
    terminator is put after it. *)
Lemma snoc_line_ok (l : str) (x : ascii) :
  trimmed l -> l <> [] -> startswith l [PERCENT] = false -> is_space x = false ->
  trimmed (l ++ [x]) /\ l ++ [x] <> [] /\ startswith (l ++ [x]) [PERCENT] = false.
Proof.
  intros Ht Hne Hc Hx. split; [|split].
  - apply trimmed_snoc; [exact Hx | apply Ht].
  - destruct l; discriminate.
  - destruct l as [|c r]; [congruence|].
    change ((c :: r) ++ [x]) with (c :: (r ++ [x])).
    rewrite startswith_cons in *. exact Hc.
Qed.

Lemma terminate_line_ok (l : str) :
  trimmed l -> l <> [] -> startswith l [PERCENT] = false ->
  endswith (terminate l) [DOT] = true /\ trimmed (terminate l) /\
  terminate l <> [] /\ startswith (terminate l) [PERCENT] = false.
Proof.
  intros Ht Hne Hc. split; [apply terminate_ends|].
  unfold terminate. destruct (endswith l [DOT]).
  - repeat split; assumption || apply Ht.
  - apply snoc_line_ok; auto.
Qed.

Lemma search_colon_or_dot_trimmed (l : str) :
  trimmed l -> Regex.search_colon_or_dot_at_end l = true ->
  endswith l [DOT] = true \/ endswith l [COLON] = true.
Proof.
  intros [_ Hr] H. unfold Regex.search_colon_or_dot_at_end in H.
  destruct (rev l) as [|c r] eqn:E; [discriminate|].
  assert (El : l = rev r ++ [c]).
  { apply (f_equal (@rev ascii)) in E. rewrite rev_involutive in E. exact E. }
  subst l. rewrite !endswith_snoc.
  apply orb_true_iff in H as [H|H].
  - unfold Regex.is_colon_or_dot in H. apply orb_true_iff in H. tauto.
  - apply andb_true_iff in H as [H _]. apply chr_eqb_eq in H. subst c.
    apply rstrip_by_end in Hr. discriminate Hr.
Qed.

(** ** mcrws3: the matches of [prolog_pattern] *)

Lemma upto_rparen_spec (s a b : str) :
  Regex.upto_rparen s = Some (a, b) -> s = a ++ RPAREN :: b.
Proof.
  revert a b. induction s as [|c s IH]; simpl; intros a b H; [discriminate|].
  destruct (chr_eqb c RPAREN) eqn:Hc.
  - injection H as <- <-. apply chr_eqb_eq in Hc. subst c. reflexivity.
  - destruct (Regex.upto_rparen s) as [[a' b']|]; [|discriminate].
    injection H as <- <-. rewrite (IH a' b' eq_refl). reflexivity.
Qed.

Lemma optional_dot_spec (s d r : str) :
  Regex.optional_dot s = (d, r) -> s = d ++ r.
Proof.
  unfold Regex.optional_dot. destruct s as [|c s].
  - intros H. injection H as <- <-. reflexivity.
  - destruct (chr_eqb c DOT); intros H; injection H as <- <-; reflexivity.
Qed.

Lemma optional_neck_spec (s n r : str) :
  Regex.optional_neck s = (n, r) -> s = n ++ r.
Proof.
  unfold Regex.optional_neck. destruct s as [|c [|d s]];
    try (intros H; injection H as <- <-; reflexivity).
  destruct (chr_eqb c COLON && chr_eqb d DASH).
  - destruct (span _ s) as [t r'] eqn:E. intros H. injection H as <- <-.
    apply span_spec in E as (-> & _). reflexivity.
  - intros H. injection H as <- <-. reflexivity.
Qed.

(** A match is a prefix of the text; it begins with a lowercase identifier
    and an opening parenthesis, and it holds a closing parenthesis. *)
Lemma match_prolog_pattern_spec (s m rest : str) :
  Regex.match_prolog_pattern s = Some (m, rest) ->
  s = m ++ rest /\
  exists c ident body after,
    m = c :: ident ++ LPAREN :: body ++ RPAREN :: after /\
    is_lower_az c = true /\ forallb is_word ident = true.
Proof.
  unfold Regex.match_prolog_pattern.
  destruct s as [|c s1]; [discriminate|].
  destruct (is_lower_az c) eqn:Hc; [|discriminate].
  destruct (span is_word s1) as [ident s2] eqn:E1.
  destruct s2 as [|q s3]; [discriminate|].
  destruct (chr_eqb q LPAREN) eqn:Hq; [|discriminate].
  destruct (Regex.upto_rparen s3) as [[body s4]|] eqn:E2; [|discriminate].
  destruct (Regex.optional_dot s4) as [dot s5] eqn:E3.
  destruct (span is_space s5) as [ws s6] eqn:E4.
  destruct (Regex.optional_neck s6) as [neck s7] eqn:E5.
  intros H. injection H as <- <-.
  apply chr_eqb_eq in Hq. subst q.
  apply span_spec in E1 as (-> & Hi & _).
  apply upto_rparen_spec in E2 as ->.
  apply optional_dot_spec in E3 as ->.
  apply span_spec in E4 as (-> & _).
  apply optional_neck_spec in E5 as ->.
  split.
  - simpl. repeat (rewrite <- app_assoc; simpl). reflexivity.
  - exists c, ident, body, (dot ++ ws ++ neck). repeat split; assumption.
Qed.

Lemma match_prolog_pattern_shorter (s m rest : str) :
  Regex.match_prolog_pattern s = Some (m, rest) -> length rest < length s.
Proof.
  intros H. apply match_prolog_pattern_spec in H as (-> & c & i & b & a & -> & _).
  rewrite length_app. simpl. lia.
Qed.

(** Where a recorded match comes from: it begins at the start of a line of
    the text, and it is the match of the pattern there. *)
Lemma findall_from_spec (fuel : nat) :
  forall (bol : bool) (s m : str),
    In m (Regex.findall_from fuel bol s) ->
    exists pre post,
      s = pre ++ m ++ post /\
      ((pre = [] /\ bol = true) \/ exists pre', pre = pre' ++ [LF]) /\
      Regex.match_prolog_pattern (m ++ post) = Some (m, post).
Proof.
  induction fuel as [|fuel IH]; intros bol s m; simpl; [tauto|].
  destruct s as [|c s']; [simpl; tauto|].
  destruct (if bol then Regex.match_prolog_pattern (c :: s') else None)
    as [[m0 rest]|] eqn:E.
  - destruct bol; [|discriminate].
    pose proof (match_prolog_pattern_spec _ _ _ E) as (Es & _).
    intros [<-|Hin].
    + exists [], rest. simpl. rewrite <- Es. auto.
    + apply IH in Hin as (pre & post & -> & Hpre & Hm).
      exists (m0 ++ pre), post. split; [|split].
      * rewrite Es, <- app_assoc. reflexivity.
      * right. destruct Hpre as [[-> Hend]|(pre' & ->)].
        -- apply endswith_char in Hend as (r & ->). exists r.
           rewrite app_nil_r. reflexivity.
        -- exists (m0 ++ pre'). rewrite app_assoc. reflexivity.
      * exact Hm.
  - intros Hin. apply IH in Hin as (pre & post & -> & Hpre & Hm).
    exists (c :: pre), post. split; [reflexivity|]. split; [|exact Hm].
    right. destruct Hpre as [[-> Hc]|(pre' & ->)].
    + apply chr_eqb_eq in Hc. subst c. exists []. reflexivity.
    + exists (c :: pre'). reflexivity.
Qed.

Lemma findall_from_cons (fuel : nat) (bol : bool) (c : ascii) (s' : str) :
  Regex.findall_from (S fuel) bol (c :: s') =
  match (if bol then Regex.match_prolog_pattern (c :: s') else None) with
  | Some (m, rest) => m :: Regex.findall_from fuel (endswith m [LF]) rest
  | None => Regex.findall_from fuel (chr_eqb c LF) s'
  end.
Proof. reflexivity. Qed.

(** More steps than the length of the text change nothing. *)
Lemma findall_from_fuel (fuel : nat) :
  forall (bol : bool) (s : str),
    length s <= fuel ->
    Regex.findall_from fuel bol s = Regex.findall_from (length s) bol s.
Proof.
  induction fuel as [fuel IH] using lt_wf_ind. intros bol s Hlen.
  destruct s as [|c s'].
  - destruct fuel; reflexivity.
  - destruct fuel as [|fuel]; [simpl in Hlen; lia|].
    simpl in Hlen. change (length (c :: s')) with (S (length s')).
    rewrite !findall_from_cons.
    destruct (if bol then Regex.match_prolog_pattern (c :: s') else None)
      as [[m0 rest]|] eqn:E.
    + assert (Hr : length rest < length (c :: s')).
      { destruct bol; [|discriminate].
        eapply match_prolog_pattern_shorter. exact E. }
      simpl in Hr. apply (f_equal (cons m0)).
      rewrite (IH fuel) by lia.
      rewrite (IH (length s')) by lia. reflexivity.
    + apply IH; lia.
Qed.

(** What a match looks like after [strip] and the terminator. *)
Lemma v3_clause_of_match (m : str) :
  (exists c ident body after,
     m = c :: ident ++ LPAREN :: body ++ RPAREN :: after /\
     is_lower_az c = true /\ forallb is_word ident = true) ->
  let l := strip m in
  trimmed l /\ l <> [] /\ startswith l [PERCENT] = false /\
  begins_with_name_lparen l = true.
Proof.
  intros (c & ident & body & after & -> & Hc & Hi). cbv zeta.
  assert (El : strip (c :: ident ++ LPAREN :: body ++ RPAREN :: after)
               = c :: ident ++ LPAREN :: body ++ RPAREN :: rstrip after).
  { unfold strip, lstrip.
    rewrite lstrip_by_keep by (apply lower_az_not_space; exact Hc).
    assert (E : c :: ident ++ LPAREN :: body ++ RPAREN :: after
                = (c :: ident ++ LPAREN :: body) ++ RPAREN :: after)
      by (simpl; rewrite <- app_assoc; reflexivity).
    rewrite E. unfold rstrip. rewrite rstrip_by_stop by reflexivity.
    simpl. rewrite <- app_assoc. reflexivity. }
  rewrite El. split; [|split; [|split]].
  - rewrite <- El. apply strip_trimmed.
  - discriminate.
  - rewrite startswith_cons. apply lower_az_not_percent. exact Hc.
  - apply begins_with_name_lparen_spec. eauto 7.
Qed.

Lemma v3_extract_prolog_in (text c : str) :
  In c (Mcrws3._extract_prolog text) ->
  exists pre m post,
    text = pre ++ m ++ post /\ at_line_start pre /\
    Regex.match_prolog_pattern (m ++ post) = Some (m, post) /\
    c = terminate (strip m).
Proof.
  unfold Mcrws3._extract_prolog, Regex.findall_prolog_pattern.
  intros H. apply in_map_iff in H as (m & <- & Hin).
  apply findall_from_spec in Hin as (pre & post & E & Hpre & Hm).
  exists pre, m, post. repeat split; try assumption.
  destruct Hpre as [[-> _]|Hpre]; [left; reflexivity | right; exact Hpre].
Qed.

Lemma v3_extract_prolog_clause (text c : str) :
  In c (Mcrws3._extract_prolog text) ->
  endswith c [DOT] = true /\ trimmed c /\ c <> [] /\
  startswith c [PERCENT] = false /\ begins_with_name_lparen c = true.
Proof.
  intros H. apply v3_extract_prolog_in in H as (pre & m & post & _ & _ & Hm & ->).
  apply match_prolog_pattern_spec in Hm as (_ & Hshape).
  destruct (v3_clause_of_match m Hshape) as (Ht & Hne & Hc & Hs).
  destruct (terminate_line_ok _ Ht Hne Hc) as (H1 & H2 & H3 & H4).
  repeat split; try assumption; try apply H2.
  destruct (terminate_prefix (strip m)) as (t & ->).
  apply begins_with_name_lparen_app. exact Hs.
Qed.

Lemma v1_extract_prolog_clause (text c : str) :
  In c (Mcrws1._extract_prolog text) ->
  endswith c [DOT] = true /\ trimmed c /\ c <> [] /\
  startswith c [PERCENT] = false.
Proof.
  intros H. apply v1_extract_prolog_in in H as (line & _ & Hne & Hc & ->).
  apply terminate_line_ok; [apply strip_trimmed | exact Hne | exact Hc].
Qed.

Lemma v2_extract_prolog_clause (text c : str) :
  In c (Mcrws2._extract_prolog text) ->
  (endswith c [DOT] = true \/ endswith c [COLON] = true) /\ trimmed c /\
  c <> [] /\ startswith c [PERCENT] = false.
Proof.
  intros H. apply v2_extract_prolog_in in H as (line & _ & Hne & Hc & ->).
  pose proof (strip_trimmed line) as Ht.
  destruct (Regex.search_colon_or_dot_at_end (strip line)) eqn:E.
  - split; [apply search_colon_or_dot_trimmed; assumption|].
    repeat split; assumption || apply Ht.
  - split; [left; rewrite endswith_snoc; apply chr_eqb_refl|].
    apply snoc_line_ok; auto.
Qed.

(** C2, as amended.  In mcrws1 and in mcrws3 every string that the clause
    normalizer emits ends with the terminator ['.'], is not blank and is not
    a comment line.  In mcrws2 an emitted string is not blank and not a
    comment line either, but it ends with ['.'] or with [':']: a line that
    already ends with a colon is emitted as it is. *)
Theorem C2_normalizer_terminated (text c : str) :
  (In c (Mcrws1._extract_prolog text) \/ In c (Mcrws3._extract_prolog text) ->
   endswith c [DOT] = true /\ strip c <> [] /\
   startswith c [PERCENT] = false /\ startswith (strip c) [PERCENT] = false)
  /\
  (In c (Mcrws2._extract_prolog text) ->
   (endswith c [DOT] = true \/ endswith c [COLON] = true) /\ strip c <> [] /\
   startswith c [PERCENT] = false /\ startswith (strip c) [PERCENT] = false).
Proof.
  split.
  - intros [H|H].
    + apply v1_extract_prolog_clause in H as (H1 & H2 & H3 & H4).
      rewrite (trimmed_strip_eq c H2). auto.
    + apply v3_extract_prolog_clause in H as (H1 & H2 & H3 & H4 & _).
      rewrite (trimmed_strip_eq c H2). auto.
  - intros H. apply v2_extract_prolog_clause in H as (H1 & H2 & H3 & H4).
    rewrite (trimmed_strip_eq c H2). auto.
Qed.

Lemma C2_normalizer_terminated_witness :
  (endswith (py "color(sphere, red).") [DOT] = true /\
   strip (py "color(sphere, red).") <> [] /\
   startswith (py "color(sphere, red).") [PERCENT] = false /\
   startswith (strip (py "color(sphere, red).")) [PERCENT] = false)
  /\
  ((endswith (py "Facts:") [DOT] = true \/ endswith (py "Facts:") [COLON] = true) /\
   strip (py "Facts:") <> [] /\
   startswith (py "Facts:") [PERCENT] = false /\
   startswith (strip (py "Facts:")) [PERCENT] = false).
Proof.
  split.
  - apply (proj1 (C2_normalizer_terminated
                    (py "% a comment" ++ [LF] ++ py "color(sphere, red)")
                    (py "color(sphere, red).")));
      right; vm_compute; auto.
  - apply (proj2 (C2_normalizer_terminated
                    (py "Facts:" ++ [LF] ++ py "color(sphere, red)")
                    (py "Facts:")));
      vm_compute; auto.
Defined.

(** C2 fails in mcrws2: the line ["Here are the facts:"] is emitted without
    a terminator. *)
Lemma C2_counterexample :
  exists c,
    In c (Mcrws2._extract_prolog (py "Here are the facts:")) /\
    endswith c [DOT] = false.
Proof. exists (py "Here are the facts:"). vm_compute. auto. Qed.

(** C3, as amended.  In mcrws3 the clause normalizer emits only candidate
    clauses: an emitted string begins with a lowercase identifier that an
    opening parenthesis follows, and it is the trimmed and terminated text of
    a match that begins at the start of a line of the input which passes this
    shape check; so no string that fails the check is in the output.
    mcrws1 and mcrws2 have no shape check: every line that is not blank and
    not a comment is emitted, trimmed and terminated, whatever its shape. *)
Theorem C3_normalizer_shape_check (text : str) :
  (forall c,
     In c (Mcrws3._extract_prolog text) ->
     begins_with_name_lparen c = true /\
     exists pre m post,
       text = pre ++ m ++ post /\ at_line_start pre /\
       begins_with_name_lparen (m ++ post) = true /\
       c = terminate (strip m))
  /\
  (forall c,
     begins_with_name_lparen c = false -> ~ In c (Mcrws3._extract_prolog text))
  /\
  (forall line,
     In line (split_char LF text) -> strip line <> [] ->
     startswith (strip line) [PERCENT] = false ->
     In (terminate (strip line)) (Mcrws1._extract_prolog text) /\
     In (if Regex.search_colon_or_dot_at_end (strip line)
         then strip line else strip line ++ [DOT])
        (Mcrws2._extract_prolog text)).
Proof.
  split; [|split].
  - intros c H. split.
    + apply v3_extract_prolog_clause in H. apply H.
    + apply v3_extract_prolog_in in H as (pre & m & post & E & Hpre & Hm & ->).
      exists pre, m, post. repeat split; try assumption.
      apply match_prolog_pattern_spec in Hm as (_ & x & i & b & a & -> & Hx & Hi).
      apply begins_with_name_lparen_spec.
      exists x, i, (b ++ RPAREN :: a ++ post). repeat split; try assumption.
      simpl. repeat (rewrite <- app_assoc; simpl). reflexivity.
  - intros c Hc H. apply v3_extract_prolog_clause in H.
    destruct H as (_ & _ & _ & _ & H). congruence.
  - intros line H1 H2 H3. split.
    + apply v1_extract_prolog_in. eauto.
    + apply v2_extract_prolog_in. eauto.
Qed.

Lemma C3_normalizer_shape_check_witness :
  begins_with_name_lparen (py "color(sphere, red).") = true /\
  ~ In (py "Sure, here is the fact.")
       (Mcrws3._extract_prolog
          (py "Sure, here is the fact." ++ [LF] ++ py "color(sphere, red)")) /\
  In (py "Sure, here is the fact.")
     (Mcrws1._extract_prolog
        (py "Sure, here is the fact." ++ [LF] ++ py "color(sphere, red)")).
Proof.
  pose proof (C3_normalizer_shape_check
                (py "Sure, here is the fact." ++ [LF] ++ py "color(sphere, red)"))
    as (H1 & H2 & H3).
  split; [|split].
  - apply (H1 (py "color(sphere, red).")). vm_compute. auto.
  - apply H2. reflexivity.
  - apply (H3 (py "Sure, here is the fact.")).
    + vm_compute. auto.
    + vm_compute. discriminate.
    + reflexivity.
Defined.

(** C3 fails in mcrws1 and in mcrws2: a line of prose fails the shape check
    and is in the output. *)
Lemma C3_counterexample :
  begins_with_name_lparen (py "Here are the facts.") = false /\
  In (py "Here are the facts.") (Mcrws1._extract_prolog (py "Here are the facts.")) /\
  In (py "Here are the facts.") (Mcrws2._extract_prolog (py "Here are the facts.")).
Proof. vm_compute. auto. Qed.

(* ===================================================================== *)
(** * The reasoning dispatcher *)
(* ===================================================================== *)

(** C9.  When the engine hands back [None], the dispatcher returns the
    empty list, not an error.  When the evaluation runs into the timeout, the
    dispatcher raises the timeout error (the [ProviderError] whose message is
    "Reasoning query timed out after <n>s.").  Whenever the dispatcher
    returns a value, the evaluation did not time out: a timeout is never
    shown as an empty result. *)
Theorem C9_dispatcher_none_and_timeout (env : Env) (kb goal : str) :
  (engine_load env (splitlines kb) = None ->
   engine_query env (splitlines kb) goal = Returned PyNone ->
   Mcrws1.PythologReasonProvider_query env kb goal = inr (PyList []) /\
   Mcrws2.PythologReasonProvider_query env kb goal = inr (PyList []) /\
   Mcrws3.PythologReasonProvider_query env kb goal = inr (PyList []))
  /\
  (engine_load env (splitlines kb) = None ->
   engine_query env (splitlines kb) goal = TimedOut ->
   Mcrws1.PythologReasonProvider_query env kb goal
     = inl (ReasoningTimeout Mcrws1.REASONING_TIMEOUT_SECONDS) /\
   Mcrws2.PythologReasonProvider_query env kb goal
     = inl (ReasoningTimeout Mcrws2.REASONING_TIMEOUT_SECONDS) /\
   Mcrws3.PythologReasonProvider_query env kb goal
     = inl (ReasoningTimeout Mcrws3.REASONING_TIMEOUT_SECONDS))
  /\
  (forall v,
     Mcrws1.PythologReasonProvider_query env kb goal = inr v \/
     Mcrws2.PythologReasonProvider_query env kb goal = inr v \/
     Mcrws3.PythologReasonProvider_query env kb goal = inr v ->
     engine_query env (splitlines kb) goal <> TimedOut).
Proof.
  unfold Mcrws1.PythologReasonProvider_query, Mcrws2.PythologReasonProvider_query,
    Mcrws3.PythologReasonProvider_query.
  split; [|split].
  - intros -> ->. auto.
  - intros -> ->. auto.
  - intros v H E. rewrite E in H.
    destruct (engine_load env (splitlines kb));
      destruct H as [H|[H|H]]; discriminate H.
Qed.

Lemma C9_dispatcher_none_and_timeout_witness :
  Mcrws3.PythologReasonProvider_query
    (demo_env (fun _ _ => inr []) (Returned PyNone)) (py "p(a).") (py "p(X)")
  = inr (PyList [])
  /\
  Mcrws3.PythologReasonProvider_query
    (demo_env (fun _ _ => inr []) TimedOut) (py "p(a).") (py "p(X)")
  = inl (ReasoningTimeout 10)
  /\
  engine_query (demo_env (fun _ _ => inr []) (Returned (PyList [])))
    (splitlines (py "p(a).")) (py "p(X)") <> TimedOut.
Proof.
  split; [|split].
  - apply (proj1 (C9_dispatcher_none_and_timeout
                    (demo_env (fun _ _ => inr []) (Returned PyNone))
                    (py "p(a).") (py "p(X)")));
      reflexivity.
  - apply (proj1 (proj2 (C9_dispatcher_none_and_timeout
                    (demo_env (fun _ _ => inr []) TimedOut)
                    (py "p(a).") (py "p(X)"))));
      reflexivity.
  - apply (proj2 (proj2 (C9_dispatcher_none_and_timeout
                    (demo_env (fun _ _ => inr []) (Returned (PyList [])))
                    (py "p(a).") (py "p(X)"))) (PyList [])).
    left. reflexivity.
Defined.

(* ===================================================================== *)
(** * Replacing the knowledge base *)
(* ===================================================================== *)

(** Unfolds one operation of the pipeline in the hypothesis [H]. *)
Ltac run_step H :=
  match type of H with
  | bind ?m ?k ?w = _ =>
      let r := fresh "r" in
      let w1 := fresh "w" in
      let E := fresh "E" in
      unfold bind at 1 in H;
      destruct (m w) as [r w1] eqn:E;
      destruct r as [?e|?a]
  end.

Lemma get_session_some (sid : string) (w : World) (s : Session) :
  sessions w !! sid = Some s -> get_session sid w = (inr s, w).
Proof. intros H. unfold get_session. rewrite H. reflexivity. Qed.

Lemma get_session_inv (sid : string) (w w' : World) (r : Exn + Session) :
  get_session sid w = (r, w') ->
  w' = w /\
  match r with
  | inr s => sessions w !! sid = Some s
  | inl _ => sessions w !! sid = None
  end.
Proof.
  unfold get_session. destruct (sessions w !! sid); intros H;
    injection H as <- <-; auto.
Qed.

(** C8.  Replacing the knowledge base of a session validates the whole
    proposed text with the parser of the logic engine first.  When the text
    does not parse, the operation fails with the validation error and the
    world is as before: the stored text is unchanged and nothing is saved.
    When it parses, the session with the new text is saved.  A save happens
    only when the validation succeeded.  This holds in the three variants. *)
Theorem C8_replace_kb_validates (env : Env) (w : World) (sid : string)
    (s : Session) (text : str) :
  sessions w !! sid = Some s ->
  (forall error,
     validate env text = Some error ->
     Mcrws1.update_kb env sid text w = (inl (ValidationFailure error), w) /\
     Mcrws2.update_kb env sid text w = (inl (ValidationFailure error), w) /\
     Mcrws3.update_kb env sid text w = (inl (ValidationFailure error), w))
  /\
  (validate env text = None ->
   let s' := set_modifiedAt (utcnow env (length (saved w)))
               (set_knowledgeBase text s) in
   let w' := {| sessions := <[sessionId s := s']> (sessions w);
                saved := saved w ++ [s'];
                llm_calls := llm_calls w |} in
   Mcrws1.update_kb env sid text w = (inr (py "Knowledge base updated."), w') /\
   Mcrws2.update_kb env sid text w = (inr (py "Knowledge base updated."), w') /\
   Mcrws3.update_kb env sid text w
     = (inr (py "Knowledge base updated successfully."), w'))
  /\
  (forall r w',
     Mcrws1.update_kb env sid text w = (r, w') \/
     Mcrws2.update_kb env sid text w = (r, w') \/
     Mcrws3.update_kb env sid text w = (r, w') ->
     saved w' <> saved w -> validate env text = None).
Proof.
  intros Hs.
  unfold Mcrws1.update_kb, Mcrws2.update_kb, Mcrws3.update_kb, bind.
  rewrite (get_session_some sid w s Hs).
  split; [|split].
  - intros error ->. auto.
  - intros ->. cbv zeta. auto.
  - intros r w' H Hsaved. destruct (validate env text); [|reflexivity].
    exfalso. apply Hsaved.
    destruct H as [H|[H|H]]; unfold raise in H; injection H as _ <-; reflexivity.
Qed.

Lemma C8_replace_kb_validates_witness :
  Mcrws3.update_kb (demo_env (fun _ _ => inr []) TimedOut) "s1"
    (py "parent(a, b") (demo_world (py "parent(a, b)."))
  = (inl (ValidationFailure (py "unterminated clause")),
     demo_world (py "parent(a, b).")).
Proof.
  apply (proj1 (C8_replace_kb_validates
                  (demo_env (fun _ _ => inr []) TimedOut)
                  (demo_world (py "parent(a, b).")) "s1"
                  (demo_session (py "parent(a, b).")) (py "parent(a, b")
                  eq_refl) (py "unterminated clause") eq_refl).
Defined.

(* ===================================================================== *)
(** * The query pipeline: the value shown to the explanation step *)
(* ===================================================================== *)

(** In the three variants the explanation step is run on the serialized
    [result_for_llm] of the raw outcome. *)
Lemma v3_run_query_explains (env : Env) (P : string -> list Template)
    (sid : string) (q : str) (w w' : World) (r : Mcrws3.QueryResponse) :
  Mcrws3.run_query env P sid q w = (inr r, w') ->
  exists w1,
    Mcrws3._run_prompt_chain env P "RESULT_TO_NL"
      {| kw_text := None; kw_query := Some (Mcrws3.queryProlog r);
         kw_schema := None;
         kw_result :=
           Some (json_dumps env (Mcrws3.result_for_llm (Mcrws3.result r)));
         kw_style := None; kw_schema_section := None |} w1
    = (inr (Mcrws3.answer r), w').
Proof.
  unfold Mcrws3.run_query. intros H.
  run_step H; [discriminate H|].
  run_step H; [discriminate H|].
  destruct (is_empty _); [discriminate H|].
  run_step H; [discriminate H|].
  run_step H; [discriminate H|].
  unfold ret in H. injection H as <- <-. simpl. eauto.
Qed.

Lemma v2_run_query_explains (env : Env) (P : string -> option Template)
    (sid : string) (q : str) (w w' : World) (r : Mcrws2.QueryResponse) :
  Mcrws2.run_query env P sid q w = (inr r, w') ->
  exists w1 answer_prompt,
    Mcrws2.PromptManager_get P "RESULT_TO_NL"
      {| kw_text := None; kw_query := Some (Mcrws2.queryProlog r);
         kw_schema := None;
         kw_result :=
           Some (json_dumps env (Mcrws2.result_for_llm (Mcrws2.result r)));
         kw_style := None; kw_schema_section := None |} w1
    = (inr answer_prompt, w1) /\
    generate env answer_prompt w1 = (inr (Mcrws2.answer r), w').
Proof.
  unfold Mcrws2.run_query. intros H.
  run_step H; [discriminate H|].
  run_step H; [discriminate H|].
  run_step H; [discriminate H|].
  run_step H; [discriminate H|].
  run_step H; [discriminate H|].
  run_step H; [discriminate H|].
  unfold ret in H. injection H as <- <-.
  exists w4, a3. split; [|assumption].
  unfold Mcrws2.PromptManager_get in *.
  destruct (P "RESULT_TO_NL"); unfold ret, raise in *;
    match goal with
    | E : (_, _) = (inr _, _) |- _ => inversion E
    end; subst; reflexivity.
Qed.

Lemma v1_run_query_explains (env : Env) (P : string -> option Template)
    (sid : string) (q : str) (w w' : World) (r : Mcrws1.QueryResponse) :
  Mcrws1.run_query env P sid q w = (inr r, w') ->
  exists w1 answer_prompt,
    Mcrws1.PromptManager_get P "RESULT_TO_NL"
      {| kw_text := None; kw_query := Some (Mcrws1.queryProlog r);
         kw_schema := None;
         kw_result :=
           Some (json_dumps env (Mcrws1.result_for_llm (Mcrws1.result r)));
         kw_style := Some (py "a clear and concise explanation");
         kw_schema_section := None |} w1
    = (inr answer_prompt, w1) /\
    generate env answer_prompt w1 = (inr (Mcrws1.answer r), w').
Proof.
  unfold Mcrws1.run_query. intros H.
  run_step H; [discriminate H|].
  run_step H; [discriminate H|].
  run_step H; [discriminate H|].
  run_step H; [discriminate H|].
  run_step H; [discriminate H|].
  run_step H; [discriminate H|].
  unfold ret in H. injection H as <- <-.
  exists w4, a3. split; [|assumption].
  unfold Mcrws1.PromptManager_get in *.
  destruct (P "RESULT_TO_NL"); unfold ret, raise in *;
    match goal with
    | E : (_, _) = (inr _, _) |- _ => inversion E
    end; subst; reflexivity.
Qed.

(** C1, as amended.  In mcrws3 the value shown to the explanation step is
    shaped as the claim says: [True] becomes the token "true", an empty
    outcome ([None] or the empty list) or [False] becomes the token "No"
    (and so does pytholog's ['No']), and a binding list that is not empty is
    passed through unchanged.  In mcrws2 [True] becomes "true" and [False]
    becomes "No", but every other outcome, the empty list too, is passed
    through unchanged.  In mcrws1 an outcome that counts as true becomes the
    token "Yes", a binding list that is not empty too, and every other
    outcome becomes "No".  In each variant the explanation step of a query
    that succeeds was run on the serialized shaped value of the raw outcome
    that the response reports. *)
Theorem C1_query_shaping :
  (Mcrws3.result_for_llm (PyBool true) = PyStr (py "true") /\
   (forall v, empty_outcome v \/ v = PyBool false ->
              Mcrws3.result_for_llm v = PyStr (py "No")) /\
   Mcrws3.result_for_llm (PyList [IStr (py "No")]) = PyStr (py "No") /\
   (forall v, nonempty_binding_list v -> Mcrws3.result_for_llm v = v))
  /\
  (Mcrws2.result_for_llm (PyBool true) = PyStr (py "true") /\
   Mcrws2.result_for_llm (PyBool false) = PyStr (py "No") /\
   (forall v, v <> PyBool true -> v <> PyBool false ->
              Mcrws2.result_for_llm v = v) /\
   Mcrws2.result_for_llm (PyList []) = PyList [])
  /\
  (forall v, Mcrws1.result_for_llm v
             = if truthy v then PyStr (py "Yes") else PyStr (py "No"))
  /\
  (forall env sid q w w',
     (forall P r,
        Mcrws3.run_query env P sid q w = (inr r, w') ->
        exists w1,
          Mcrws3._run_prompt_chain env P "RESULT_TO_NL"
            {| kw_text := None; kw_query := Some (Mcrws3.queryProlog r);
               kw_schema := None;
               kw_result :=
                 Some (json_dumps env (Mcrws3.result_for_llm (Mcrws3.result r)));
               kw_style := None; kw_schema_section := None |} w1
          = (inr (Mcrws3.answer r), w')) /\
     (forall P r,
        Mcrws2.run_query env P sid q w = (inr r, w') ->
        exists w1 answer_prompt,
          Mcrws2.PromptManager_get P "RESULT_TO_NL"
            {| kw_text := None; kw_query := Some (Mcrws2.queryProlog r);
               kw_schema := None;
               kw_result :=
                 Some (json_dumps env (Mcrws2.result_for_llm (Mcrws2.result r)));
               kw_style := None; kw_schema_section := None |} w1
          = (inr answer_prompt, w1) /\
          generate env answer_prompt w1 = (inr (Mcrws2.answer r), w')) /\
     (forall P r,
        Mcrws1.run_query env P sid q w = (inr r, w') ->
        exists w1 answer_prompt,
          Mcrws1.PromptManager_get P "RESULT_TO_NL"
            {| kw_text := None; kw_query := Some (Mcrws1.queryProlog r);
               kw_schema := None;
               kw_result :=
                 Some (json_dumps env (Mcrws1.result_for_llm (Mcrws1.result r)));
               kw_style := Some (py "a clear and concise explanation");
               kw_schema_section := None |} w1
          = (inr answer_prompt, w1) /\
          generate env answer_prompt w1 = (inr (Mcrws1.answer r), w'))).
Proof.
  split; [|split; [|split]].
  - split; [reflexivity|]. split; [|split; [reflexivity|]].
    + intros v [[->| ->]| ->]; reflexivity.
    + intros v (l & -> & Hne & Hb). unfold Mcrws3.result_for_llm. simpl.
      destruct l as [|i l]; [congruence|]. simpl.
      destruct i as [s|d]; [discriminate Hb|].
      destruct l; reflexivity.
  - split; [reflexivity|]. split; [reflexivity|]. split; [|reflexivity].
    intros v H1 H2. unfold Mcrws2.result_for_llm.
    destruct v as [|[|]|s|l]; simpl; try reflexivity; exfalso;
      [apply H1 | apply H2]; reflexivity.
  - intros v. reflexivity.
  - intros env sid q w w'. split; [|split]; intros P r H.
    + eapply v3_run_query_explains. exact H.
    + eapply v2_run_query_explains. exact H.
    + eapply v1_run_query_explains. exact H.
Qed.

Lemma C1_query_shaping_witness :
  Mcrws3.result_for_llm (PyList []) = PyStr (py "No") /\
  Mcrws3.result_for_llm (PyList [IDict [(py "X", py "charles")]])
  = PyList [IDict [(py "X", py "charles")]] /\
  Mcrws2.result_for_llm (PyList [IDict [(py "X", py "charles")]])
  = PyList [IDict [(py "X", py "charles")]].
Proof.
  destruct C1_query_shaping as ((_ & H1 & _ & H2) & (_ & _ & H3 & _) & _ & _).
  split; [|split].
  - apply H1. left. right. reflexivity.
  - apply H2. eexists. split; [reflexivity|]. split; [discriminate|reflexivity].
  - apply H3; discriminate.
Defined.

(** C1 fails in mcrws1, where [True] becomes "Yes" and a binding list is not
    passed through, and in mcrws2, where the empty list is passed through. *)
Lemma C1_counterexample :
  Mcrws1.result_for_llm (PyBool true) <> PyStr (py "true") /\
  Mcrws1.result_for_llm (PyList [IDict [(py "X", py "charles")]])
  <> PyList [IDict [(py "X", py "charles")]] /\
  Mcrws2.result_for_llm (PyList []) <> PyStr (py "No").
Proof. repeat split; discriminate. Qed.

(* ===================================================================== *)
(** * The prompt chain executor (mcrws3) *)
(* ===================================================================== *)

Lemma after_calls_nil (w : World) : after_calls w [] = w.
Proof. destruct w. unfold after_calls. simpl. rewrite app_nil_r. reflexivity. Qed.

Lemma after_calls_app (w : World) (a b : list str) :
  after_calls (after_calls w a) b = after_calls w (a ++ b).
Proof. unfold after_calls. simpl. rewrite app_assoc. reflexivity. Qed.

Lemma generate_run (env : Env) (p : str) (w : World) :
  generate env p w = (llm_generate env (llm_calls w) p, after_calls w [p]).
Proof. reflexivity. Qed.

Lemma try_variants_cons (env : Env) (name : string) (n : nat) (p : str)
    (ps : list str) (w : World) :
  Mcrws3.try_variants env name n (p :: ps) w =
  match llm_generate env (llm_calls w) p with
  | inl e => (inl e, after_calls w [p])
  | inr resp =>
      if blank resp then Mcrws3.try_variants env name n ps (after_calls w [p])
      else (inr (strip resp), after_calls w [p])
  end.
Proof.
  simpl. unfold bind. rewrite generate_run.
  destruct (llm_generate env (llm_calls w) p) as [e|resp]; [reflexivity|].
  unfold blank. rewrite <- negb_orb.
  destruct (is_empty resp || is_empty (strip resp)); reflexivity.
Qed.

(** The variants before the first one that is not answered with a blank
    response are passed over, in order. *)
Lemma try_variants_skip (env : Env) (name : string) (n : nat) (pre : list str) :
  forall (rest : list str) (w : World),
    all_blank env (llm_calls w) pre = true ->
    Mcrws3.try_variants env name n (pre ++ rest) w
    = Mcrws3.try_variants env name n rest (after_calls w pre).
Proof.
  induction pre as [|p pre IH]; intros rest w H.
  - rewrite after_calls_nil. reflexivity.
  - simpl app. rewrite try_variants_cons. simpl in H.
    destruct (llm_generate env (llm_calls w) p) as [e|resp]; [discriminate H|].
    apply andb_true_iff in H as [Hb H]. rewrite Hb.
    rewrite IH by exact H. rewrite after_calls_app. reflexivity.
Qed.

(** Every run of the variants is of one of three kinds. *)
Lemma all_blank_cases (env : Env) (prompts : list str) :
  forall history,
    all_blank env history prompts = true \/
    exists pre p post,
      prompts = pre ++ p :: post /\ all_blank env history pre = true /\
      ((exists e, llm_generate env (history ++ pre) p = inl e) \/
       (exists resp, llm_generate env (history ++ pre) p = inr resp /\
                     blank resp = false)).
Proof.
  induction prompts as [|p ps IH]; intros history; [left; reflexivity|].
  simpl. destruct (llm_generate env history p) as [e|resp] eqn:E.
  - right. exists [], p, ps. rewrite app_nil_r. eauto 6.
  - destruct (blank resp) eqn:Hb.
    + destruct (IH (history ++ [p])) as [H|(pre & q & post & -> & Hpre & Hq)].
      * left. exact H.
      * right. exists (p :: pre), q, post. simpl. rewrite E, Hb, Hpre.
        rewrite <- app_assoc in Hq. auto.
    + right. exists [], p, ps. rewrite app_nil_r. eauto 8.
Qed.

(** C7, as amended.  The prompt chain executor of mcrws3 tries the variants
    of a task strictly in declaration order and returns the first response
    that is not blank (trimmed), at once.  A blank response makes it go on
    with the next variant.  A failure of the backend call is not taken as
    "this variant produced nothing": the exception leaves the chain at once
    and the later variants are not tried.  The chain's own failure is raised
    only after every variant has been answered with a blank response.  A task
    without a template fails before any call. *)
Theorem C7_prompt_chain (env : Env) (P : string -> list Template)
    (name : string) (kwargs : Kwargs) (w : World) :
  let prompts := Mcrws3.PromptManager_get P name kwargs in
  let chain := Mcrws3._run_prompt_chain env P name kwargs in
  (prompts = [] ->
   chain w = (inl (ProviderError (py "No prompt templates found for '"
                                  ++ py name ++ py "'.")), w))
  /\
  (forall pre p post,
     prompts = pre ++ p :: post ->
     all_blank env (llm_calls w) pre = true ->
     (forall resp,
        llm_generate env (llm_calls w ++ pre) p = inr resp ->
        blank resp = false ->
        chain w = (inr (strip resp), after_calls w (pre ++ [p])))
     /\
     (forall e,
        llm_generate env (llm_calls w ++ pre) p = inl e ->
        chain w = (inl e, after_calls w (pre ++ [p]))))
  /\
  (prompts <> [] ->
   all_blank env (llm_calls w) prompts = true ->
   chain w = (inl (TranslationFailure_exhausted name (length prompts)),
              after_calls w prompts))
  /\
  (prompts = [] \/
   all_blank env (llm_calls w) prompts = true \/
   exists pre p post,
     prompts = pre ++ p :: post /\ all_blank env (llm_calls w) pre = true /\
     ((exists e, llm_generate env (llm_calls w ++ pre) p = inl e) \/
      (exists resp, llm_generate env (llm_calls w ++ pre) p = inr resp /\
                    blank resp = false))).
Proof.
  cbv zeta. unfold Mcrws3._run_prompt_chain.
  set (prompts := Mcrws3.PromptManager_get P name kwargs).
  clearbody prompts.
  split; [|split; [|split]].
  - intros ->. reflexivity.
  - intros pre p post E Hpre.
    assert (Hne : is_empty prompts = false)
      by (rewrite E; destruct pre; reflexivity).
    rewrite Hne. generalize (length prompts). intros n.
    rewrite E. rewrite try_variants_skip by exact Hpre.
    rewrite try_variants_cons. simpl llm_calls. rewrite after_calls_app.
    split.
    + intros resp -> ->. reflexivity.
    + intros e ->. reflexivity.
  - intros Hne Hall.
    destruct (is_empty prompts) eqn:E; [apply is_empty_true in E; congruence|].
    pose proof (try_variants_skip env name (length prompts) prompts [] w Hall)
      as Hrun.
    rewrite app_nil_r in Hrun. rewrite Hrun. reflexivity.
  - right. apply all_blank_cases.
Qed.

Lemma C7_prompt_chain_witness :
  Mcrws3._run_prompt_chain (demo_env shy_llm TimedOut) two_variants "NL_TO_FACTS"
    no_kwargs (demo_world [])
  = (inr (py "fact(a)."),
     after_calls (demo_world []) [py "variant 1"; py "variant 2"]).
Proof.
  apply (proj1 (proj1 (proj2 (C7_prompt_chain
                  (demo_env shy_llm TimedOut) two_variants "NL_TO_FACTS"
                  no_kwargs (demo_world [])))
                [py "variant 1"] (py "variant 2") [] eq_refl eq_refl)
           (py " fact(a). ") eq_refl eq_refl).
Defined.

(** C7 fails: the backend call of the first variant raises, the second
    variant would have been answered, and the chain ends with the exception
    of the first call after that one call. *)
Lemma C7_counterexample :
  Mcrws3.PromptManager_get two_variants "NL_TO_FACTS" no_kwargs
  = [py "variant 1"; py "variant 2"] /\
  llm_generate (demo_env flaky_llm TimedOut) [py "variant 1"] (py "variant 2")
  = inr (py "fact(a).") /\
  Mcrws3._run_prompt_chain (demo_env flaky_llm TimedOut) two_variants
    "NL_TO_FACTS" no_kwargs (demo_world [])
  = (inl (ProviderError (py "Ollama request failed: timeout")),
     after_calls (demo_world []) [py "variant 1"]).
Proof. repeat split. Qed.

(* ===================================================================== *)
(** * The assert pipeline *)
(* ===================================================================== *)

Lemma same_store_refl (w : World) : same_store w w.
Proof. split; reflexivity. Qed.

Lemma same_store_trans (w1 w2 w3 : World) :
  same_store w1 w2 -> same_store w2 w3 -> same_store w1 w3.
Proof. intros [A B] [C D]. split; congruence. Qed.

Lemma same_store_after_calls (w : World) (ps : list str) :
  same_store w (after_calls w ps).
Proof. split; reflexivity. Qed.

Lemma generate_same_store (env : Env) (p : str) (w w' : World) (r : Exn + str) :
  generate env p w = (r, w') -> same_store w w'.
Proof. rewrite generate_run. intros H. injection H as _ <-. apply same_store_after_calls. Qed.

Lemma try_variants_same_store (env : Env) (name : string) (n : nat)
    (ps : list str) :
  forall (w w' : World) (r : Exn + str),
    Mcrws3.try_variants env name n ps w = (r, w') -> same_store w w'.
Proof.
  induction ps as [|p ps IH]; intros w w' r.
  - simpl. unfold raise. intros H. injection H as _ <-. apply same_store_refl.
  - rewrite try_variants_cons.
    destruct (llm_generate env (llm_calls w) p) as [e|resp].
    + intros H. injection H as _ <-. apply same_store_after_calls.
    + destruct (blank resp).
      * intros H. apply IH in H.
        eapply same_store_trans; [apply same_store_after_calls | exact H].
      * intros H. injection H as _ <-. apply same_store_after_calls.
Qed.

Lemma run_prompt_chain_same_store (env : Env) (P : string -> list Template)
    (name : string) (kwargs : Kwargs) (w w' : World) (r : Exn + str) :
  Mcrws3._run_prompt_chain env P name kwargs w = (r, w') -> same_store w w'.
Proof.
  unfold Mcrws3._run_prompt_chain. destruct (is_empty _).
  - unfold raise. intros H. injection H as _ <-. apply same_store_refl.
  - apply try_variants_same_store.
Qed.

(** The run of an assert of mcrws3, step by step. *)
Lemma v3_assert_run (env : Env) (P : string -> list Template) (sid : string)
    (text : str) (w w1 w2 : World) (s : Session) (intent_raw llm_response : str) :
  sessions w !! sid = Some s ->
  Mcrws3._run_prompt_chain env P "INTENT_CLASSIFIER"
    {| kw_text := Some text; kw_query := None; kw_schema := None;
       kw_result := None; kw_style := None; kw_schema_section := None |} w
  = (inr intent_raw, w1) ->
  Mcrws3._run_prompt_chain env P
    (Mcrws3.prompt_name_of (Mcrws3.intent_of intent_raw))
    {| kw_text := Some text; kw_query := None;
       kw_schema := Some (Mcrws3._get_kb_schema (knowledgeBase s));
       kw_result := None; kw_style := None; kw_schema_section := None |} w1
  = (inr llm_response, w2) ->
  Mcrws3.assert_into_session env P sid text w =
  let new_clauses := Mcrws3._extract_prolog llm_response in
  if is_empty new_clauses then (inl TranslationFailure_no_clause, w2)
  else
    let added := Mcrws3.not_in_kb (knowledgeBase s) new_clauses in
    (inr {| Mcrws3.addedFacts := added;
            Mcrws3.ar_knowledgeBase := fst (commit env s added w2);
            Mcrws3.translatedProlog := new_clauses;
            Mcrws3.intent := Mcrws3.intent_of intent_raw |},
     snd (commit env s added w2)).
Proof.
  intros Hs H1 H2. unfold Mcrws3.assert_into_session.
  unfold bind at 1. rewrite (get_session_some sid w s Hs).
  unfold bind at 1. rewrite H1.
  unfold bind at 1. rewrite H2.
  cbv zeta. destruct (is_empty (Mcrws3._extract_prolog llm_response)); [reflexivity|].
  unfold commit.
  destruct (is_empty (Mcrws3.not_in_kb _ _)) eqn:E; simpl; reflexivity.
Qed.

(** What a run of an assert of mcrws3 went through. *)
Lemma v3_assert_inv (env : Env) (P : string -> list Template) (sid : string)
    (text : str) (w w' : World) (r : Exn + Mcrws3.AssertResponse) :
  Mcrws3.assert_into_session env P sid text w = (r, w') ->
  match r with
  | inl _ => same_store w w'
  | inr resp =>
      exists s w2 llm_response,
        sessions w !! sid = Some s /\ same_store w w2 /\
        Mcrws3.translatedProlog resp = Mcrws3._extract_prolog llm_response /\
        Mcrws3.translatedProlog resp <> [] /\
        Mcrws3.addedFacts resp
          = Mcrws3.not_in_kb (knowledgeBase s) (Mcrws3.translatedProlog resp) /\
        (Mcrws3.ar_knowledgeBase resp, w')
          = commit env s (Mcrws3.addedFacts resp) w2
  end.
Proof.
  unfold Mcrws3.assert_into_session. intros H.
  run_step H.
  { injection H as <- <-. apply get_session_inv in E as [-> _].
    apply same_store_refl. }
  apply get_session_inv in E as [-> Hs].
  run_step H.
  { injection H as <- <-. eapply run_prompt_chain_same_store. exact E. }
  apply run_prompt_chain_same_store in E.
  run_step H.
  { injection H as <- <-. apply run_prompt_chain_same_store in E0.
    eapply same_store_trans; eassumption. }
  apply run_prompt_chain_same_store in E0.
  assert (Hw : same_store w w1) by (eapply same_store_trans; eassumption).
  cbv zeta in H.
  destruct (is_empty (Mcrws3._extract_prolog a1)) eqn:Hnew.
  { unfold raise in H. injection H as <- <-. exact Hw. }
  apply is_empty_false in Hnew.
  destruct (is_empty (Mcrws3.not_in_kb (knowledgeBase a) (Mcrws3._extract_prolog a1)))
    eqn:Hadd; simpl in H.
  - unfold ret in H. injection H as <- <-.
    exists a, w1, a1. simpl. unfold commit. rewrite Hadd. auto 8.
  - unfold bind, save_session, ret in H. injection H as <- <-.
    exists a, w1, a1. simpl. unfold commit. rewrite Hadd. auto 8.
Qed.

Lemma v1_prompt_get_inv (P : string -> option Template) (name : string)
    (kwargs : Kwargs) (w w' : World) (r : Exn + str) :
  Mcrws1.PromptManager_get P name kwargs w = (r, w') -> w' = w.
Proof.
  unfold Mcrws1.PromptManager_get. destruct (P name); unfold ret, raise;
    intros H; injection H as _ <-; reflexivity.
Qed.

Lemma v2_prompt_get_inv (P : string -> option Template) (name : string)
    (kwargs : Kwargs) (w w' : World) (r : Exn + str) :
  Mcrws2.PromptManager_get P name kwargs w = (r, w') -> w' = w.
Proof.
  unfold Mcrws2.PromptManager_get. cbv zeta. destruct (P name); unfold ret, raise;
    intros H; injection H as _ <-; reflexivity.
Qed.

(** The run of an assert of mcrws1, step by step. *)
Lemma v1_assert_run (env : Env) (P : string -> option Template) (sid : string)
    (text : str) (w : World) (s : Session) (prompt llm_response : str) :
  sessions w !! sid = Some s ->
  Mcrws1.PromptManager_get P "NL_TO_RULES"
    {| kw_text := Some text; kw_query := None; kw_schema := None;
       kw_result := None; kw_style := None; kw_schema_section := None |} w
  = (inr prompt, w) ->
  llm_generate env (llm_calls w) prompt = inr llm_response ->
  Mcrws1.assert_into_session env P sid text w =
  let added := Mcrws1.not_in_kb (knowledgeBase s)
                 (Mcrws1._extract_prolog llm_response) in
  (inr {| Mcrws1.addedFacts := added;
          Mcrws1.ar_knowledgeBase := fst (commit env s added (after_calls w [prompt])) |},
   snd (commit env s added (after_calls w [prompt]))).
Proof.
  intros Hs H1 H2. unfold Mcrws1.assert_into_session.
  unfold bind at 1. rewrite (get_session_some sid w s Hs).
  unfold bind at 1. rewrite H1.
  unfold bind at 1. rewrite generate_run, H2.
  cbv zeta. unfold commit.
  destruct (is_empty (Mcrws1.not_in_kb _ _)) eqn:E; simpl; reflexivity.
Qed.

Lemma v1_assert_inv (env : Env) (P : string -> option Template) (sid : string)
    (text : str) (w w' : World) (r : Exn + Mcrws1.AssertResponse) :
  Mcrws1.assert_into_session env P sid text w = (r, w') ->
  match r with
  | inl _ => same_store w w'
  | inr resp =>
      exists s w2 llm_response,
        sessions w !! sid = Some s /\ same_store w w2 /\
        Mcrws1.addedFacts resp
          = Mcrws1.not_in_kb (knowledgeBase s) (Mcrws1._extract_prolog llm_response) /\
        (Mcrws1.ar_knowledgeBase resp, w')
          = commit env s (Mcrws1.addedFacts resp) w2
  end.
Proof.
  unfold Mcrws1.assert_into_session. intros H.
  run_step H.
  { injection H as <- <-. apply get_session_inv in E as [-> _].
    apply same_store_refl. }
  apply get_session_inv in E as [-> Hs].
  run_step H.
  { injection H as <- <-. apply v1_prompt_get_inv in E as ->.
    apply same_store_refl. }
  apply v1_prompt_get_inv in E as ->.
  run_step H.
  { injection H as <- <-. eapply generate_same_store. exact E. }
  apply generate_same_store in E.
  cbv zeta in H.
  destruct (is_empty (Mcrws1.not_in_kb (knowledgeBase a) (Mcrws1._extract_prolog a1)))
    eqn:Hadd; simpl in H.
  - unfold ret in H. injection H as <- <-.
    eexists a, _, a1. simpl. unfold commit. rewrite Hadd.
    split; [exact Hs|]. split; [exact E|]. repeat split.
  - unfold bind, save_session, ret in H. injection H as <- <-.
    eexists a, _, a1. simpl. unfold commit. rewrite Hadd.
    split; [exact Hs|]. split; [exact E|]. repeat split.
Qed.

(** The run of an assert of mcrws2, step by step. *)
Lemma v2_assert_run (env : Env) (P : string -> option Template) (sid : string)
    (text : str) (w : World) (s : Session) (prompt llm_response : str) :
  sessions w !! sid = Some s ->
  Mcrws2.PromptManager_get P "NL_TO_RULES"
    {| kw_text := Some text; kw_query := None;
       kw_schema := Some (Mcrws2._get_kb_schema (knowledgeBase s));
       kw_result := None; kw_style := None; kw_schema_section := None |} w
  = (inr prompt, w) ->
  llm_generate env (llm_calls w) prompt = inr llm_response ->
  Mcrws2.assert_into_session env P sid text w =
  let new_facts := Mcrws2._extract_prolog llm_response in
  let added := Mcrws2.not_in_kb (knowledgeBase s) new_facts in
  (inr {| Mcrws2.addedFacts := added;
          Mcrws2.ar_knowledgeBase := fst (commit env s added (after_calls w [prompt]));
          Mcrws2.translatedProlog := new_facts |},
   snd (commit env s added (after_calls w [prompt]))).
Proof.
  intros Hs H1 H2. unfold Mcrws2.assert_into_session.
  unfold bind at 1. rewrite (get_session_some sid w s Hs).
  cbv zeta. unfold bind at 1. rewrite H1.
  unfold bind at 1. rewrite generate_run, H2.
  unfold commit.
  destruct (is_empty (Mcrws2.not_in_kb _ _)) eqn:E; simpl; reflexivity.
Qed.

Lemma v2_assert_inv (env : Env) (P : string -> option Template) (sid : string)
    (text : str) (w w' : World) (r : Exn + Mcrws2.AssertResponse) :
  Mcrws2.assert_into_session env P sid text w = (r, w') ->
  match r with
  | inl _ => same_store w w'
  | inr resp =>
      exists s w2 llm_response,
        sessions w !! sid = Some s /\ same_store w w2 /\
        Mcrws2.translatedProlog resp = Mcrws2._extract_prolog llm_response /\
        Mcrws2.addedFacts resp
          = Mcrws2.not_in_kb (knowledgeBase s) (Mcrws2.translatedProlog resp) /\
        (Mcrws2.ar_knowledgeBase resp, w')
          = commit env s (Mcrws2.addedFacts resp) w2
  end.
Proof.
  unfold Mcrws2.assert_into_session. intros H.
  run_step H.
  { injection H as <- <-. apply get_session_inv in E as [-> _].
    apply same_store_refl. }
  apply get_session_inv in E as [-> Hs].
  cbv zeta in H. run_step H.
  { injection H as <- <-. apply v2_prompt_get_inv in E as ->.
    apply same_store_refl. }
  apply v2_prompt_get_inv in E as ->.
  run_step H.
  { injection H as <- <-. eapply generate_same_store. exact E. }
  apply generate_same_store in E.
  destruct (is_empty (Mcrws2.not_in_kb (knowledgeBase a) (Mcrws2._extract_prolog a1)))
    eqn:Hadd; simpl in H.
  - unfold ret in H. injection H as <- <-.
    eexists a, _, a1. simpl. unfold commit. rewrite Hadd.
    split; [exact Hs|]. split; [exact E|]. repeat split.
  - unfold bind, save_session, ret in H. injection H as <- <-.
    eexists a, _, a1. simpl. unfold commit. rewrite Hadd.
    split; [exact Hs|]. split; [exact E|]. repeat split.
Qed.

(** C4, as amended.  In mcrws3, an assert whose translation is normalized to
    no clause fails with the [ProviderError] "LLM failed to generate valid
    Prolog code." (the translation failure of the specification); no assert
    of mcrws3 reports success with an empty list of translated clauses, and
    the session files and the saves are as before.  mcrws1 and mcrws2 have no
    such check: there the assert succeeds with an empty added-clause list;
    the knowledge base is not modified and nothing is saved. *)
Theorem C4_assert_zero_clauses (env : Env) (sid : string) (text : str)
    (w : World) (s : Session) :
  sessions w !! sid = Some s ->
  (forall P intent_raw w1 llm_response w2,
     Mcrws3._run_prompt_chain env P "INTENT_CLASSIFIER"
       {| kw_text := Some text; kw_query := None; kw_schema := None;
          kw_result := None; kw_style := None; kw_schema_section := None |} w
     = (inr intent_raw, w1) ->
     Mcrws3._run_prompt_chain env P
       (Mcrws3.prompt_name_of (Mcrws3.intent_of intent_raw))
       {| kw_text := Some text; kw_query := None;
          kw_schema := Some (Mcrws3._get_kb_schema (knowledgeBase s));
          kw_result := None; kw_style := None; kw_schema_section := None |} w1
     = (inr llm_response, w2) ->
     Mcrws3._extract_prolog llm_response = [] ->
     Mcrws3.assert_into_session env P sid text w
     = (inl TranslationFailure_no_clause, w2) /\ same_store w w2)
  /\
  (forall P r w',
     Mcrws3.assert_into_session env P sid text w = (r, w') ->
     match r with
     | inr resp => Mcrws3.translatedProlog resp <> []
     | inl _ => same_store w w'
     end)
  /\
  (forall P prompt llm_response,
     Mcrws1.PromptManager_get P "NL_TO_RULES"
       {| kw_text := Some text; kw_query := None; kw_schema := None;
          kw_result := None; kw_style := None; kw_schema_section := None |} w
     = (inr prompt, w) ->
     llm_generate env (llm_calls w) prompt = inr llm_response ->
     Mcrws1._extract_prolog llm_response = [] ->
     Mcrws1.assert_into_session env P sid text w
     = (inr {| Mcrws1.addedFacts := [];
               Mcrws1.ar_knowledgeBase := knowledgeBase s |},
        after_calls w [prompt]))
  /\
  (forall P prompt llm_response,
     Mcrws2.PromptManager_get P "NL_TO_RULES"
       {| kw_text := Some text; kw_query := None;
          kw_schema := Some (Mcrws2._get_kb_schema (knowledgeBase s));
          kw_result := None; kw_style := None; kw_schema_section := None |} w
     = (inr prompt, w) ->
     llm_generate env (llm_calls w) prompt = inr llm_response ->
     Mcrws2._extract_prolog llm_response = [] ->
     Mcrws2.assert_into_session env P sid text w
     = (inr {| Mcrws2.addedFacts := [];
               Mcrws2.ar_knowledgeBase := knowledgeBase s;
               Mcrws2.translatedProlog := [] |},
        after_calls w [prompt])).
Proof.
  intros Hs. split; [|split; [|split]].
  - intros P intent_raw w1 llm_response w2 H1 H2 Hnone.
    rewrite (v3_assert_run env P sid text w w1 w2 s intent_raw llm_response Hs H1 H2).
    cbv zeta. rewrite Hnone. split; [reflexivity|].
    apply run_prompt_chain_same_store in H1, H2.
    eapply same_store_trans; eassumption.
  - intros P r w' H. apply v3_assert_inv in H. destruct r as [e|resp]; [exact H|].
    destruct H as (s' & w2 & resp' & _ & _ & _ & H & _). exact H.
  - intros P prompt llm_response H1 H2 Hnone.
    rewrite (v1_assert_run env P sid text w s prompt llm_response Hs H1 H2).
    cbv zeta. rewrite Hnone. reflexivity.
  - intros P prompt llm_response H1 H2 Hnone.
    rewrite (v2_assert_run env P sid text w s prompt llm_response Hs H1 H2).
    cbv zeta. rewrite Hnone. reflexivity.
Qed.

Lemma C4_assert_zero_clauses_witness :
  Mcrws3.assert_into_session (demo_env (const_llm (py "I cannot help with that."))
                                TimedOut)
    demo_prompts3 "s1" (py "Hello there.") (demo_world (py "p(a)."))
  = (inl TranslationFailure_no_clause,
     after_calls (demo_world (py "p(a)."))
       [py "INTENT_CLASSIFIER|Hello there."; py "NL_TO_FACTS|Hello there."])
  /\
  same_store (demo_world (py "p(a)."))
    (after_calls (demo_world (py "p(a)."))
       [py "INTENT_CLASSIFIER|Hello there."; py "NL_TO_FACTS|Hello there."]).
Proof.
  apply (proj1 (C4_assert_zero_clauses
                  (demo_env (const_llm (py "I cannot help with that.")) TimedOut)
                  "s1" (py "Hello there.") (demo_world (py "p(a)."))
                  (demo_session (py "p(a).")) eq_refl)
           demo_prompts3 (py "I cannot help with that.")
           (after_calls (demo_world (py "p(a).")) [py "INTENT_CLASSIFIER|Hello there."])
           (py "I cannot help with that.")
           (after_calls (demo_world (py "p(a)."))
              [py "INTENT_CLASSIFIER|Hello there."; py "NL_TO_FACTS|Hello there."]));
    reflexivity.
Defined.

(** C4 fails in mcrws1 and in mcrws2: the backend answers with a comment
    only, no clause is left, and the assert succeeds with an empty
    added-clause list. *)
Lemma C4_counterexample :
  Mcrws1._extract_prolog (py "% nothing to add") = [] /\
  Mcrws1.assert_into_session (demo_env (const_llm (py "% nothing to add")) TimedOut)
    demo_prompts "s1" (py "Hello there.") (demo_world (py "p(a)."))
  = (inr {| Mcrws1.addedFacts := []; Mcrws1.ar_knowledgeBase := py "p(a)." |},
     after_calls (demo_world (py "p(a).")) [py "NL_TO_RULES|Hello there."]) /\
  Mcrws2.assert_into_session (demo_env (const_llm (py "% nothing to add")) TimedOut)
    demo_prompts "s1" (py "Hello there.") (demo_world (py "p(a)."))
  = (inr {| Mcrws2.addedFacts := []; Mcrws2.ar_knowledgeBase := py "p(a).";
            Mcrws2.translatedProlog := [] |},
     after_calls (demo_world (py "p(a).")) [py "NL_TO_RULES|Hello there."]).
Proof. repeat split. Qed.

(* ===================================================================== *)
(** * The text of the knowledge base after an appending assert *)
(* ===================================================================== *)

Lemma clean_clause_head (c : str) :
  clean_clause c -> exists c0 r, c = c0 :: r /\ is_space c0 = false.
Proof.
  intros [Ht Hne]. destruct c as [|c0 r]; [congruence|].
  exists c0, r. split; [reflexivity|]. eapply trimmed_cons. exact Ht.
Qed.

Lemma clean_clause_last (c : str) :
  clean_clause c -> exists r z, c = r ++ [z] /\ is_space z = false.
Proof.
  intros [[_ Hr] Hne]. destruct (exists_last Hne) as (r & z & ->).
  exists r, z. split; [reflexivity|]. eapply rstrip_by_end. exact Hr.
Qed.

Lemma join_head (l : list str) :
  l <> [] -> Forall clean_clause l ->
  exists c0 r, join [LF] l = c0 :: r /\ is_space c0 = false.
Proof.
  intros Hne Hall. destruct l as [|x l]; [congruence|].
  apply Forall_cons_iff in Hall as [Hx _].
  destruct (clean_clause_head x Hx) as (c0 & r & -> & Hc).
  destruct l; simpl; eauto.
Qed.

Lemma join_last (l : list str) :
  l <> [] -> Forall clean_clause l ->
  exists r z, join [LF] l = r ++ [z] /\ is_space z = false.
Proof.
  induction l as [|x l IH]; intros Hne Hall; [congruence|].
  apply Forall_cons_iff in Hall as [Hx Hl].
  destruct l as [|y l].
  - simpl. apply clean_clause_last. exact Hx.
  - destruct (IH ltac:(discriminate) Hl) as (r & z & E & Hz).
    exists (x ++ [LF] ++ r), z. split; [|exact Hz].
    change (join [LF] (x :: y :: l)) with (x ++ [LF] ++ join [LF] (y :: l)).
    rewrite E, <- !app_assoc. reflexivity.
Qed.

(** The strip of the appended text removes white space at the front of the
    old text only: the joined clauses begin and end with a character that is
    not white space. *)
Lemma appended_kb_lstrip (kb : str) (added : list str) :
  added <> [] -> Forall clean_clause added ->
  appended_kb kb added = lstrip (kb ++ [LF]) ++ join [LF] added.
Proof.
  intros Hne Hall. unfold appended_kb, strip.
  destruct (join_head added Hne Hall) as (c0 & r & E & Hc).
  destruct (join_last added Hne Hall) as (r' & z & E' & Hz).
  rewrite app_assoc, E. unfold lstrip. rewrite lstrip_by_stop by exact Hc.
  rewrite <- E, E', app_assoc. unfold rstrip. apply rstrip_by_last. exact Hz.
Qed.

Lemma lstrip_app_nonblank (kb t : str) :
  lstrip kb <> [] -> lstrip (kb ++ t) = lstrip kb ++ t.
Proof.
  intros Hne. unfold lstrip in *.
  destruct (lstrip_by_split is_space kb) as (a & E & Ha).
  destruct (lstrip_by is_space kb) as [|c r] eqn:El; [congruence|].
  assert (Hc : is_space c = false) by (eapply lstrip_by_head; exact El).
  rewrite E at 1. rewrite <- app_assoc. simpl.
  rewrite lstrip_by_stop by exact Hc.
  pose proof (lstrip_by_all is_space a [] Ha) as Hnil.
  rewrite app_nil_r in Hnil. simpl in Hnil. rewrite Hnil. reflexivity.
Qed.

Lemma filter_clean (f : str -> bool) (l : list str) :
  Forall clean_clause l -> Forall clean_clause (List.filter f l).
Proof.
  rewrite !List.Forall_forall. intros H x Hx. apply filter_In in Hx as [Hx _]. auto.
Qed.

Lemma v1_extract_prolog_clean (text : str) :
  Forall clean_clause (Mcrws1._extract_prolog text).
Proof.
  apply List.Forall_forall. intros c H.
  apply v1_extract_prolog_clause in H as (_ & H1 & H2 & _). split; assumption.
Qed.

Lemma v2_extract_prolog_clean (text : str) :
  Forall clean_clause (Mcrws2._extract_prolog text).
Proof.
  apply List.Forall_forall. intros c H.
  apply v2_extract_prolog_clause in H as (_ & H1 & H2 & _). split; assumption.
Qed.

Lemma v3_extract_prolog_clean (text : str) :
  Forall clean_clause (Mcrws3._extract_prolog text).
Proof.
  apply List.Forall_forall. intros c H.
  apply v3_extract_prolog_clause in H as (_ & H1 & H2 & _). split; assumption.
Qed.

(** The end of an appending assert, for clean clauses. *)
Lemma commit_appended (env : Env) (s : Session) (added : list str)
    (w2 w' : World) (kb' : str) :
  added <> [] -> Forall clean_clause added ->
  (kb', w') = commit env s added w2 ->
  appended_result s added kb' w'.
Proof.
  intros Hne Hall H. unfold commit in H.
  destruct (is_empty added) eqn:E; [apply is_empty_true in E; congruence|].
  injection H as -> ->.
  pose proof (appended_kb_lstrip (knowledgeBase s) added Hne Hall) as Hl.
  unfold appended_result. split; [reflexivity|]. split; [|split].
  - eexists. split.
    + unfold saved_world. simpl. apply lookup_insert_eq.
    + reflexivity.
  - exact Hl.
  - intros Hkb. rewrite Hl. rewrite lstrip_app_nonblank by exact Hkb.
    rewrite <- app_assoc. reflexivity.
Qed.

(** C10, as amended.  In the three variants, when at least one clause passes
    the duplicate check, the resulting text (reported and saved) is the
    previous text, a line feed and the passing clauses joined by line feeds,
    with the white space at both ends of the whole removed.  The clauses
    begin and end with a character that is not white space, so what is
    removed is exactly the white space and the blank lines at the front of
    the previous text.  White space and blank lines at the end of the
    previous text are not removed: they stay between the previous text and
    the appended clauses. *)
Theorem C10_appended_kb_text (env : Env) (sid : string) (text : str)
    (w w' : World) :
  (forall P resp,
     Mcrws1.assert_into_session env P sid text w = (inr resp, w') ->
     Mcrws1.addedFacts resp <> [] ->
     exists s, sessions w !! sid = Some s /\
       appended_result s (Mcrws1.addedFacts resp) (Mcrws1.ar_knowledgeBase resp) w')
  /\
  (forall P resp,
     Mcrws2.assert_into_session env P sid text w = (inr resp, w') ->
     Mcrws2.addedFacts resp <> [] ->
     exists s, sessions w !! sid = Some s /\
       appended_result s (Mcrws2.addedFacts resp) (Mcrws2.ar_knowledgeBase resp) w')
  /\
  (forall P resp,
     Mcrws3.assert_into_session env P sid text w = (inr resp, w') ->
     Mcrws3.addedFacts resp <> [] ->
     exists s, sessions w !! sid = Some s /\
       appended_result s (Mcrws3.addedFacts resp) (Mcrws3.ar_knowledgeBase resp) w').
Proof.
  split; [|split]; intros P resp H Hne.
  - apply v1_assert_inv in H as (s & w2 & r & Hs & _ & Hadd & Hc).
    exists s. split; [exact Hs|].
    eapply commit_appended; [exact Hne| |exact Hc].
    rewrite Hadd. apply filter_clean, v1_extract_prolog_clean.
  - apply v2_assert_inv in H as (s & w2 & r & Hs & _ & Hnew & Hadd & Hc).
    exists s. split; [exact Hs|].
    eapply commit_appended; [exact Hne| |exact Hc].
    rewrite Hadd, Hnew. apply filter_clean, v2_extract_prolog_clean.
  - apply v3_assert_inv in H as (s & w2 & r & Hs & _ & Hnew & _ & Hadd & Hc).
    exists s. split; [exact Hs|].
    eapply commit_appended; [exact Hne| |exact Hc].
    rewrite Hadd, Hnew. apply filter_clean, v3_extract_prolog_clean.
Qed.

Lemma C10_appended_kb_text_witness :
  exists s,
    sessions (demo_world ([LF] ++ py "  p(a).")) !! "s1"%string = Some s /\
    appended_result s [py "q(b)."] (py "p(a)." ++ [LF] ++ py "q(b).")
      (saved_world (demo_env (const_llm (py "q(b).")) TimedOut)
         (demo_session ([LF] ++ py "  p(a).")) (py "p(a)." ++ [LF] ++ py "q(b).")
         (after_calls (demo_world ([LF] ++ py "  p(a)."))
            [py "INTENT_CLASSIFIER|A fact."; py "NL_TO_FACTS|A fact."])).
Proof.
  apply (proj2 (proj2 (C10_appended_kb_text
                  (demo_env (const_llm (py "q(b).")) TimedOut) "s1" (py "A fact.")
                  (demo_world ([LF] ++ py "  p(a)."))
                  (saved_world (demo_env (const_llm (py "q(b).")) TimedOut)
                     (demo_session ([LF] ++ py "  p(a)."))
                     (py "p(a)." ++ [LF] ++ py "q(b).")
                     (after_calls (demo_world ([LF] ++ py "  p(a)."))
                        [py "INTENT_CLASSIFIER|A fact."; py "NL_TO_FACTS|A fact."]))))
           demo_prompts3
           {| Mcrws3.addedFacts := [py "q(b)."];
              Mcrws3.ar_knowledgeBase := py "p(a)." ++ [LF] ++ py "q(b).";
              Mcrws3.translatedProlog := [py "q(b)."];
              Mcrws3.intent := py "FACT" |}).
  - reflexivity.
  - discriminate.
Defined.

(** C10 fails for the white space at the end of the previous text: the two
    blank lines after ["a(b)."] are in the text after the assert. *)
Lemma C10_counterexample :
  fst (Mcrws3.assert_into_session (demo_env (const_llm (py "c(d).")) TimedOut)
         demo_prompts3 "s1" (py "A fact.") (demo_world (py "a(b)." ++ [LF; LF])))
  = inr {| Mcrws3.addedFacts := [py "c(d)."];
           Mcrws3.ar_knowledgeBase := (py "a(b)." ++ [LF; LF]) ++ [LF] ++ py "c(d).";
           Mcrws3.translatedProlog := [py "c(d)."];
           Mcrws3.intent := py "FACT" |}.
Proof. reflexivity. Qed.

(* ===================================================================== *)
(** * The schema extractor *)
(* ===================================================================== *)

Lemma sorted_insert_In (x y : str) (l : list str) :
  In x (sorted_insert y l) <-> x = y \/ In x l.
Proof.
  induction l as [|z l IH]; simpl.
  - intuition congruence.
  - destruct (str_leb y z); simpl; rewrite ?IH; intuition congruence.
Qed.

Lemma sorted_In (x : str) (l : list str) : In x (sorted l) <-> In x l.
Proof.
  unfold sorted. induction l as [|y l IH]; simpl; [tauto|].
  rewrite sorted_insert_In, IH. intuition congruence.
Qed.

Lemma set_add_In (x y : str) (s : list str) :
  In x (set_add y s) <-> x = y \/ In x s.
Proof.
  unfold set_add. destruct (str_in y s) eqn:E.
  - apply str_in_In in E. intuition congruence.
  - rewrite in_app_iff. simpl. intuition congruence.
Qed.

Lemma fold_set_add_mono (x : str) (atoms : list str) :
  forall items, In x items -> In x (fold_left (fun items atom => set_add atom items) atoms items).
Proof.
  induction atoms as [|a atoms IH]; intros items H; simpl; [exact H|].
  apply IH. apply set_add_In. right. exact H.
Qed.

Lemma fold_groups_mono (x : str) (groups : list str) :
  forall items,
    In x items ->
    In x (fold_left
            (fun items group1 =>
               fold_left (fun items atom => set_add atom items)
                         (Mcrws3.group_atoms group1) items)
            groups items).
Proof.
  induction groups as [|g groups IH]; intros items H; simpl; [exact H|].
  apply IH. apply fold_set_add_mono. exact H.
Qed.

Lemma v3_schema_step_mono (x : str) (items : list str) (line : str) :
  In x items -> In x (Mcrws3.schema_step items line).
Proof.
  intros H. unfold Mcrws3.schema_step.
  destruct (is_empty (strip line) || startswith (strip line) [PERCENT]); [exact H|].
  apply fold_groups_mono.
  destruct (Regex.match_predicate_regex (strip line)); [|exact H].
  apply set_add_In. right. exact H.
Qed.

Lemma v2_schema_step_mono (x : str) (items : list str) (line : str) :
  In x items -> In x (Mcrws2.schema_step items line).
Proof.
  intros H. unfold Mcrws2.schema_step.
  destruct (is_empty (strip line) || startswith (strip line) [PERCENT]); [exact H|].
  destruct (Regex.match_name_lparen (strip line)); [|exact H].
  apply set_add_In. right. exact H.
Qed.

Lemma fold_step_mono (step : list str -> str -> list str) (x : str)
    (lines : list str) :
  (forall items line, In x items -> In x (step items line)) ->
  forall items, In x items -> In x (fold_left step lines items).
Proof.
  intros Hmono. induction lines as [|l lines IH]; intros items H; simpl; auto.
Qed.

(** What one step adds stays in the result of the loop. *)
Lemma fold_step_adds (step : list str -> str -> list str) (x : str)
    (lines : list str) (line : str) :
  (forall items l, In x items -> In x (step items l)) ->
  (forall items, In x (step items line)) ->
  In line lines ->
  forall items, In x (fold_left step lines items).
Proof.
  intros Hmono Hadd. induction lines as [|l lines IH]; intros Hin items;
    [destruct Hin|].
  simpl. destruct Hin as [->|Hin].
  - apply fold_step_mono; [exact Hmono | apply Hadd].
  - apply IH. exact Hin.
Qed.

Lemma is_name_line (name rest : str) :
  is_name name ->
  is_empty (name ++ LPAREN :: rest) || startswith (name ++ LPAREN :: rest) [PERCENT]
  = false.
Proof.
  intros (c & ident & -> & Hc & _). simpl.
  rewrite startswith_nil, andb_true_r. apply lower_az_not_percent. exact Hc.
Qed.

Lemma match_name_lparen_name (name rest : str) :
  is_name name -> Regex.match_name_lparen (name ++ LPAREN :: rest) = Some name.
Proof.
  intros (c & ident & -> & Hc & Hi). simpl. rewrite Hc.
  rewrite (span_app_stop is_word ident rest LPAREN Hi eq_refl).
  reflexivity.
Qed.

Lemma match_predicate_regex_name (name rest : str) :
  is_name name -> Regex.match_predicate_regex (name ++ LPAREN :: rest) = Some name.
Proof.
  intros (c & ident & -> & Hc & Hi). simpl. rewrite Hc.
  rewrite (span_app_stop is_word ident rest LPAREN Hi eq_refl).
  reflexivity.
Qed.

Lemma v3_schema_has_signature (kb line0 name rest : str) :
  In line0 (splitlines kb) -> strip line0 = name ++ LPAREN :: rest -> is_name name ->
  In (name ++ py "/" ++ str_of_nat (Mcrws3.line_arity (strip line0)))
     (Mcrws3._get_kb_schema kb).
Proof.
  intros Hin Hline Hname. unfold Mcrws3._get_kb_schema. apply sorted_In.
  apply (fold_step_adds Mcrws3.schema_step _ _ line0);
    [intros; apply v3_schema_step_mono; assumption | | exact Hin].
  intros items. unfold Mcrws3.schema_step. rewrite Hline.
  rewrite (is_name_line name rest Hname).
  apply fold_groups_mono.
  rewrite (match_predicate_regex_name name rest Hname).
  apply set_add_In. left. reflexivity.
Qed.

Lemma v2_schema_has_signature (kb line0 name rest : str) :
  In line0 (splitlines kb) -> strip line0 = name ++ LPAREN :: rest -> is_name name ->
  In (name ++ py "/" ++ str_of_Z (Mcrws2.line_arity (strip line0)))
     (Mcrws2._get_kb_schema kb).
Proof.
  intros Hin Hline Hname. unfold Mcrws2._get_kb_schema. apply sorted_In.
  apply (fold_step_adds Mcrws2.schema_step _ _ line0);
    [intros; apply v2_schema_step_mono; assumption | | exact Hin].
  intros items. unfold Mcrws2.schema_step. rewrite Hline.
  rewrite (is_name_line name rest Hname).
  rewrite (match_name_lparen_name name rest Hname).
  apply set_add_In. left. reflexivity.
Qed.

(** ** The clause head and the arity of the specification *)

Lemma hd_cons_head (c : ascii) (l : list str) :
  hd [] (cons_head c l) = c :: hd [] l.
Proof. destruct l; reflexivity. Qed.

Lemma split_neck_cons (c : ascii) (s : str) :
  startswith (c :: s) [COLON; DASH] = false ->
  split_neck (c :: s) = cons_head c (split_neck s).
Proof.
  intros H. destruct s as [|d s]; [reflexivity|].
  simpl in H. rewrite startswith_nil, andb_true_r in H.
  simpl. rewrite H. reflexivity.
Qed.

(** The clause head is the text before the first [:-]. *)
Lemma clause_head_before_neck (h r : str) :
  contains h [COLON; DASH] = false ->
  clause_head (h ++ COLON :: DASH :: r) = h.
Proof.
  unfold clause_head. induction h as [|c h IH]; intros H; [reflexivity|].
  simpl in H. apply orb_false_iff in H as [H1 H2].
  change ((c :: h) ++ COLON :: DASH :: r) with (c :: (h ++ COLON :: DASH :: r)).
  rewrite split_neck_cons.
  - rewrite hd_cons_head, IH by exact H2. reflexivity.
  - destruct h as [|d h]; simpl in *.
    + rewrite andb_false_r. reflexivity.
    + rewrite startswith_nil, andb_true_r in *. exact H1.
Qed.

Lemma clause_head_no_neck (line : str) :
  contains line [COLON; DASH] = false -> clause_head line = line.
Proof.
  unfold clause_head. induction line as [|c s IH]; intros H; [reflexivity|].
  simpl in H. apply orb_false_iff in H as [H1 H2].
  rewrite split_neck_cons by exact H1.
  rewrite hd_cons_head, IH by exact H2. reflexivity.
Qed.

Lemma count_char_app (c : ascii) (a b : str) :
  count_char c (a ++ b) = count_char c a + count_char c b.
Proof. unfold count_char. rewrite List.filter_app, length_app. reflexivity. Qed.

Lemma has_no_count (c : ascii) (s : str) : has_no c s -> count_char c s = 0.
Proof.
  unfold has_no, count_char. induction s as [|x s IH]; simpl; [reflexivity|].
  intros H. apply andb_true_iff in H as [Hx Hs]. apply negb_true_iff in Hx.
  replace (chr_eqb c x) with false.
  - apply IH. exact Hs.
  - symmetry. apply chr_eqb_neq. apply chr_eqb_neq in Hx. congruence.
Qed.

Lemma has_no_cons (c x : ascii) (s : str) :
  has_no c (x :: s) <-> x <> c /\ has_no c s.
Proof.
  unfold has_no. simpl. rewrite andb_true_iff, negb_true_iff, chr_eqb_neq.
  reflexivity.
Qed.

Lemma has_no_app (c : ascii) (a b : str) :
  has_no c (a ++ b) <-> has_no c a /\ has_no c b.
Proof. unfold has_no. rewrite forallb_app, andb_true_iff. reflexivity. Qed.

Lemma word_has_no (c : ascii) (s : str) :
  is_word c = false -> forallb is_word s = true -> has_no c s.
Proof.
  intros Hc H. unfold has_no. rewrite forallb_forall in *. intros x Hx.
  apply negb_true_iff, chr_eqb_neq. intros ->.
  rewrite (H c Hx) in Hc. discriminate.
Qed.

Lemma name_has_no (c : ascii) (name : str) :
  is_word c = false -> is_name name -> has_no c name.
Proof.
  intros Hc (x & ident & -> & Hx & Hi). apply has_no_cons. split.
  - intros ->. unfold is_word in Hc. rewrite Hx in Hc. discriminate.
  - apply word_has_no; assumption.
Qed.

Lemma contains_no_lparen (s : str) :
  has_no LPAREN s -> contains s [LPAREN; RPAREN] = false.
Proof.
  induction s as [|x s IH]; intros H; [reflexivity|].
  apply has_no_cons in H as [Hx Hs]. simpl.
  apply chr_eqb_neq in Hx. rewrite Hx. simpl. apply IH. exact Hs.
Qed.

Lemma contains_after_lparen (a b : str) :
  has_no LPAREN a ->
  contains (a ++ LPAREN :: b) [LPAREN; RPAREN]
  = startswith b [RPAREN] || contains b [LPAREN; RPAREN].
Proof.
  induction a as [|x a IH]; intros H.
  - simpl. destruct b; reflexivity.
  - apply has_no_cons in H as [Hx Ha].
    change ((x :: a) ++ LPAREN :: b) with (x :: (a ++ LPAREN :: b)).
    simpl. apply chr_eqb_neq in Hx. rewrite Hx. simpl. apply IH. exact Ha.
Qed.

Lemma group_body_flat (args tail : str) :
  has_no LPAREN args -> has_no RPAREN args ->
  group_body 0 (args ++ RPAREN :: tail) = Some args.
Proof.
  induction args as [|x args IH]; intros H1 H2; [reflexivity|].
  apply has_no_cons in H1 as [Hx1 H1]. apply has_no_cons in H2 as [Hx2 H2].
  apply chr_eqb_neq in Hx1, Hx2. simpl. rewrite Hx1, Hx2.
  rewrite IH by assumption. reflexivity.
Qed.

Lemma outermost_group_flat (name args tail : str) :
  has_no LPAREN name -> has_no LPAREN args -> has_no RPAREN args ->
  outermost_group (name ++ LPAREN :: args ++ RPAREN :: tail) = Some args.
Proof.
  intros Hn H1 H2. induction name as [|x name IH].
  - simpl. apply group_body_flat; assumption.
  - apply has_no_cons in Hn as [Hx Hn]. apply chr_eqb_neq in Hx.
    simpl. rewrite Hx. apply IH. exact Hn.
Qed.

(** On a head of the plain form [name(args)tail], where no parenthesis is
    inside the arguments and no comma and no opening parenthesis is after
    them, the arity of mcrws3 is the arity of the specification. *)
Lemma v3_line_arity_plain (line name args tail : str) :
  clause_head line = name ++ LPAREN :: args ++ RPAREN :: tail ->
  is_name name -> has_no LPAREN args -> has_no RPAREN args ->
  has_no COMMA tail -> has_no LPAREN tail ->
  Mcrws3.line_arity line = spec_arity (clause_head line).
Proof.
  intros Eh Hname Ha1 Ha2 Ht1 Ht2.
  unfold Mcrws3.line_arity, spec_arity. fold (clause_head line). rewrite Eh.
  pose proof (name_has_no LPAREN name eq_refl Hname) as Hn1.
  pose proof (name_has_no COMMA name eq_refl Hname) as Hn2.
  rewrite (outermost_group_flat name args tail Hn1 Ha1 Ha2).
  rewrite (contains_after_lparen name _ Hn1).
  assert (Hno : has_no LPAREN (args ++ RPAREN :: tail)).
  { apply has_no_app. split; [exact Ha1|]. apply has_no_cons.
    split; [discriminate | exact Ht2]. }
  rewrite (contains_no_lparen _ Hno), orb_false_r.
  destruct args as [|x args].
  { simpl app. rewrite startswith_cons. reflexivity. }
  apply has_no_cons in Ha2 as [Hx _]. apply chr_eqb_neq in Hx.
  change ((x :: args) ++ RPAREN :: tail) with (x :: (args ++ RPAREN :: tail)).
  rewrite startswith_cons, Hx.
  assert (Hcount : count_char COMMA (name ++ LPAREN :: (x :: args) ++ RPAREN :: tail)
                   = count_char COMMA (x :: args)).
  { change (name ++ LPAREN :: (x :: args) ++ RPAREN :: tail)
      with (name ++ [LPAREN] ++ (x :: args) ++ [RPAREN] ++ tail).
    rewrite !count_char_app.
    rewrite (has_no_count COMMA name Hn2), (has_no_count COMMA tail Ht1).
    change (count_char COMMA [LPAREN]) with 0.
    change (count_char COMMA [RPAREN]) with 0.
    lia. }
  cbn [app] in Hcount |- *. rewrite Hcount. reflexivity.
Qed.

(** C6, as amended.  For a line of the knowledge base that, trimmed, begins
    with a lowercase identifier and an opening parenthesis, both schema
    extractors record the signature name/arity.  In mcrws3 the arity is 0
    when the clause head (the text before the first [:-]) holds the text "()"
    anywhere, and otherwise the number of all the commas of the clause head
    plus one; for a head of the plain form name(args)tail, with no
    parenthesis inside the arguments and no comma and no opening parenthesis
    after them, this is the arity of the claim.  In mcrws2 the arity is the
    number of commas of the whole line plus one (0 when the line lacks a
    parenthesis), minus the number of commas between the first and the
    second [:-]; an empty argument list gives the arity 1 there. *)
Theorem C6_schema_signature (kb line0 name rest : str) :
  In line0 (splitlines kb) ->
  strip line0 = name ++ LPAREN :: rest ->
  is_name name ->
  let line := strip line0 in
  (In (name ++ py "/" ++ str_of_nat (Mcrws3.line_arity line))
      (Mcrws3._get_kb_schema kb) /\
   Mcrws3.line_arity line
   = (if contains (clause_head line) [LPAREN; RPAREN] then 0
      else count_char COMMA (clause_head line) + 1) /\
   (forall args tail,
      clause_head line = name ++ LPAREN :: args ++ RPAREN :: tail ->
      has_no LPAREN args -> has_no RPAREN args ->
      has_no COMMA tail -> has_no LPAREN tail ->
      Mcrws3.line_arity line = spec_arity (clause_head line)))
  /\
  (In (name ++ py "/" ++ str_of_Z (Mcrws2.line_arity line))
      (Mcrws2._get_kb_schema kb) /\
   Mcrws2.line_arity line
   = ((if contains line [LPAREN] && contains line [RPAREN]
       then Z.of_nat (count_char COMMA line) + 1 else 0)
      - (if contains line [COLON; DASH]
         then Z.of_nat (count_char COMMA (nth 1 (split_neck line) []))
         else 0))%Z).
Proof.
  intros Hin Hline Hname. cbv zeta. split; split.
  - eapply v3_schema_has_signature; eassumption.
  - split; [reflexivity|]. intros args tail Eh H1 H2 H3 H4.
    eapply v3_line_arity_plain; eassumption.
  - eapply v2_schema_has_signature; eassumption.
  - unfold Mcrws2.line_arity.
    destruct (contains (strip line0) [COLON; DASH]); lia.
Qed.

Lemma C6_schema_signature_witness :
  In (py "grandparent/2")
     (Mcrws3._get_kb_schema
        (py "parent(a, b)." ++ [LF]
         ++ py "grandparent(GP, GC) :- parent(GP, P), parent(P, GC).")) /\
  Mcrws3.line_arity (py "grandparent(GP, GC) :- parent(GP, P), parent(P, GC).")
  = spec_arity (clause_head (py "grandparent(GP, GC) :- parent(GP, P), parent(P, GC).")) /\
  In (py "grandparent/2")
     (Mcrws2._get_kb_schema
        (py "parent(a, b)." ++ [LF]
         ++ py "grandparent(GP, GC) :- parent(GP, P), parent(P, GC).")).
Proof.
  assert (Hname : is_name (py "grandparent")).
  { exists "g"%char, (py "randparent"). repeat split. }
  pose proof (C6_schema_signature
                (py "parent(a, b)." ++ [LF]
                 ++ py "grandparent(GP, GC) :- parent(GP, P), parent(P, GC).")
                (py "grandparent(GP, GC) :- parent(GP, P), parent(P, GC).")
                (py "grandparent")
                (py "GP, GC) :- parent(GP, P), parent(P, GC).")
                ltac:(vm_compute; auto) eq_refl Hname)
    as ((H1 & _ & H2) & (H3 & _)).
  split; [exact H1|]. split; [|exact H3].
  apply (H2 (py "GP, GC") (py " ")); reflexivity.
Defined.

(** C6 fails in mcrws2 for an empty argument list, and in mcrws3 when the
    text "()" is inside the arguments. *)
Lemma C6_counterexample :
  (In (py "foo/1") (Mcrws2._get_kb_schema (py "foo().")) /\
   ~ In (py "foo/0") (Mcrws2._get_kb_schema (py "foo().")) /\
   spec_arity (clause_head (py "foo().")) = 0)
  /\
  (In (py "g/0") (Mcrws3._get_kb_schema (py "g(a, h()).")) /\
   ~ In (py "g/2") (Mcrws3._get_kb_schema (py "g(a, h()).")) /\
   spec_arity (clause_head (py "g(a, h()).")) = 2).
Proof.
  repeat split; try (vm_compute; tauto);
    vm_compute; intros H; repeat (destruct H as [H|H]; try discriminate H); exact H.
Qed.

(* ===================================================================== *)
(** * Lines of a text *)
(* ===================================================================== *)

Lemma fields_nonempty (s : str) : exists f fs, fields s = f :: fs.
Proof.
  induction s as [|c s (f & fs & E)]; simpl; [eauto|].
  destruct (is_linebreak c); [eauto|]. rewrite E. simpl. eauto.
Qed.

Lemma prepend_nil (l : list str) : l <> [] -> prepend [] l = l.
Proof. destruct l; [congruence | reflexivity]. Qed.

(** The lines of [splitlines] that are not empty are the pieces that are not
    empty. *)
Lemma splitlines_aux_fields (s : str) :
  forall (cr : bool) (cur c : str),
    (cr = true -> cur = []) -> c <> [] ->
    (In c (splitlines_aux cr cur s) <-> In c (prepend (rev cur) (fields s))).
Proof.
  induction s as [|x s IH]; intros cr cur c Hcr Hc.
  - simpl. rewrite app_nil_r. destruct cur as [|y cur]; simpl.
    + intuition congruence.
    + tauto.
  - cbn [splitlines_aux fields].
    destruct (fields_nonempty s) as (f & fs & Ef).
    destruct (cr && chr_eqb x LF) eqn:Hskip.
    + apply andb_true_iff in Hskip as [-> Hx]. apply chr_eqb_eq in Hx. subst x.
      rewrite (Hcr eq_refl). change (is_linebreak LF) with true.
      rewrite (IH false [] c ltac:(discriminate) Hc).
      simpl. rewrite Ef. simpl. intuition congruence.
    + destruct (is_linebreak x) eqn:Hx.
      * simpl. rewrite app_nil_r.
        rewrite (IH (chr_eqb x CR) [] c (fun _ => eq_refl) Hc).
        simpl. rewrite Ef. simpl. reflexivity.
      * rewrite (IH false (x :: cur) c ltac:(discriminate) Hc).
        rewrite Ef. simpl. rewrite <- app_assoc. reflexivity.
Qed.

Lemma splitlines_fields (s c : str) :
  c <> [] -> (In c (splitlines s) <-> In c (fields s)).
Proof.
  intros Hc. unfold splitlines.
  rewrite (splitlines_aux_fields s false [] c ltac:(discriminate) Hc).
  simpl. destruct (fields_nonempty s) as (f & fs & ->). reflexivity.
Qed.

Lemma strip_nil : strip [] = [].
Proof. reflexivity. Qed.

Lemma splitlines_fields_strip (s c : str) :
  c <> [] ->
  (In c (map strip (splitlines s)) <-> In c (map strip (fields s))).
Proof.
  intros Hc. rewrite !in_map_iff.
  assert (Hl : forall l, strip l = c -> l <> []).
  { intros l E ->. rewrite strip_nil in E. congruence. }
  split; intros (l & E & Hin); exists l; (split; [exact E|]);
    apply (splitlines_fields s l (Hl l E)); exact Hin.
Qed.

Lemma cons_head_app (c : ascii) (l l' : list str) :
  l <> [] -> cons_head c (l ++ l') = cons_head c l ++ l'.
Proof. destruct l; [congruence | reflexivity]. Qed.

(** A line boundary cuts the pieces. *)
Lemma fields_app_break (a s : str) (b : ascii) :
  is_linebreak b = true -> fields (a ++ b :: s) = fields a ++ fields s.
Proof.
  intros Hb. induction a as [|x a IH]; simpl.
  - rewrite Hb. reflexivity.
  - rewrite IH. destruct (is_linebreak x); [reflexivity|].
    destruct (fields_nonempty a) as (f & fs & E).
    apply cons_head_app. rewrite E. discriminate.
Qed.

Lemma fields_one_line (c : str) : one_line c -> fields c = [c].
Proof.
  unfold one_line. induction c as [|x c IH]; simpl; [reflexivity|].
  intros H. apply andb_true_iff in H as [Hx Hc]. apply negb_true_iff in Hx.
  rewrite Hx, (IH Hc). reflexivity.
Qed.

Lemma fields_join (l : list str) :
  l <> [] -> Forall one_line l -> fields (join [LF] l) = l.
Proof.
  induction l as [|x l IH]; intros Hne Hall; [congruence|].
  apply Forall_cons_iff in Hall as [Hx Hl].
  destruct l as [|y l].
  - simpl. apply fields_one_line. exact Hx.
  - change (join [LF] (x :: y :: l)) with (x ++ LF :: join [LF] (y :: l)).
    rewrite fields_app_break by reflexivity.
    rewrite (fields_one_line x Hx), (IH ltac:(discriminate) Hl). reflexivity.
Qed.

(** White space removed at the front of a text takes away no piece that
    begins with another character. *)
Lemma fields_lstrip (s c : str) :
  clean_clause c -> In c (fields s) -> In c (fields (lstrip s)).
Proof.
  intros Hc. destruct (clean_clause_head c Hc) as (c0 & r & -> & Hc0).
  unfold lstrip. induction s as [|x s IH]; intros H; [exact H|].
  cbn [lstrip_by]. destruct (is_space x) eqn:Hx; [|exact H].
  apply IH. simpl in H. destruct (is_linebreak x).
  - destruct H as [H|H]; [discriminate H | exact H].
  - destruct (fields_nonempty s) as (f & fs & E). rewrite E in *. simpl in H.
    destruct H as [H|H].
    + injection H as -> _. congruence.
    + right. exact H.
Qed.

Lemma lstrip_cons_space (x : ascii) (s : str) :
  is_space x = true -> strip (x :: s) = strip s.
Proof. intros H. unfold strip, lstrip. simpl. rewrite H. reflexivity. Qed.

Lemma fields_lstrip_strip (s c : str) :
  c <> [] -> In c (map strip (fields s)) -> In c (map strip (fields (lstrip s))).
Proof.
  intros Hc. unfold lstrip. induction s as [|x s IH]; intros H; [exact H|].
  cbn [lstrip_by]. destruct (is_space x) eqn:Hx; [|exact H].
  apply IH. simpl in H. destruct (is_linebreak x).
  - simpl in H. destruct H as [H|H]; [|exact H].
    exfalso. apply Hc. symmetry. exact H.
  - destruct (fields_nonempty s) as (f & fs & E). rewrite E in *. simpl in H.
    simpl. destruct H as [H|H].
    + left. rewrite lstrip_cons_space in H by exact Hx. exact H.
    + right. exact H.
Qed.

(* ===================================================================== *)
(** * The duplicate check *)
(* ===================================================================== *)

Lemma filter_nil_iff {A} (f : A -> bool) (l : list A) :
  List.filter f l = [] <-> forall x, In x l -> f x = false.
Proof.
  induction l as [|y l IH]; simpl; [tauto|].
  destruct (f y) eqn:E; split.
  - discriminate.
  - intros H. specialize (H y (or_introl eq_refl)). congruence.
  - intros H x [<-|Hx]; [exact E | apply IH; assumption].
  - intros H. apply IH. intros x Hx. apply H. right. exact Hx.
Qed.

Lemma filter_one_line (f : str -> bool) (l : list str) :
  Forall one_line l -> Forall one_line (List.filter f l).
Proof.
  rewrite !List.Forall_forall. intros H x Hx. apply filter_In in Hx as [Hx _]. auto.
Qed.

Lemma lstrip_appended (kb : str) (added : list str) :
  added <> [] -> Forall clean_clause added ->
  appended_kb kb added = lstrip (kb ++ LF :: join [LF] added).
Proof.
  intros Hne Hall. rewrite appended_kb_lstrip by assumption.
  destruct (join_head added Hne Hall) as (c0 & r & -> & Hc).
  change (kb ++ LF :: c0 :: r) with (kb ++ [LF] ++ c0 :: r).
  rewrite (app_assoc kb [LF] (c0 :: r)). unfold lstrip.
  rewrite (lstrip_by_stop is_space (kb ++ [LF]) r c0 Hc). reflexivity.
Qed.

(** After an appending assert, the lines of the old text that are clean
    clauses and the appended clauses are lines of the new text. *)
Lemma appended_kb_fields (kb : str) (added : list str) (c : str) :
  added <> [] -> Forall clean_clause added -> Forall one_line added ->
  clean_clause c -> In c (fields kb) \/ In c added ->
  In c (fields (appended_kb kb added)).
Proof.
  intros Hne Hclean Hone Hc H.
  rewrite lstrip_appended by assumption.
  apply fields_lstrip; [exact Hc|].
  rewrite fields_app_break by reflexivity.
  rewrite fields_join by assumption.
  apply in_app_iff. exact H.
Qed.

Lemma appended_kb_fields_strip (kb : str) (added : list str) (c : str) :
  added <> [] -> Forall clean_clause added -> Forall one_line added ->
  clean_clause c -> In c (map strip (fields kb)) \/ In c added ->
  In c (map strip (fields (appended_kb kb added))).
Proof.
  intros Hne Hclean Hone Hc H.
  rewrite lstrip_appended by assumption.
  apply fields_lstrip_strip; [apply Hc|].
  rewrite fields_app_break by reflexivity.
  rewrite fields_join by assumption.
  rewrite map_app. apply in_app_iff. destruct H as [H|H]; [left; exact H|].
  right. apply in_map_iff. exists c. split; [|exact H].
  apply trimmed_strip_eq. apply Hc.
Qed.

(** The duplicate check of mcrws1 and mcrws2 finds nothing new when the
    same clauses come again. *)
Lemma exact_check_again (kb : str) (cs : list str) :
  Forall clean_clause cs -> Forall one_line cs ->
  let added := List.filter (fun c => negb (str_in c (splitlines kb))) cs in
  List.filter (fun c => negb (str_in c (splitlines (kb_after kb added)))) cs = [].
Proof.
  intros Hclean Hone added. apply filter_nil_iff. intros c Hc.
  apply negb_false_iff, str_in_In.
  assert (Hcc : clean_clause c) by (eapply List.Forall_forall; eassumption).
  unfold kb_after. destruct (is_empty added) eqn:E.
  - apply is_empty_true in E.
    pose proof (proj1 (filter_nil_iff _ _) E c Hc) as H.
    apply negb_false_iff, str_in_In in H. exact H.
  - apply is_empty_false in E.
    apply splitlines_fields; [apply Hcc|].
    apply appended_kb_fields; try assumption.
    + apply filter_clean. exact Hclean.
    + apply filter_one_line. exact Hone.
    + destruct (str_in c (splitlines kb)) eqn:Hin.
      * left. apply str_in_In in Hin. apply splitlines_fields in Hin; [exact Hin|].
        apply Hcc.
      * right. apply filter_In. split; [exact Hc|]. rewrite Hin. reflexivity.
Qed.

(** The same for the duplicate check of mcrws3, on trimmed lines. *)
Lemma trimmed_check_again (kb : str) (cs : list str) :
  Forall clean_clause cs -> Forall one_line cs ->
  Mcrws3.not_in_kb (kb_after kb (Mcrws3.not_in_kb kb cs)) cs = [].
Proof.
  intros Hclean Hone. set (added := Mcrws3.not_in_kb kb cs).
  unfold Mcrws3.not_in_kb at 1. apply filter_nil_iff. intros c Hc.
  apply negb_false_iff, str_in_In.
  assert (Hcc : clean_clause c) by (eapply List.Forall_forall; eassumption).
  unfold kb_after. destruct (is_empty added) eqn:E.
  - apply is_empty_true in E. unfold added, Mcrws3.not_in_kb in E.
    pose proof (proj1 (filter_nil_iff _ _) E c Hc) as H.
    apply negb_false_iff, str_in_In in H. exact H.
  - apply is_empty_false in E.
    apply splitlines_fields_strip; [apply Hcc|].
    apply appended_kb_fields_strip; try assumption.
    + apply filter_clean. exact Hclean.
    + apply filter_one_line. exact Hone.
    + destruct (str_in c (map strip (splitlines kb))) eqn:Hin.
      * left. apply str_in_In in Hin.
        apply splitlines_fields_strip in Hin; [exact Hin|]. apply Hcc.
      * right. apply filter_In. split; [exact Hc|]. rewrite Hin. reflexivity.
Qed.

(** The end of an assert, seen from the session file. *)
Lemma commit_session (env : Env) (s : Session) (added : list str)
    (w2 w1 : World) (kb1 : str) :
  sessions w2 !! sessionId s = Some s ->
  (kb1, w1) = commit env s added w2 ->
  kb1 = kb_after (knowledgeBase s) added /\
  exists s1, sessions w1 !! sessionId s = Some s1 /\
             knowledgeBase s1 = kb1 /\ sessionId s1 = sessionId s.
Proof.
  intros Hs H. unfold commit in H. unfold kb_after.
  destruct (is_empty added); injection H as -> ->.
  - split; [reflexivity|]. exists s. auto.
  - split; [reflexivity|]. eexists. split; [|split].
    + unfold saved_world. simpl. apply lookup_insert_eq.
    + reflexivity.
    + reflexivity.
Qed.

Lemma commit_nothing (env : Env) (s : Session) (w : World) :
  commit env s [] w = (knowledgeBase s, w).
Proof. reflexivity. Qed.

(** The text after an assert keeps the old text but for white space at its
    front. *)
Lemma kb_after_keeps (kb : str) (added : list str) :
  Forall clean_clause added ->
  kb_after kb added = kb \/ exists suffix, kb_after kb added = lstrip kb ++ suffix.
Proof.
  intros Hall. unfold kb_after. destruct (is_empty added) eqn:E; [left; reflexivity|].
  right. apply is_empty_false in E.
  rewrite appended_kb_lstrip by assumption.
  destruct (lstrip kb) as [|c r] eqn:El.
  - eexists. reflexivity.
  - rewrite lstrip_app_nonblank by (rewrite El; discriminate).
    rewrite El, <- app_assoc. eexists. reflexivity.
Qed.

Lemma commit_fst (env : Env) (s : Session) (added : list str) (w2 w1 : World)
    (kb1 : str) :
  (kb1, w1) = commit env s added w2 -> kb1 = kb_after (knowledgeBase s) added.
Proof.
  unfold commit, kb_after. destruct (is_empty added); intros H;
    injection H as -> _; reflexivity.
Qed.

Lemma same_store_lookup (w w2 : World) (sid : string) (s : Session) :
  same_store w w2 -> sessions w !! sid = Some s -> sessions w2 !! sid = Some s.
Proof. intros [-> _] H. exact H. Qed.

(** A second assert of mcrws3 with the same clauses. *)
Lemma v3_assert_again (env : Env) (P : string -> list Template) (sid : string)
    (text : str) (w w1 w2 : World) (resp1 resp2 : Mcrws3.AssertResponse) :
  store_ok w ->
  Mcrws3.assert_into_session env P sid text w = (inr resp1, w1) ->
  Mcrws3.assert_into_session env P sid text w1 = (inr resp2, w2) ->
  Mcrws3.translatedProlog resp2 = Mcrws3.translatedProlog resp1 ->
  Forall one_line (Mcrws3.translatedProlog resp1) ->
  Mcrws3.addedFacts resp2 = [] /\
  Mcrws3.ar_knowledgeBase resp2 = Mcrws3.ar_knowledgeBase resp1 /\
  same_store w1 w2.
Proof.
  intros Hok H1 H2 Hsame Hone.
  apply v3_assert_inv in H1 as (s & wa & r1 & Hs & Hwa & Htp & _ & Hadd & Hc).
  apply v3_assert_inv in H2 as (s' & wb & r2 & Hs' & Hwb & _ & _ & Hadd' & Hc').
  pose proof (Hok sid s Hs) as Hid. subst sid.
  destruct (commit_session env s _ wa w1 _ (same_store_lookup _ _ _ _ Hwa Hs) Hc)
    as (Hkb1 & s1 & Hs1 & Hkb & _).
  rewrite Hs1 in Hs'. injection Hs' as <-.
  assert (Hnone : Mcrws3.addedFacts resp2 = []).
  { rewrite Hadd', Hsame, Hkb, Hkb1, Hadd.
    apply trimmed_check_again; [|exact Hone].
    rewrite Htp. apply v3_extract_prolog_clean. }
  rewrite Hnone, commit_nothing in Hc'. injection Hc' as -> ->.
  auto.
Qed.

(** A second assert of mcrws2 with the same clauses. *)
Lemma v2_assert_again (env : Env) (P : string -> option Template) (sid : string)
    (text : str) (w w1 w2 : World) (resp1 resp2 : Mcrws2.AssertResponse) :
  store_ok w ->
  Mcrws2.assert_into_session env P sid text w = (inr resp1, w1) ->
  Mcrws2.assert_into_session env P sid text w1 = (inr resp2, w2) ->
  Mcrws2.translatedProlog resp2 = Mcrws2.translatedProlog resp1 ->
  Forall one_line (Mcrws2.translatedProlog resp1) ->
  Mcrws2.addedFacts resp2 = [] /\
  Mcrws2.ar_knowledgeBase resp2 = Mcrws2.ar_knowledgeBase resp1 /\
  same_store w1 w2.
Proof.
  intros Hok H1 H2 Hsame Hone.
  apply v2_assert_inv in H1 as (s & wa & r1 & Hs & Hwa & Htp & Hadd & Hc).
  apply v2_assert_inv in H2 as (s' & wb & r2 & Hs' & Hwb & _ & Hadd' & Hc').
  pose proof (Hok sid s Hs) as Hid. subst sid.
  destruct (commit_session env s _ wa w1 _ (same_store_lookup _ _ _ _ Hwa Hs) Hc)
    as (Hkb1 & s1 & Hs1 & Hkb & _).
  rewrite Hs1 in Hs'. injection Hs' as <-.
  assert (Hnone : Mcrws2.addedFacts resp2 = []).
  { rewrite Hadd', Hsame, Hkb, Hkb1, Hadd.
    apply (exact_check_again (knowledgeBase s) (Mcrws2.translatedProlog resp1));
      [|exact Hone].
    rewrite Htp. apply v2_extract_prolog_clean. }
  rewrite Hnone, commit_nothing in Hc'. injection Hc' as -> ->.
  auto.
Qed.

Lemma v1_prompt_get_world (P : string -> option Template) (name : string)
    (kwargs : Kwargs) (w w1 : World) (r : Exn + str) :
  Mcrws1.PromptManager_get P name kwargs w = (r, w) ->
  Mcrws1.PromptManager_get P name kwargs w1 = (r, w1).
Proof.
  unfold Mcrws1.PromptManager_get. destruct (P name); unfold ret, raise;
    intros H; injection H as <-; reflexivity.
Qed.

(** What a run of an assert of mcrws1 went through, with the prompt and the
    response. *)
Lemma v1_assert_inv_full (env : Env) (P : string -> option Template)
    (sid : string) (text : str) (w w' : World) (resp : Mcrws1.AssertResponse) :
  Mcrws1.assert_into_session env P sid text w = (inr resp, w') ->
  exists s prompt llm_response,
    sessions w !! sid = Some s /\
    Mcrws1.PromptManager_get P "NL_TO_RULES"
      {| kw_text := Some text; kw_query := None; kw_schema := None;
         kw_result := None; kw_style := None; kw_schema_section := None |} w
    = (inr prompt, w) /\
    llm_generate env (llm_calls w) prompt = inr llm_response /\
    Mcrws1.addedFacts resp
      = Mcrws1.not_in_kb (knowledgeBase s) (Mcrws1._extract_prolog llm_response) /\
    (Mcrws1.ar_knowledgeBase resp, w')
      = commit env s (Mcrws1.addedFacts resp) (after_calls w [prompt]).
Proof.
  intros H. pose proof H as H0. unfold Mcrws1.assert_into_session in H.
  run_step H; [discriminate H|].
  apply get_session_inv in E as [-> Hs].
  run_step H; [discriminate H|].
  pose proof (v1_prompt_get_inv _ _ _ _ _ _ E) as ->.
  run_step H; [discriminate H|].
  rewrite generate_run in E0. injection E0 as Hllm _.
  rewrite (v1_assert_run env P sid text w a a0 a1 Hs E Hllm) in H0.
  cbv zeta in H0. injection H0 as <- <-.
  exists a, a0, a1. simpl. repeat split; try assumption.
  destruct (commit env a _ _). reflexivity.
Qed.

(** A second assert of mcrws1, with a backend that answers in the second
    call as in the first. *)
Lemma v1_assert_again (env : Env) (P : string -> option Template) (sid : string)
    (text : str) (w w1 w2 : World) (resp1 resp2 : Mcrws1.AssertResponse) :
  store_ok w ->
  Mcrws1.assert_into_session env P sid text w = (inr resp1, w1) ->
  Mcrws1.assert_into_session env P sid text w1 = (inr resp2, w2) ->
  (forall prompt, llm_generate env (llm_calls w1) prompt
                  = llm_generate env (llm_calls w) prompt) ->
  (forall prompt r, llm_generate env (llm_calls w) prompt = inr r ->
                    Forall one_line (Mcrws1._extract_prolog r)) ->
  Mcrws1.addedFacts resp2 = [] /\
  Mcrws1.ar_knowledgeBase resp2 = Mcrws1.ar_knowledgeBase resp1 /\
  same_store w1 w2.
Proof.
  intros Hok H1 H2 Hdet Hone.
  apply v1_assert_inv_full in H1 as (s & p1 & r1 & Hs & Hp & Hllm & Hadd & Hc).
  apply v1_assert_inv_full in H2 as (s' & p2 & r2 & Hs' & Hp' & Hllm' & Hadd' & Hc').
  pose proof (Hok sid s Hs) as Hid. subst sid.
  destruct (commit_session env s _ _ w1 _
              (same_store_lookup _ _ _ _ (same_store_after_calls w [p1]) Hs) Hc)
    as (Hkb1 & s1 & Hs1 & Hkb & _).
  rewrite Hs1 in Hs'. injection Hs' as <-.
  rewrite (v1_prompt_get_world _ _ _ w w1 _ Hp) in Hp'. injection Hp' as <-.
  rewrite Hdet, Hllm in Hllm'. injection Hllm' as <-.
  assert (Hnone : Mcrws1.addedFacts resp2 = []).
  { rewrite Hadd', Hkb, Hkb1, Hadd.
    apply (exact_check_again (knowledgeBase s) (Mcrws1._extract_prolog r1)).
    - apply v1_extract_prolog_clean.
    - eapply Hone. exact Hllm. }
  rewrite Hnone, commit_nothing in Hc'. injection Hc' as -> ->.
  split; [exact Hnone|]. split; [exact Hkb|]. apply same_store_after_calls.
Qed.

(** C5, as amended.  The duplicate check is by exact text: a clause that is
    a line of the current text is not appended (in mcrws3 the lines are
    trimmed before they are compared, in mcrws1 and mcrws2 they are compared
    as they are).  An assert keeps the old text but for the white space at
    its front: the new text is the old one, or the old one without its
    leading white space and blank lines, followed by the appended clauses;
    nothing else is removed and nothing is reordered.  When the store holds
    every session under its own id, the translation gives the same clauses
    again and no clause holds a line boundary inside, a second assert of the
    same input on the world after the first adds no clause and leaves the
    text and the store as they are. *)
Theorem C5_dedup_append_only :
  (forall (kb : str) (cs : list str) (c : str),
     In c (splitlines kb) ->
     ~ In c (Mcrws1.not_in_kb kb cs) /\
     ~ In c (Mcrws2.not_in_kb kb cs) /\
     ~ In (strip c) (Mcrws3.not_in_kb kb cs) /\
     (strip c = c -> ~ In c (Mcrws3.not_in_kb kb cs)))
  /\
  (forall (env : Env) (sid : string) (text : str) (w w' : World),
     (forall P resp,
        Mcrws1.assert_into_session env P sid text w = (inr resp, w') ->
        exists s, sessions w !! sid = Some s /\
                  keeps_old_text (knowledgeBase s) (Mcrws1.ar_knowledgeBase resp)) /\
     (forall P resp,
        Mcrws2.assert_into_session env P sid text w = (inr resp, w') ->
        exists s, sessions w !! sid = Some s /\
                  keeps_old_text (knowledgeBase s) (Mcrws2.ar_knowledgeBase resp)) /\
     (forall P resp,
        Mcrws3.assert_into_session env P sid text w = (inr resp, w') ->
        exists s, sessions w !! sid = Some s /\
                  keeps_old_text (knowledgeBase s) (Mcrws3.ar_knowledgeBase resp)))
  /\
  (forall (env : Env) (sid : string) (text : str) (w w1 w2 : World),
     store_ok w ->
     (forall P resp1 resp2,
        Mcrws1.assert_into_session env P sid text w = (inr resp1, w1) ->
        Mcrws1.assert_into_session env P sid text w1 = (inr resp2, w2) ->
        (forall prompt, llm_generate env (llm_calls w1) prompt
                        = llm_generate env (llm_calls w) prompt) ->
        (forall prompt r, llm_generate env (llm_calls w) prompt = inr r ->
                          Forall one_line (Mcrws1._extract_prolog r)) ->
        Mcrws1.addedFacts resp2 = [] /\
        Mcrws1.ar_knowledgeBase resp2 = Mcrws1.ar_knowledgeBase resp1 /\
        same_store w1 w2) /\
     (forall P resp1 resp2,
        Mcrws2.assert_into_session env P sid text w = (inr resp1, w1) ->
        Mcrws2.assert_into_session env P sid text w1 = (inr resp2, w2) ->
        Mcrws2.translatedProlog resp2 = Mcrws2.translatedProlog resp1 ->
        Forall one_line (Mcrws2.translatedProlog resp1) ->
        Mcrws2.addedFacts resp2 = [] /\
        Mcrws2.ar_knowledgeBase resp2 = Mcrws2.ar_knowledgeBase resp1 /\
        same_store w1 w2) /\
     (forall P resp1 resp2,
        Mcrws3.assert_into_session env P sid text w = (inr resp1, w1) ->
        Mcrws3.assert_into_session env P sid text w1 = (inr resp2, w2) ->
        Mcrws3.translatedProlog resp2 = Mcrws3.translatedProlog resp1 ->
        Forall one_line (Mcrws3.translatedProlog resp1) ->
        Mcrws3.addedFacts resp2 = [] /\
        Mcrws3.ar_knowledgeBase resp2 = Mcrws3.ar_knowledgeBase resp1 /\
        same_store w1 w2)).
Proof.
  split; [|split].
  - intros kb cs c Hin.
    assert (Hs : In (strip c) (map strip (splitlines kb))) by (apply in_map; exact Hin).
    unfold Mcrws1.not_in_kb, Mcrws2.not_in_kb, Mcrws3.not_in_kb. cbv zeta.
    repeat split.
    + intros H. apply filter_In in H as [_ H]. apply negb_true_iff in H.
      apply str_in_false in H. tauto.
    + intros H. apply filter_In in H as [_ H]. apply negb_true_iff in H.
      apply str_in_false in H. tauto.
    + intros H. apply filter_In in H as [_ H]. apply negb_true_iff in H.
      apply str_in_false in H. tauto.
    + intros E H. rewrite E in Hs. apply filter_In in H as [_ H].
      apply negb_true_iff in H. apply str_in_false in H. tauto.
  - intros env sid text w w'. split; [|split]; intros P resp H.
    + apply v1_assert_inv in H as (s & w2 & r & Hs & _ & Hadd & Hc).
      exists s. split; [exact Hs|]. apply commit_fst in Hc. rewrite Hc.
      apply kb_after_keeps. rewrite Hadd.
      apply filter_clean, v1_extract_prolog_clean.
    + apply v2_assert_inv in H as (s & w2 & r & Hs & _ & Hnew & Hadd & Hc).
      exists s. split; [exact Hs|]. apply commit_fst in Hc. rewrite Hc.
      apply kb_after_keeps. rewrite Hadd, Hnew.
      apply filter_clean, v2_extract_prolog_clean.
    + apply v3_assert_inv in H as (s & w2 & r & Hs & _ & Hnew & _ & Hadd & Hc).
      exists s. split; [exact Hs|]. apply commit_fst in Hc. rewrite Hc.
      apply kb_after_keeps. rewrite Hadd, Hnew.
      apply filter_clean, v3_extract_prolog_clean.
  - intros env sid text w w1 w2 Hok. split; [|split]; intros P resp1 resp2.
    + apply v1_assert_again. exact Hok.
    + apply v2_assert_again. exact Hok.
    + apply v3_assert_again. exact Hok.
Qed.

Lemma demo_world_ok (kb : str) : store_ok (demo_world kb).
Proof.
  intros sid s H. unfold demo_world in H. simpl in H.
  apply lookup_singleton_Some in H as [<- <-]. reflexivity.
Defined.

Lemma C5_dedup_append_only_witness :
  ~ In (py "p(a).") (Mcrws3.not_in_kb (py "p(a).") [py "p(a)."; py "q(b)."]) /\
  (Mcrws3.assert_into_session demo_assert_env demo_prompts3 "s1" (py "A fact.")
     (demo_world (py "p(a).")) = (inr demo_assert_resp1, demo_assert_world1) /\
   Mcrws3.assert_into_session demo_assert_env demo_prompts3 "s1" (py "A fact.")
     demo_assert_world1 = (inr demo_assert_resp2, demo_assert_world2)) /\
  (Mcrws3.addedFacts demo_assert_resp2 = [] /\
   Mcrws3.ar_knowledgeBase demo_assert_resp2
   = Mcrws3.ar_knowledgeBase demo_assert_resp1 /\
   same_store demo_assert_world1 demo_assert_world2).
Proof.
  destruct C5_dedup_append_only as (HA & _ & HC). split; [|split].
  - apply (HA (py "p(a).") [py "p(a)."; py "q(b)."] (py "p(a).")).
    + vm_compute. auto.
    + reflexivity.
  - split; reflexivity.
  - apply (proj2 (proj2 (HC demo_assert_env "s1"%string (py "A fact.")
                           (demo_world (py "p(a).")) demo_assert_world1
                           demo_assert_world2 (demo_world_ok (py "p(a)."))))
             demo_prompts3 demo_assert_resp1 demo_assert_resp2).
    + reflexivity.
    + reflexivity.
    + reflexivity.
    + repeat constructor.
Defined.

(** C5 fails.  In mcrws3 a clause that the backend writes on two lines is
    appended as two lines of the text, so the second assert of the same
    input, with the same translation, appends it again.  And a blank line at
    the front of the old text is removed by an appending assert. *)
Lemma C5_counterexample :
  (let env := demo_env (const_llm two_line_answer) TimedOut in
   let run1 := Mcrws3.assert_into_session env demo_prompts3 "s1" (py "A fact.")
                 (demo_world []) in
   let run2 := Mcrws3.assert_into_session env demo_prompts3 "s1" (py "A fact.")
                 (snd run1) in
   fst run1 = inr {| Mcrws3.addedFacts := [two_line_answer];
                     Mcrws3.ar_knowledgeBase := two_line_answer;
                     Mcrws3.translatedProlog := [two_line_answer];
                     Mcrws3.intent := py "FACT" |} /\
   fst run2 = inr {| Mcrws3.addedFacts := [two_line_answer];
                     Mcrws3.ar_knowledgeBase :=
                       two_line_answer ++ [LF] ++ two_line_answer;
                     Mcrws3.translatedProlog := [two_line_answer];
                     Mcrws3.intent := py "FACT" |})
  /\
  (fst (Mcrws3.assert_into_session demo_assert_env demo_prompts3 "s1"
          (py "A fact.") (demo_world ([LF] ++ py "p(a).")))
   = inr {| Mcrws3.addedFacts := [py "q(b)."];
            Mcrws3.ar_knowledgeBase := py "p(a)." ++ [LF] ++ py "q(b).";
            Mcrws3.translatedProlog := [py "q(b)."];
            Mcrws3.intent := py "FACT" |} /\
   In [] (splitlines ([LF] ++ py "p(a).")) /\
   ~ In [] (splitlines (py "p(a)." ++ [LF] ++ py "q(b)."))).
Proof.
  split; [split; vm_compute; reflexivity|].
  split; [vm_compute; reflexivity|]. split; [vm_compute; auto|].
  vm_compute. intros H. repeat (destruct H as [H|H]; try discriminate H). exact H.
Qed.

(* ===================================================================== *)
(** * Further properties of the service *)
(* ===================================================================== *)

(** ** Sessions that do not exist *)

Lemma get_session_none (sid : string) (w : World) :
  sessions w !! sid = None -> get_session sid w = (inl (no_session sid), w).
Proof. intros H. unfold get_session. rewrite H. reflexivity. Qed.

(** X1.  An operation on a session id that has no session file fails with
    the not-found error that names the id, in the three variants and for
    assert, query and knowledge-base replacement alike.  The world is as
    before: the backend is not called and nothing is saved.  The exception
    handler of each variant answers this error with status 404. *)
Theorem X1_unknown_session (env : Env) (P1 P2 : string -> option Template)
    (P3 : string -> list Template) (sid : string) (text : str) (w : World) :
  sessions w !! sid = None ->
  (Mcrws1.assert_into_session env P1 sid text w = (inl (no_session sid), w) /\
   Mcrws2.assert_into_session env P2 sid text w = (inl (no_session sid), w) /\
   Mcrws3.assert_into_session env P3 sid text w = (inl (no_session sid), w)) /\
  (Mcrws1.run_query env P1 sid text w = (inl (no_session sid), w) /\
   Mcrws2.run_query env P2 sid text w = (inl (no_session sid), w) /\
   Mcrws3.run_query env P3 sid text w = (inl (no_session sid), w)) /\
  (Mcrws1.update_kb env sid text w = (inl (no_session sid), w) /\
   Mcrws2.update_kb env sid text w = (inl (no_session sid), w) /\
   Mcrws3.update_kb env sid text w = (inl (no_session sid), w)) /\
  (status_code (Mcrws1_api.mcr_exception_handler (no_session sid)) = 404 /\
   status_code (Mcrws2_api.mcr_exception_handler (no_session sid)) = 404 /\
   status_code (Mcrws3_api.mcr_exception_handler (no_session sid)) = 404).
Proof.
  intros H. apply get_session_none in H.
  unfold Mcrws1.assert_into_session, Mcrws2.assert_into_session,
    Mcrws3.assert_into_session, Mcrws1.run_query, Mcrws2.run_query,
    Mcrws3.run_query, Mcrws1.update_kb, Mcrws2.update_kb, Mcrws3.update_kb.
  unfold bind. rewrite H. repeat split; reflexivity.
Qed.

Lemma X1_unknown_session_witness :
  Mcrws3.run_query (demo_env (const_llm (py "q(X)")) TimedOut) demo_prompts3
    "nobody" (py "Who?") (demo_world [])
  = (inl (no_session "nobody"), demo_world []).
Proof.
  apply (proj2 (proj2 (proj1 (proj2
    (X1_unknown_session (demo_env (const_llm (py "q(X)")) TimedOut)
       demo_prompts demo_prompts demo_prompts3 "nobody" (py "Who?")
       (demo_world []) eq_refl))))).
Defined.

(** ** Operations that only call the backend *)

Lemma calls_only_refl (w : World) : calls_only 0 w w.
Proof. exists []. split; [reflexivity|]. symmetry. apply after_calls_nil. Qed.

Lemma calls_only_le (n m : nat) (w w' : World) :
  n <= m -> calls_only n w w' -> calls_only m w w'.
Proof. intros Hle (ps & Hn & ->). exists ps. split; [lia|reflexivity]. Qed.

Lemma calls_only_trans (n m : nat) (w1 w2 w3 : World) :
  calls_only n w1 w2 -> calls_only m w2 w3 -> calls_only (n + m) w1 w3.
Proof.
  intros (ps & Hn & ->) (qs & Hm & ->). exists (ps ++ qs).
  split; [rewrite length_app; lia|]. apply after_calls_app.
Qed.

Lemma calls_only_same_store (n : nat) (w w' : World) :
  calls_only n w w' -> same_store w w'.
Proof. intros (ps & _ & ->). apply same_store_after_calls. Qed.

Lemma bind_calls_only {A B} (m : M A) (k : A -> M B) (n1 n2 : nat)
    (w w' : World) (r : Exn + B) :
  (forall r1 w1, m w = (r1, w1) -> calls_only n1 w w1) ->
  (forall a w1 r' w2, k a w1 = (r', w2) -> calls_only n2 w1 w2) ->
  bind m k w = (r, w') -> calls_only (n1 + n2) w w'.
Proof.
  intros Hm Hk. unfold bind. destruct (m w) as [[e|a] w1]; intros H.
  - injection H as _ <-. eapply calls_only_le; [|apply (Hm _ _ eq_refl)]. lia.
  - eapply calls_only_trans; [apply (Hm _ _ eq_refl)|apply (Hk _ _ _ _ H)].
Qed.

Lemma get_session_calls_only (sid : string) (w w' : World) (r : Exn + Session) :
  get_session sid w = (r, w') -> calls_only 0 w w'.
Proof. intros H. apply get_session_inv in H as [-> _]. apply calls_only_refl. Qed.

Lemma generate_calls_only (env : Env) (p : str) (w w' : World) (r : Exn + str) :
  generate env p w = (r, w') -> calls_only 1 w w'.
Proof.
  rewrite generate_run. intros H. injection H as _ <-.
  exists [p]. split; reflexivity.
Qed.

Lemma lift_calls_only {A} (x : Exn + A) (w w' : World) (r : Exn + A) :
  lift x w = (r, w') -> calls_only 0 w w'.
Proof. unfold lift. intros H. injection H as _ <-. apply calls_only_refl. Qed.

Lemma ret_calls_only {A} (x : A) (w w' : World) (r : Exn + A) :
  ret x w = (r, w') -> calls_only 0 w w'.
Proof. unfold ret. intros H. injection H as _ <-. apply calls_only_refl. Qed.

Lemma raise_calls_only {A} (e : Exn) (w w' : World) (r : Exn + A) :
  @raise A e w = (r, w') -> calls_only 0 w w'.
Proof. unfold raise. intros H. injection H as _ <-. apply calls_only_refl. Qed.

Lemma v1_prompt_get_calls_only (P : string -> option Template) (name : string)
    (kwargs : Kwargs) (w w' : World) (r : Exn + str) :
  Mcrws1.PromptManager_get P name kwargs w = (r, w') -> calls_only 0 w w'.
Proof. intros H. apply v1_prompt_get_inv in H as ->. apply calls_only_refl. Qed.

Lemma v2_prompt_get_calls_only (P : string -> option Template) (name : string)
    (kwargs : Kwargs) (w w' : World) (r : Exn + str) :
  Mcrws2.PromptManager_get P name kwargs w = (r, w') -> calls_only 0 w w'.
Proof. intros H. apply v2_prompt_get_inv in H as ->. apply calls_only_refl. Qed.

Lemma try_variants_calls_only (env : Env) (name : string) (n : nat)
    (ps : list str) :
  forall (w w' : World) (r : Exn + str),
    Mcrws3.try_variants env name n ps w = (r, w') ->
    calls_only (length ps) w w'.
Proof.
  induction ps as [|p ps IH]; intros w w' r.
  - simpl. apply raise_calls_only.
  - rewrite try_variants_cons. simpl length.
    assert (H1 : calls_only 1 w (after_calls w [p]))
      by (exists [p]; split; reflexivity).
    destruct (llm_generate env (llm_calls w) p) as [e|resp].
    + intros H. injection H as _ <-. eapply calls_only_le; [|exact H1]. lia.
    + destruct (blank resp).
      * intros H. apply IH in H. apply (calls_only_trans 1 _ _ _ _ H1 H).
      * intros H. injection H as _ <-. eapply calls_only_le; [|exact H1]. lia.
Qed.

Lemma run_prompt_chain_calls_only (env : Env) (P : string -> list Template)
    (name : string) (kwargs : Kwargs) (w w' : World) (r : Exn + str) :
  Mcrws3._run_prompt_chain env P name kwargs w = (r, w') ->
  calls_only (length (P name)) w w'.
Proof.
  unfold Mcrws3._run_prompt_chain. destruct (is_empty _).
  - intros H. apply raise_calls_only in H.
    eapply calls_only_le; [|exact H]. lia.
  - intros H. apply try_variants_calls_only in H.
    unfold Mcrws3.PromptManager_get in H. rewrite length_map in H. exact H.
Qed.

Ltac calls_only_steps :=
  repeat first
    [ eapply bind_calls_only; [intros ? ?|intros ? ? ? ?]
    | apply get_session_calls_only
    | apply generate_calls_only
    | apply lift_calls_only
    | apply ret_calls_only
    | apply raise_calls_only
    | apply v1_prompt_get_calls_only
    | apply v2_prompt_get_calls_only
    | apply run_prompt_chain_calls_only ].

Lemma run_query_calls_only (env : Env) (P1 P2 : string -> option Template)
    (P3 : string -> list Template) (sid : string) (q : str) (w w' : World) :
  (forall r, Mcrws1.run_query env P1 sid q w = (r, w') -> calls_only 2 w w') /\
  (forall r, Mcrws2.run_query env P2 sid q w = (r, w') -> calls_only 2 w w') /\
  (forall r, Mcrws3.run_query env P3 sid q w = (r, w') ->
     calls_only (length (P3 "NL_TO_QUERY") + length (P3 "RESULT_TO_NL")) w w').
Proof.
  split; [|split]; intros r H.
  - unfold Mcrws1.run_query in H.
    eapply calls_only_le; cycle 1.
    + revert H. calls_only_steps.
    + simpl. lia.
  - unfold Mcrws2.run_query in H.
    eapply calls_only_le; cycle 1.
    + revert H. calls_only_steps.
    + simpl. lia.
  - unfold Mcrws3.run_query in H.
    eapply calls_only_le; cycle 1.
    + revert H. calls_only_steps.
      destruct (is_empty _); [|calls_only_steps].
      intros H. apply raise_calls_only in H.
      eapply calls_only_le; [apply Nat.le_0_l|exact H].
    + simpl. lia.
Qed.

(** X2.  A query never changes the session store, whether it succeeds or
    fails, in the three variants: the session files and the saves after it
    are those before it, and all that happened is calls of the backend, at
    most two in mcrws1 and mcrws2 and at most one for each variant of the
    two tasks in mcrws3. *)
Theorem X2_query_read_only (env : Env) (P1 P2 : string -> option Template)
    (P3 : string -> list Template) (sid : string) (q : str) (w w' : World) :
  (forall r, Mcrws1.run_query env P1 sid q w = (r, w') -> calls_only 2 w w') /\
  (forall r, Mcrws2.run_query env P2 sid q w = (r, w') -> calls_only 2 w w') /\
  (forall r, Mcrws3.run_query env P3 sid q w = (r, w') ->
     calls_only (length (P3 "NL_TO_QUERY") + length (P3 "RESULT_TO_NL")) w w').
Proof. apply run_query_calls_only. Qed.

Lemma X2_query_read_only_witness :
  calls_only 2 (demo_world (py "p(a)."))
    (after_calls (demo_world (py "p(a).")) [py "NL_TO_QUERY|Who?"]).
Proof.
  apply (proj1 (proj2 (X2_query_read_only
           (demo_env (const_llm (py "q(X)")) TimedOut)
           demo_prompts demo_prompts demo_prompts3 "s1" (py "Who?")
           (demo_world (py "p(a).")) _))
         (inl (ReasoningTimeout 10))).
  reflexivity.
Defined.

(** ** What a query reports *)

Lemma rstrip_dot_no_dot (s : str) :
  endswith (rstrip_by (chr_eqb DOT) s) [DOT] = false.
Proof.
  destruct (endswith _ _) eqn:E; [|reflexivity].
  apply endswith_char in E as [r E].
  apply rstrip_by_end in E. rewrite chr_eqb_refl in E. discriminate E.
Qed.

Lemma v1_run_query_inv (env : Env) (P : string -> option Template)
    (sid : string) (q : str) (w w' : World) (r : Mcrws1.QueryResponse) :
  Mcrws1.run_query env P sid q w = (inr r, w') ->
  exists s raw,
    sessions w !! sid = Some s /\
    Mcrws1.queryProlog r = rstrip_by (chr_eqb DOT) (strip raw) /\
    Mcrws1.PythologReasonProvider_query env (knowledgeBase s) (Mcrws1.queryProlog r)
    = inr (Mcrws1.result r) /\
    Mcrws1.debugInfo r = Some (Mcrws1.queryProlog r, Mcrws1.result r).
Proof.
  unfold Mcrws1.run_query. intros H.
  run_step H; [discriminate H|]. apply get_session_inv in E as [-> Hs].
  run_step H; [discriminate H|].
  run_step H; [discriminate H|].
  run_step H; [discriminate H|].
  run_step H; [discriminate H|].
  run_step H; [discriminate H|].
  unfold ret in H. injection H as <- <-. simpl.
  unfold lift in E1. injection E1 as E1 _.
  exists a, a1. auto.
Qed.

Lemma v2_run_query_inv (env : Env) (P : string -> option Template)
    (sid : string) (q : str) (w w' : World) (r : Mcrws2.QueryResponse) :
  Mcrws2.run_query env P sid q w = (inr r, w') ->
  exists s raw,
    sessions w !! sid = Some s /\
    Mcrws2.queryProlog r = rstrip_by (chr_eqb DOT) (strip raw) /\
    Mcrws2.PythologReasonProvider_query env (knowledgeBase s) (Mcrws2.queryProlog r)
    = inr (Mcrws2.result r) /\
    Mcrws2.debugInfo r = Some (Mcrws2.queryProlog r, Mcrws2.result r).
Proof.
  unfold Mcrws2.run_query. intros H.
  run_step H; [discriminate H|]. apply get_session_inv in E as [-> Hs].
  run_step H; [discriminate H|].
  run_step H; [discriminate H|].
  run_step H; [discriminate H|].
  run_step H; [discriminate H|].
  run_step H; [discriminate H|].
  unfold ret in H. injection H as <- <-. simpl.
  unfold lift in E1. injection E1 as E1 _.
  exists a, a1. auto.
Qed.

Lemma v3_run_query_inv (env : Env) (P : string -> list Template)
    (sid : string) (q : str) (w w' : World) (r : Mcrws3.QueryResponse) :
  Mcrws3.run_query env P sid q w = (inr r, w') ->
  exists s chain_result,
    sessions w !! sid = Some s /\
    Mcrws3.queryProlog r = rstrip_by (chr_eqb DOT) chain_result /\
    Mcrws3.queryProlog r <> [] /\
    Mcrws3.PythologReasonProvider_query env (knowledgeBase s) (Mcrws3.queryProlog r)
    = inr (Mcrws3.result r) /\
    Mcrws3.debugInfo r = None.
Proof.
  unfold Mcrws3.run_query. intros H.
  run_step H; [discriminate H|]. apply get_session_inv in E as [-> Hs].
  run_step H; [discriminate H|].
  destruct (is_empty _) eqn:Hq; [discriminate H|]. apply is_empty_false in Hq.
  run_step H; [discriminate H|].
  run_step H; [discriminate H|].
  unfold ret in H. injection H as <- <-. simpl.
  unfold lift in E0. injection E0 as E0 _.
  exists a, a0. auto.
Qed.

(** X3.  The logic query that a successful query reports is the one that
    was evaluated: the reported raw result is the answer of the reasoner to
    the reported query on the knowledge base of the stored session.  The
    reported query never ends with the terminator, in the three variants.
    In mcrws3 it is never empty; mcrws1 and mcrws2 have no such check, and
    report the same query and result a second time as debug information. *)
Theorem X3_reported_query (env : Env) (P1 P2 : string -> option Template)
    (P3 : string -> list Template) (sid : string) (q : str) (w w' : World) :
  (forall r, Mcrws1.run_query env P1 sid q w = (inr r, w') ->
     exists s, sessions w !! sid = Some s /\
       Mcrws1.PythologReasonProvider_query env (knowledgeBase s)
         (Mcrws1.queryProlog r) = inr (Mcrws1.result r) /\
       endswith (Mcrws1.queryProlog r) [DOT] = false /\
       Mcrws1.debugInfo r = Some (Mcrws1.queryProlog r, Mcrws1.result r)) /\
  (forall r, Mcrws2.run_query env P2 sid q w = (inr r, w') ->
     exists s, sessions w !! sid = Some s /\
       Mcrws2.PythologReasonProvider_query env (knowledgeBase s)
         (Mcrws2.queryProlog r) = inr (Mcrws2.result r) /\
       endswith (Mcrws2.queryProlog r) [DOT] = false /\
       Mcrws2.debugInfo r = Some (Mcrws2.queryProlog r, Mcrws2.result r)) /\
  (forall r, Mcrws3.run_query env P3 sid q w = (inr r, w') ->
     exists s, sessions w !! sid = Some s /\
       Mcrws3.PythologReasonProvider_query env (knowledgeBase s)
         (Mcrws3.queryProlog r) = inr (Mcrws3.result r) /\
       endswith (Mcrws3.queryProlog r) [DOT] = false /\
       Mcrws3.queryProlog r <> [] /\
       Mcrws3.debugInfo r = None).
Proof.
  split; [|split]; intros r H.
  - apply v1_run_query_inv in H as (s & raw & Hs & Eq & Hr & Hd).
    exists s. rewrite Eq at 2. rewrite rstrip_dot_no_dot. auto.
  - apply v2_run_query_inv in H as (s & raw & Hs & Eq & Hr & Hd).
    exists s. rewrite Eq at 2. rewrite rstrip_dot_no_dot. auto.
  - apply v3_run_query_inv in H as (s & raw & Hs & Eq & Hne & Hr & Hd).
    exists s. rewrite Eq at 2. rewrite rstrip_dot_no_dot. auto.
Qed.

Lemma X3_reported_query_witness :
  exists s, sessions (demo_world (py "p(a).")) !! "s1"%string = Some s /\
    Mcrws3.PythologReasonProvider_query demo_query_env (knowledgeBase s)
      (Mcrws3.queryProlog demo_query_response3)
    = inr (Mcrws3.result demo_query_response3) /\
    endswith (Mcrws3.queryProlog demo_query_response3) [DOT] = false /\
    Mcrws3.queryProlog demo_query_response3 <> [] /\
    Mcrws3.debugInfo demo_query_response3 = None.
Proof.
  apply (proj2 (proj2 (X3_reported_query demo_query_env demo_prompts
           demo_prompts demo_prompts3 "s1" (py "Who?") (demo_world (py "p(a)."))
           demo_query_world3))).
  reflexivity.
Defined.

Lemma v1_query_not_None (env : Env) (kb goal : str) (v : PyValue) :
  Mcrws1.PythologReasonProvider_query env kb goal = inr v -> v <> PyNone.
Proof.
  unfold Mcrws1.PythologReasonProvider_query.
  destruct (engine_load env _); [discriminate|].
  destruct (engine_query env _ _) as [x| |]; try discriminate.
  intros H. injection H as <-. destruct x; discriminate.
Qed.

Lemma v2_query_not_None (env : Env) (kb goal : str) (v : PyValue) :
  Mcrws2.PythologReasonProvider_query env kb goal = inr v -> v <> PyNone.
Proof.
  unfold Mcrws2.PythologReasonProvider_query.
  destruct (engine_load env _); [discriminate|].
  destruct (engine_query env _ _) as [x| |]; try discriminate.
  intros H. injection H as <-. destruct x; discriminate.
Qed.

Lemma v3_query_truthy (env : Env) (kb goal : str) (v : PyValue) :
  Mcrws3.PythologReasonProvider_query env kb goal = inr v ->
  v = PyList [] \/ truthy v = true.
Proof.
  unfold Mcrws3.PythologReasonProvider_query.
  destruct (engine_load env _); [discriminate|].
  destruct (engine_query env _ _) as [x| |]; try discriminate.
  intros H. injection H as <-. destruct (truthy x) eqn:E; auto.
Qed.

(** X4.  A successful query never reports [None] as the raw result: in
    mcrws1 and mcrws2 the reasoner turns [None] into the empty list.  In
    mcrws3 the reasoner turns every outcome that counts as false into the
    empty list, so the reported result is the empty list or counts as true;
    it is never [None], [False] or an empty string, and the value shown to
    the explanation step is the token "No" exactly for the empty list and
    for the list ['No'] (and for the string "No" itself). *)
Theorem X4_reported_result (env : Env) (P1 P2 : string -> option Template)
    (P3 : string -> list Template) (sid : string) (q : str) (w w' : World) :
  (forall r, Mcrws1.run_query env P1 sid q w = (inr r, w') ->
     Mcrws1.result r <> PyNone) /\
  (forall r, Mcrws2.run_query env P2 sid q w = (inr r, w') ->
     Mcrws2.result r <> PyNone) /\
  (forall r, Mcrws3.run_query env P3 sid q w = (inr r, w') ->
     (Mcrws3.result r = PyList [] \/ truthy (Mcrws3.result r) = true) /\
     Mcrws3.result r <> PyNone /\ Mcrws3.result r <> PyBool false /\
     Mcrws3.result r <> PyStr [] /\
     (Mcrws3.result_for_llm (Mcrws3.result r) = PyStr (py "No") <->
      Mcrws3.result r = PyList [] \/ Mcrws3.result r = PyList [IStr (py "No")]
      \/ Mcrws3.result r = PyStr (py "No"))).
Proof.
  split; [|split]; intros r H.
  - apply v1_run_query_inv in H as (s & raw & _ & _ & Hr & _).
    eapply v1_query_not_None. exact Hr.
  - apply v2_run_query_inv in H as (s & raw & _ & _ & Hr & _).
    eapply v2_query_not_None. exact Hr.
  - apply v3_run_query_inv in H as (s & raw & _ & _ & _ & Hr & _).
    apply v3_query_truthy in Hr.
    assert (Hshape : forall v, v = PyList [] \/ truthy v = true ->
              (Mcrws3.result_for_llm v = PyStr (py "No") <->
               v = PyList [] \/ v = PyList [IStr (py "No")] \/ v = PyStr (py "No"))).
    { intros v Hv. unfold Mcrws3.result_for_llm. split.
      - destruct v as [|[|]|t|l].
        + destruct Hv as [Hv|Hv]; discriminate Hv.
        + simpl. discriminate.
        + destruct Hv as [Hv|Hv]; discriminate Hv.
        + destruct t; [destruct Hv as [Hv|Hv]; discriminate Hv|].
          simpl. intros E. auto.
        + destruct l as [|i l]; [auto|].
          destruct i as [t|b]; [|simpl; discriminate].
          destruct l; [|simpl; discriminate].
          destruct (str_eqb t (py "No")) eqn:Et.
          * apply str_eqb_eq in Et. subst t. auto.
          * unfold eq_list_No. rewrite Et. simpl. discriminate.

      - intros [->|[->| ->]]; reflexivity. }
    split; [exact Hr|]. split; [|split; [|split]].
    + destruct Hr as [-> | Hr]; [discriminate|]. intros E. rewrite E in Hr. discriminate Hr.
    + destruct Hr as [-> | Hr]; [discriminate|]. intros E. rewrite E in Hr. discriminate Hr.
    + destruct Hr as [-> | Hr]; [discriminate|]. intros E. rewrite E in Hr. discriminate Hr.
    + apply Hshape. exact Hr.
Qed.

Lemma X4_reported_result_witness :
  (Mcrws3.result demo_query_response3 = PyList []
   \/ truthy (Mcrws3.result demo_query_response3) = true) /\
  Mcrws3.result demo_query_response3 <> PyNone /\
  Mcrws3.result demo_query_response3 <> PyBool false /\
  Mcrws3.result demo_query_response3 <> PyStr [] /\
  (Mcrws3.result_for_llm (Mcrws3.result demo_query_response3) = PyStr (py "No") <->
   Mcrws3.result demo_query_response3 = PyList []
   \/ Mcrws3.result demo_query_response3 = PyList [IStr (py "No")]
   \/ Mcrws3.result demo_query_response3 = PyStr (py "No")).
Proof.
  apply (proj2 (proj2 (X4_reported_result demo_query_env demo_prompts
           demo_prompts demo_prompts3 "s1" (py "Who?") (demo_world (py "p(a)."))
           demo_query_world3))).
  reflexivity.
Defined.

(** ** Queries on a knowledge base that the engine rejects *)

Lemma v1_query_rejected (env : Env) (kb goal msg : str) :
  engine_load env (splitlines kb) = Some msg ->
  Mcrws1.PythologReasonProvider_query env kb goal = inl (ReasoningError msg).
Proof. intros H. unfold Mcrws1.PythologReasonProvider_query. rewrite H. reflexivity. Qed.

Lemma v2_query_rejected (env : Env) (kb goal msg : str) :
  engine_load env (splitlines kb) = Some msg ->
  Mcrws2.PythologReasonProvider_query env kb goal = inl (ReasoningError msg).
Proof. intros H. unfold Mcrws2.PythologReasonProvider_query. rewrite H. reflexivity. Qed.

Lemma v3_query_rejected (env : Env) (kb goal msg : str) :
  engine_load env (splitlines kb) = Some msg ->
  Mcrws3.PythologReasonProvider_query env kb goal = inl (ReasoningError msg).
Proof. intros H. unfold Mcrws3.PythologReasonProvider_query. rewrite H. reflexivity. Qed.

(** X5.  The text of a session is not validated when a query reads it.  If
    the engine rejects the stored text, no query on the session succeeds,
    in the three variants, and the explanation step is never reached: the
    backend is called for the translation only (once in mcrws1 and mcrws2,
    at most once for each variant of the translation task in mcrws3).  The
    error is the reasoning error with the message of the engine, unless the
    translation step itself failed before. *)
Theorem X5_query_on_rejected_kb (env : Env) (P1 P2 : string -> option Template)
    (P3 : string -> list Template) (sid : string) (q msg : str) (s : Session)
    (w w' : World) :
  sessions w !! sid = Some s ->
  engine_load env (splitlines (knowledgeBase s)) = Some msg ->
  (forall r, Mcrws1.run_query env P1 sid q w = (r, w') ->
     exists e, r = inl e /\
       (w' = w \/
        exists p, w' = after_calls w [p] /\
          (llm_generate env (llm_calls w) p = inl e \/ e = ReasoningError msg))) /\
  (forall r, Mcrws2.run_query env P2 sid q w = (r, w') ->
     exists e, r = inl e /\
       (w' = w \/
        exists p, w' = after_calls w [p] /\
          (llm_generate env (llm_calls w) p = inl e \/ e = ReasoningError msg))) /\
  (forall r, Mcrws3.run_query env P3 sid q w = (r, w') ->
     calls_only (length (P3 "NL_TO_QUERY")) w w' /\
     exists e, r = inl e /\
       (e = ReasoningError msg \/
        e = ProviderError (py "LLM failed to generate a valid Prolog query.") \/
        Mcrws3._run_prompt_chain env P3 "NL_TO_QUERY"
          {| kw_text := None; kw_query := Some q;
             kw_schema := Some (Mcrws3._get_kb_schema (knowledgeBase s));
             kw_result := None; kw_style := None; kw_schema_section := None |} w
        = (inl e, w'))).
Proof.
  intros Hs Hload. apply get_session_some in Hs.
  split; [|split]; intros r H.
  - unfold Mcrws1.run_query in H. unfold bind at 1 in H. rewrite Hs in H.
    run_step H.
    { apply v1_prompt_get_inv in E as ->. injection H as <- <-. eauto. }
    apply v1_prompt_get_inv in E as ->.
    unfold bind at 1 in H. rewrite generate_run in H.
    destruct (llm_generate env (llm_calls w) a) as [e|raw] eqn:Eg.
    { injection H as <- <-. eexists. split; [reflexivity|]. right. eauto. }
    unfold bind at 1 in H. unfold lift in H.
    rewrite (v1_query_rejected env _ _ msg Hload) in H.
    injection H as <- <-. eexists. split; [reflexivity|]. right. eauto.
  - unfold Mcrws2.run_query in H. unfold bind at 1 in H. rewrite Hs in H.
    run_step H.
    { apply v2_prompt_get_inv in E as ->. injection H as <- <-. eauto. }
    apply v2_prompt_get_inv in E as ->.
    unfold bind at 1 in H. rewrite generate_run in H.
    destruct (llm_generate env (llm_calls w) a) as [e|raw] eqn:Eg.
    { injection H as <- <-. eexists. split; [reflexivity|]. right. eauto. }
    unfold bind at 1 in H. unfold lift in H.
    rewrite (v2_query_rejected env _ _ msg Hload) in H.
    injection H as <- <-. eexists. split; [reflexivity|]. right. eauto.
  - unfold Mcrws3.run_query in H. unfold bind at 1 in H. rewrite Hs in H.
    run_step H.
    { pose proof (run_prompt_chain_calls_only _ _ _ _ _ _ _ E) as Hc.
      injection H as <- <-. split; [exact Hc|]. eauto 6. }
    apply run_prompt_chain_calls_only in E.
    destruct (is_empty _).
    { unfold raise in H. injection H as <- <-. split; [exact E|]. eauto 6. }
    unfold bind at 1 in H. unfold lift in H.
    rewrite (v3_query_rejected env _ _ msg Hload) in H.
    injection H as <- <-. split; [exact E|]. eauto 6.
Qed.

Lemma X5_query_on_rejected_kb_witness :
  calls_only 1 (demo_world (py "p(a)")) (after_calls (demo_world (py "p(a)")) [py "NL_TO_QUERY|Who?"]) /\
  exists e, inl (ReasoningError (py "unterminated clause")) = @inl Exn Mcrws3.QueryResponse e /\
    (e = ReasoningError (py "unterminated clause") \/
     e = ProviderError (py "LLM failed to generate a valid Prolog query.") \/
     Mcrws3._run_prompt_chain demo_query_env demo_prompts3 "NL_TO_QUERY"
       {| kw_text := None; kw_query := Some (py "Who?");
          kw_schema := Some (Mcrws3._get_kb_schema (knowledgeBase (demo_session (py "p(a)"))));
          kw_result := None; kw_style := None; kw_schema_section := None |}
       (demo_world (py "p(a)"))
     = (inl e, after_calls (demo_world (py "p(a)")) [py "NL_TO_QUERY|Who?"])).
Proof.
  apply (proj2 (proj2 (X5_query_on_rejected_kb demo_query_env demo_prompts
           demo_prompts demo_prompts3 "s1" (py "Who?") (py "unterminated clause")
           (demo_session (py "p(a)")) (demo_world (py "p(a)")) _
           eq_refl eq_refl))).
  reflexivity.
Defined.

(** ** The store under the operations *)

Lemma session_step_same_store (sid : string) (w w' : World) :
  store_ok w -> same_store w w' -> store_ok w' /\ session_step sid w w'.
Proof.
  intros Hok [Hs Hv]. split.
  - intros k s. rewrite Hs. apply Hok.
  - split; [intros k _; rewrite Hs; reflexivity|].
    destruct (sessions w !! sid) as [s|] eqn:E.
    + exists s. rewrite Hs. split; [exact E|]. split; [apply (Hok _ _ E)|].
      split; [reflexivity|]. left. auto.
    + rewrite Hs. auto.
Qed.

Lemma session_step_saved_world (env : Env) (sid : string) (s : Session)
    (kb : str) (w : World) :
  store_ok w -> sessions w !! sid = Some s ->
  store_ok (saved_world env s kb w) /\ session_step sid w (saved_world env s kb w).
Proof.
  intros Hok Hs. pose proof (Hok _ _ Hs) as Hid. split.
  - intros k x. unfold saved_world. simpl. rewrite Hid.
    destruct (decide (k = sid)) as [->|Hne].
    + rewrite lookup_insert_eq. intros H. injection H as <-. exact Hid.
    + rewrite lookup_insert_ne by congruence. apply Hok.
  - split.
    + intros k Hne. unfold saved_world. simpl. rewrite Hid.
      apply lookup_insert_ne. congruence.
    + rewrite Hs. eexists. split; [|split; [|split]].
      * unfold saved_world. simpl. rewrite Hid. apply lookup_insert_eq.
      * exact Hid.
      * reflexivity.
      * right. reflexivity.
Qed.

Lemma session_step_before (sid : string) (w w2 w' : World) :
  same_store w w2 -> store_ok w' /\ session_step sid w2 w' ->
  store_ok w' /\ session_step sid w w'.
Proof.
  intros [Hs Hv] [Hok [Hf Hm]]. split; [exact Hok|].
  unfold session_step. rewrite <- Hs, <- Hv. auto.
Qed.

Lemma same_store_ok (w w' : World) : same_store w w' -> store_ok w -> store_ok w'.
Proof. intros [Hs _] Hok k s. rewrite Hs. apply Hok. Qed.

Lemma session_step_commit (env : Env) (sid : string) (s : Session)
    (added : list str) (kb1 : str) (w w2 w' : World) :
  store_ok w -> sessions w !! sid = Some s -> same_store w w2 ->
  (kb1, w') = commit env s added w2 ->
  store_ok w' /\ session_step sid w w'.
Proof.
  intros Hok Hs Hsame Hc.
  apply (session_step_before sid w w2 w' Hsame).
  pose proof (same_store_ok _ _ Hsame Hok) as Hok2.
  pose proof (same_store_lookup _ _ _ _ Hsame Hs) as Hs2.
  unfold commit in Hc. destruct (is_empty added); injection Hc as _ ->.
  - apply session_step_same_store; [exact Hok2|apply same_store_refl].
  - apply session_step_saved_world; assumption.
Qed.

Lemma update_kb_inv (env : Env) (sid : string) (text : str) (w : World) :
  (forall r w', Mcrws1.update_kb env sid text w = (r, w') ->
     w' = w \/ exists s, sessions w !! sid = Some s /\ validate env text = None /\
                         w' = saved_world env s text w) /\
  (forall r w', Mcrws2.update_kb env sid text w = (r, w') ->
     w' = w \/ exists s, sessions w !! sid = Some s /\ validate env text = None /\
                         w' = saved_world env s text w) /\
  (forall r w', Mcrws3.update_kb env sid text w = (r, w') ->
     w' = w \/ exists s, sessions w !! sid = Some s /\ validate env text = None /\
                         w' = saved_world env s text w).
Proof.
  unfold Mcrws1.update_kb, Mcrws2.update_kb, Mcrws3.update_kb.
  split; [|split]; intros r w' H; run_step H;
    apply get_session_inv in E as [-> Hs];
    try (injection H as _ <-; left; reflexivity);
    (destruct (validate env text) eqn:Ev;
     [unfold raise in H; injection H as _ <-; left; reflexivity|]);
    unfold bind, save_session, ret in H; injection H as _ <-;
    right; exists a; auto.
Qed.

Lemma session_step_operations (env : Env) (P1 P2 : string -> option Template)
    (P3 : string -> list Template) (sid : string) (text : str) (w w' : World) :
  store_ok w ->
  (forall r, Mcrws1.assert_into_session env P1 sid text w = (r, w') ->
     store_ok w' /\ session_step sid w w') /\
  (forall r, Mcrws2.assert_into_session env P2 sid text w = (r, w') ->
     store_ok w' /\ session_step sid w w') /\
  (forall r, Mcrws3.assert_into_session env P3 sid text w = (r, w') ->
     store_ok w' /\ session_step sid w w') /\
  (forall r, Mcrws1.update_kb env sid text w = (r, w') ->
     store_ok w' /\ session_step sid w w') /\
  (forall r, Mcrws2.update_kb env sid text w = (r, w') ->
     store_ok w' /\ session_step sid w w') /\
  (forall r, Mcrws3.update_kb env sid text w = (r, w') ->
     store_ok w' /\ session_step sid w w').
Proof.
  intros Hok.
  assert (Hupd : w' = w \/ (exists s, sessions w !! sid = Some s /\
                   validate env text = None /\ w' = saved_world env s text w) ->
                 store_ok w' /\ session_step sid w w').
  { intros [->|(s & Hs & _ & ->)].
    - apply session_step_same_store; [exact Hok|apply same_store_refl].
    - apply session_step_saved_world; assumption. }
  destruct (update_kb_inv env sid text w) as (U1 & U2 & U3).
  split; [|split; [|split; [|split; [|split]]]]; intros r H.
  - apply v1_assert_inv in H. destruct r as [e|resp].
    + apply session_step_same_store; assumption.
    + destruct H as (s & w2 & resp0 & Hs & Hsame & _ & Hc).
      apply (session_step_commit env sid s _ _ w w2 w' Hok Hs Hsame Hc).
  - apply v2_assert_inv in H. destruct r as [e|resp].
    + apply session_step_same_store; assumption.
    + destruct H as (s & w2 & resp0 & Hs & Hsame & _ & _ & Hc).
      apply (session_step_commit env sid s _ _ w w2 w' Hok Hs Hsame Hc).
  - apply v3_assert_inv in H. destruct r as [e|resp].
    + apply session_step_same_store; assumption.
    + destruct H as (s & w2 & resp0 & Hs & Hsame & _ & _ & _ & Hc).
      apply (session_step_commit env sid s _ _ w w2 w' Hok Hs Hsame Hc).
  - apply Hupd, (U1 _ _ H).
  - apply Hupd, (U2 _ _ H).
  - apply Hupd, (U3 _ _ H).
Qed.

(** X6.  Every session file holds the session of its id, and this is kept
    by an assert and by a replacement of the knowledge base, in the three
    variants and whether the operation succeeds or fails.  Such an
    operation touches the file of the addressed session only: the files of
    the other sessions are as before, no file is created or deleted, the
    session keeps its id and its creation time, and there is at most one
    save, after which the file holds what was saved. *)
Theorem X6_store_frame (env : Env) (P1 P2 : string -> option Template)
    (P3 : string -> list Template) (sid : string) (text : str) (w w' : World) :
  store_ok w ->
  (forall r, Mcrws1.assert_into_session env P1 sid text w = (r, w') ->
     store_ok w' /\ session_step sid w w') /\
  (forall r, Mcrws2.assert_into_session env P2 sid text w = (r, w') ->
     store_ok w' /\ session_step sid w w') /\
  (forall r, Mcrws3.assert_into_session env P3 sid text w = (r, w') ->
     store_ok w' /\ session_step sid w w') /\
  (forall r, Mcrws1.update_kb env sid text w = (r, w') ->
     store_ok w' /\ session_step sid w w') /\
  (forall r, Mcrws2.update_kb env sid text w = (r, w') ->
     store_ok w' /\ session_step sid w w') /\
  (forall r, Mcrws3.update_kb env sid text w = (r, w') ->
     store_ok w' /\ session_step sid w w').
Proof. apply session_step_operations. Qed.

Lemma X6_store_frame_witness :
  store_ok demo_assert_world1 /\ session_step "s1" (demo_world (py "p(a).")) demo_assert_world1.
Proof.
  apply (proj1 (proj2 (proj2 (X6_store_frame demo_assert_env demo_prompts
           demo_prompts demo_prompts3 "s1" (py "A fact.") (demo_world (py "p(a)."))
           demo_assert_world1 (demo_world_ok (py "p(a)."))))) (inr demo_assert_resp1)).
  reflexivity.
Defined.

(** ** The duplicate check counts nothing *)

Lemma occurrences_filter (f : str -> bool) (c : str) (l : list str) :
  occurrences c (List.filter f l) = if f c then occurrences c l else 0.
Proof.
  unfold occurrences. induction l as [|x l IH]; simpl.
  - destruct (f c); reflexivity.
  - destruct (str_eqb c x) eqn:Ex.
    + apply str_eqb_eq in Ex. subst x. destruct (f c) eqn:Ef; simpl.
      * rewrite (proj2 (str_eqb_eq c c) eq_refl). simpl. rewrite IH. reflexivity.
      * exact IH.
    + destruct (f x); simpl; [rewrite Ex|]; exact IH.
Qed.

(** X7.  The duplicate check of an assert compares the clauses of the
    translation with the lines of the stored text only, not with each
    other: a clause that is no line of the text is added as many times as
    the translation holds it, and a clause that is a line of the text is
    not added at all.  (mcrws3 compares with the trimmed lines.) *)
Theorem X7_duplicates_within_translation (env : Env)
    (P1 P2 : string -> option Template) (P3 : string -> list Template)
    (sid : string) (text : str) (w w' : World) (c : str) :
  (forall resp, Mcrws1.assert_into_session env P1 sid text w = (inr resp, w') ->
     exists s prompt llm_response,
       sessions w !! sid = Some s /\
       llm_generate env (llm_calls w) prompt = inr llm_response /\
       occurrences c (Mcrws1.addedFacts resp)
       = if str_in c (splitlines (knowledgeBase s)) then 0
         else occurrences c (Mcrws1._extract_prolog llm_response)) /\
  (forall resp, Mcrws2.assert_into_session env P2 sid text w = (inr resp, w') ->
     exists s, sessions w !! sid = Some s /\
       occurrences c (Mcrws2.addedFacts resp)
       = if str_in c (splitlines (knowledgeBase s)) then 0
         else occurrences c (Mcrws2.translatedProlog resp)) /\
  (forall resp, Mcrws3.assert_into_session env P3 sid text w = (inr resp, w') ->
     exists s, sessions w !! sid = Some s /\
       occurrences c (Mcrws3.addedFacts resp)
       = if str_in c (map strip (splitlines (knowledgeBase s))) then 0
         else occurrences c (Mcrws3.translatedProlog resp)).
Proof.
  split; [|split]; intros resp H.
  - apply v1_assert_inv_full in H as (s & prompt & r & Hs & _ & Hg & Hadd & _).
    exists s, prompt, r. split; [exact Hs|]. split; [exact Hg|].
    rewrite Hadd. unfold Mcrws1.not_in_kb. cbv zeta. rewrite occurrences_filter.
    destruct (str_in c _); reflexivity.
  - apply v2_assert_inv in H as (s & w2 & r & Hs & _ & _ & Hadd & _).
    exists s. split; [exact Hs|].
    rewrite Hadd. unfold Mcrws2.not_in_kb. cbv zeta. rewrite occurrences_filter.
    destruct (str_in c _); reflexivity.
  - apply v3_assert_inv in H as (s & w2 & r & Hs & _ & _ & _ & Hadd & _).
    exists s. split; [exact Hs|].
    rewrite Hadd. unfold Mcrws3.not_in_kb. rewrite occurrences_filter.
    destruct (str_in c _); reflexivity.
Qed.

Lemma X7_duplicates_within_translation_witness :
  exists s, sessions (demo_world (py "p(a).")) !! "s1"%string = Some s /\
    occurrences (py "q(b).") (Mcrws3.addedFacts demo_assert_resp1)
    = if str_in (py "q(b).") (map strip (splitlines (knowledgeBase s))) then 0
      else occurrences (py "q(b).") (Mcrws3.translatedProlog demo_assert_resp1).
Proof.
  apply (proj2 (proj2 (X7_duplicates_within_translation demo_assert_env
           demo_prompts demo_prompts demo_prompts3 "s1" (py "A fact.")
           (demo_world (py "p(a).")) demo_assert_world1 (py "q(b)."))) demo_assert_resp1).
  reflexivity.
Defined.

(** ** The order of [sorted] *)

Lemma str_leb_refl (a : str) : str_leb a a = true.
Proof.
  induction a as [|x a IH]; simpl; [reflexivity|].
  rewrite Nat.ltb_irrefl. exact IH.
Qed.

Lemma code_inj (x y : ascii) : code x = code y -> x = y.
Proof.
  unfold code. intros H. apply (f_equal ascii_of_nat) in H.
  rewrite !ascii_nat_embedding in H. exact H.
Qed.

Lemma str_leb_total (a : str) : forall b, str_leb a b = false -> str_leb b a = true.
Proof.
  induction a as [|x a IH]; intros [|y b]; simpl; try discriminate; try reflexivity.
  destruct (code x <? code y) eqn:E1; [discriminate|].
  destruct (code y <? code x) eqn:E2; [reflexivity|].
  apply IH.
Qed.

Lemma str_leb_antisym (a : str) :
  forall b, str_leb a b = true -> str_leb b a = true -> a = b.
Proof.
  induction a as [|x a IH]; intros [|y b]; simpl; try discriminate; try reflexivity.
  destruct (code x <? code y) eqn:E1.
  - apply Nat.ltb_lt in E1.
    destruct (code y <? code x) eqn:E2; [apply Nat.ltb_lt in E2; lia|].
    discriminate.
  - destruct (code y <? code x) eqn:E2; [discriminate|].
    apply Nat.ltb_ge in E1, E2.
    intros H1 H2. assert (x = y) by (apply code_inj; lia). subst y.
    f_equal. apply IH; assumption.
Qed.

Lemma str_leb_trans (a : str) :
  forall b c, str_leb a b = true -> str_leb b c = true -> str_leb a c = true.
Proof.
  induction a as [|x a IH]; intros [|y b] [|z c]; simpl; try discriminate;
    try reflexivity.
  repeat match goal with
         | |- context [?n <? ?m] => destruct (Nat.ltb_spec n m)
         end;
    intros Hab Hbc; try discriminate; try reflexivity; try lia.
  eapply IH; eassumption.
Qed.

Lemma ascending_cons (x : str) (l : list str) :
  ascending (x :: l) <-> (forall y, In y l -> str_leb x y = true) /\ ascending l.
Proof.
  revert x. induction l as [|y l IH]; intros x.
  - simpl. split; [intros _; split; [intros y []|exact I]|intros _; exact I].
  - change (ascending (x :: y :: l)) with (str_leb x y = true /\ ascending (y :: l)).
    rewrite (IH y). split.
    + intros (Hxy & Hy & Hl). split; [|split; assumption].
      intros z [<-|Hz]; [exact Hxy|].
      eapply str_leb_trans; [exact Hxy|apply Hy, Hz].
    + intros (Hx & Hy & Hl). split; [apply Hx; left; reflexivity|]. split; assumption.
Qed.

Lemma sorted_insert_ascending (x : str) (l : list str) :
  ascending l -> ascending (sorted_insert x l).
Proof.
  induction l as [|y l IH]; [intros _; exact I|].
  intros Hl. simpl. destruct (str_leb x y) eqn:E.
  - split; assumption.
  - apply str_leb_total in E. apply ascending_cons in Hl as [Hy Hl].
    apply ascending_cons. split; [|apply IH, Hl].
    intros z Hz. apply sorted_insert_In in Hz as [->|Hz]; [exact E|apply Hy, Hz].
Qed.

Lemma sorted_ascending (l : list str) : ascending (sorted l).
Proof.
  unfold sorted. induction l as [|x l IH]; [exact I|].
  simpl. apply sorted_insert_ascending, IH.
Qed.

Lemma sorted_insert_NoDup (x : str) (l : list str) :
  ~ In x l -> List.NoDup l -> List.NoDup (sorted_insert x l).
Proof.
  induction l as [|y l IH]; intros Hx Hl.
  - simpl. constructor; [intros []|constructor].
  - simpl. destruct (str_leb x y).
    + constructor; assumption.
    + inversion Hl as [|? ? Hy Hl']; subst. constructor.
      * rewrite sorted_insert_In. intros [->|H]; [apply Hx; left; reflexivity|].
        apply Hy, H.
      * apply IH; [|exact Hl']. intros H. apply Hx. right. exact H.
Qed.

Lemma sorted_NoDup (l : list str) : List.NoDup l -> List.NoDup (sorted l).
Proof.
  unfold sorted. induction l as [|x l IH]; intros H; [constructor|].
  inversion H as [|? ? Hx Hl]; subst. simpl.
  apply sorted_insert_NoDup; [|apply IH, Hl].
  change (fold_right sorted_insert [] l) with (sorted l).
  rewrite sorted_In. exact Hx.
Qed.

(** An ascending list without duplicates is determined by its members. *)
Lemma ascending_unique (l1 : list str) :
  forall l2, ascending l1 -> List.NoDup l1 -> ascending l2 -> List.NoDup l2 ->
             (forall x, In x l1 <-> In x l2) -> l1 = l2.
Proof.
  induction l1 as [|x l1 IH]; intros [|y l2] A1 N1 A2 N2 H.
  - reflexivity.
  - exfalso. apply (proj2 (H y)). left. reflexivity.
  - exfalso. apply (proj1 (H x)). left. reflexivity.
  - apply ascending_cons in A1 as [Hx A1]. apply ascending_cons in A2 as [Hy A2].
    inversion N1 as [|? ? Nx N1']; subst. inversion N2 as [|? ? Ny N2']; subst.
    assert (E : x = y).
    { apply str_leb_antisym.
      - destruct (proj1 (H x) (or_introl eq_refl)) as [<-|Hin];
          [apply str_leb_refl|].
        destruct (proj2 (H y) (or_introl eq_refl)) as [->|Hin'];
          [apply str_leb_refl|apply Hx, Hin'].
      - destruct (proj2 (H y) (or_introl eq_refl)) as [->|Hin];
          [apply str_leb_refl|].
        destruct (proj1 (H x) (or_introl eq_refl)) as [<-|Hin'];
          [apply str_leb_refl|apply Hy, Hin']. }
    subst y. f_equal. apply IH; try assumption.
    intros z. split; intros Hz.
    + destruct (proj1 (H z) (or_intror Hz)) as [<-|Hin]; [contradiction|exact Hin].
    + destruct (proj2 (H z) (or_intror Hz)) as [<-|Hin]; [contradiction|exact Hin].
Qed.

Lemma sorted_ext (l1 l2 : list str) :
  List.NoDup l1 -> List.NoDup l2 -> (forall x, In x l1 <-> In x l2) -> sorted l1 = sorted l2.
Proof.
  intros N1 N2 H. apply ascending_unique.
  - apply sorted_ascending.
  - apply sorted_NoDup, N1.
  - apply sorted_ascending.
  - apply sorted_NoDup, N2.
  - intros x. rewrite !sorted_In. apply H.
Qed.

(** ** Creating and listing sessions *)

Lemma py_inj (a b : string) : py a = py b -> a = b.
Proof.
  unfold py. intros H. apply (f_equal string_of_list_ascii) in H.
  rewrite !string_of_list_ascii_of_string in H. exact H.
Qed.

Lemma stems_In (m : gmap string Session) (x : str) :
  In x (map (fun kv : string * Session => py (fst kv)) (map_to_list m)) <->
  exists sid, x = py sid /\ is_Some (m !! sid).
Proof.
  rewrite in_map_iff. split.
  - intros ([sid s] & <- & Hin). exists sid. split; [reflexivity|].
    apply list_elem_of_In, elem_of_map_to_list in Hin. eauto.
  - intros (sid & -> & [s Hs]). exists (sid, s). split; [reflexivity|].
    apply list_elem_of_In, elem_of_map_to_list. exact Hs.
Qed.

Lemma stems_NoDup (m : gmap string Session) :
  List.NoDup (map (fun kv : string * Session => py (fst kv)) (map_to_list m)).
Proof.
  rewrite <- (map_map fst py). apply NoDup_ListNoDup.
  apply (NoDup_fmap_2_strong py).
  - intros a b _ _. apply py_inj.
  - apply NoDup_fst_map_to_list.
Qed.

(** X8.  The listing of the sessions does not touch the world.  It holds
    the id of every session file and nothing else, each id once, in
    ascending order of the code points. *)
Theorem X8_list_sessions (w w' : World) (r : Exn + list str) :
  list_sessions w = (r, w') ->
  w' = w /\
  exists l, r = inr l /\ ascending l /\ List.NoDup l /\
    forall x, In x l <-> exists sid, x = py sid /\ is_Some (sessions w !! sid).
Proof.
  unfold list_sessions. intros H. injection H as <- <-.
  split; [reflexivity|]. eexists. split; [reflexivity|].
  split; [apply sorted_ascending|]. split; [apply sorted_NoDup, stems_NoDup|].
  intros x. rewrite sorted_In. apply stems_In.
Qed.

Lemma X8_list_sessions_witness :
  demo_world [] = demo_world [] /\
  exists l, inr [py "s1"] = @inr Exn (list str) l /\ ascending l /\ List.NoDup l /\
    forall x, In x l <-> exists sid, x = py sid /\ is_Some (sessions (demo_world []) !! sid).
Proof.
  apply (X8_list_sessions (demo_world []) (demo_world []) (inr [py "s1"])).
  reflexivity.
Defined.

Lemma list_sessions_run (w : World) :
  list_sessions w
  = (inr (sorted (map (fun kv : string * Session => py (fst kv))
                      (map_to_list (sessions w)))), w).
Proof. reflexivity. Qed.

(** The listing is determined by the ids that have a session file. *)
Lemma list_sessions_ext (w w' : World) :
  (forall sid, is_Some (sessions w' !! sid) <-> is_Some (sessions w !! sid)) ->
  fst (list_sessions w') = fst (list_sessions w).
Proof.
  intros H. rewrite !list_sessions_run. simpl. f_equal.
  apply sorted_ext; try apply stems_NoDup.
  intros x. rewrite !stems_In. split; intros (sid & -> & Hs); exists sid;
    (split; [reflexivity|]); apply H; exact Hs.
Qed.

Lemma session_step_dom (sid : string) (w w' : World) :
  session_step sid w w' ->
  forall k, is_Some (sessions w' !! k) <-> is_Some (sessions w !! k).
Proof.
  intros [Hf Hm] k. destruct (decide (k = sid)) as [->|Hne].
  - destruct (sessions w !! sid) as [s|].
    + destruct Hm as (s' & -> & _). split; eauto.
    + destruct Hm as [-> _]. tauto.
  - rewrite (Hf k Hne). tauto.
Qed.

(** X9.  Creating a session always succeeds.  The session that the route
    returns is the one that is stored under the new id and that a fetch
    gives back: it has an empty knowledge base, the creation time of its
    construction, and as modification time the clock reading of the save,
    not the one of its construction.  There is one save, the files of the
    other sessions are as before, and the listing afterwards holds the new
    id and the ids listed before. *)
Theorem X9_create_session (env : Env) (uuid4 : string) (created modified : str)
    (w w' : World) (r : Exn + Session) :
  create_session env uuid4 created modified w = (r, w') ->
  exists s, r = inr s /\ get_session_route uuid4 w' = (inr s, w') /\
    sessionId s = uuid4 /\ knowledgeBase s = [] /\ createdAt s = created /\
    modifiedAt s = utcnow env (length (saved w)) /\
    saved w' = saved w ++ [s] /\
    (forall sid, sid <> uuid4 -> sessions w' !! sid = sessions w !! sid) /\
    (store_ok w -> store_ok w') /\
    (forall l l', list_sessions w = (inr l, w) -> list_sessions w' = (inr l', w') ->
       forall x, In x l' <-> x = py uuid4 \/ In x l).
Proof.
  unfold create_session, save_session. simpl. intros H. injection H as <- <-.
  eexists. split; [reflexivity|].
  split.
  { unfold get_session_route, get_session. simpl. rewrite lookup_insert_eq. reflexivity. }
  do 5 (split; [reflexivity|]).
  split; [intros sid Hne; simpl; apply lookup_insert_ne; congruence|].
  split.
  { intros Hok k x. simpl. destruct (decide (k = uuid4)) as [->|Hne].
    - rewrite lookup_insert_eq. intros H. injection H as <-. reflexivity.
    - rewrite lookup_insert_ne by congruence. apply Hok. }
  intros l l'. rewrite !list_sessions_run. intros Hl Hl'.
  injection Hl as <-. injection Hl' as <-. intros x.
  rewrite !sorted_In, !stems_In. simpl. split.
  - intros (sid & -> & Hs). destruct (decide (sid = uuid4)) as [->|Hne]; [auto|].
    rewrite lookup_insert_ne in Hs by congruence. eauto.
  - intros [->|(sid & -> & Hs)].
    + exists uuid4. split; [reflexivity|]. rewrite lookup_insert_eq. eauto.
    + exists sid. split; [reflexivity|].
      destruct (decide (sid = uuid4)) as [->|Hne].
      * rewrite lookup_insert_eq. eauto.
      * rewrite lookup_insert_ne by congruence. exact Hs.
Qed.

(** X10.  An assert, a replacement of the knowledge base and a query never
    change the listing of the sessions, whether they succeed or fail, in
    the three variants, when every session file holds the session of its
    id. *)
Theorem X10_listing_stable (env : Env) (P1 P2 : string -> option Template)
    (P3 : string -> list Template) (sid : string) (text : str) (w w' : World) :
  store_ok w ->
  ((forall r, Mcrws1.assert_into_session env P1 sid text w = (r, w') ->
      fst (list_sessions w') = fst (list_sessions w)) /\
   (forall r, Mcrws2.assert_into_session env P2 sid text w = (r, w') ->
      fst (list_sessions w') = fst (list_sessions w)) /\
   (forall r, Mcrws3.assert_into_session env P3 sid text w = (r, w') ->
      fst (list_sessions w') = fst (list_sessions w))) /\
  ((forall r, Mcrws1.update_kb env sid text w = (r, w') ->
      fst (list_sessions w') = fst (list_sessions w)) /\
   (forall r, Mcrws2.update_kb env sid text w = (r, w') ->
      fst (list_sessions w') = fst (list_sessions w)) /\
   (forall r, Mcrws3.update_kb env sid text w = (r, w') ->
      fst (list_sessions w') = fst (list_sessions w))) /\
  ((forall r, Mcrws1.run_query env P1 sid text w = (r, w') ->
      fst (list_sessions w') = fst (list_sessions w)) /\
   (forall r, Mcrws2.run_query env P2 sid text w = (r, w') ->
      fst (list_sessions w') = fst (list_sessions w)) /\
   (forall r, Mcrws3.run_query env P3 sid text w = (r, w') ->
      fst (list_sessions w') = fst (list_sessions w))).
Proof.
  intros Hok.
  destruct (session_step_operations env P1 P2 P3 sid text w w' Hok)
    as (A1 & A2 & A3 & U1 & U2 & U3).
  destruct (run_query_calls_only env P1 P2 P3 sid text w w') as (Q1 & Q2 & Q3).
  assert (Hstep : store_ok w' /\ session_step sid w w' ->
                  fst (list_sessions w') = fst (list_sessions w)).
  { intros [_ H]. apply list_sessions_ext, (session_step_dom sid), H. }
  assert (Hcalls : forall n, calls_only n w w' ->
                   fst (list_sessions w') = fst (list_sessions w)).
  { intros n H. apply calls_only_same_store in H as [Hs _].
    apply list_sessions_ext. intros k. rewrite Hs. tauto. }
  split; [|split]; (split; [|split]); intros r H.
  - apply Hstep, (A1 _ H).
  - apply Hstep, (A2 _ H).
  - apply Hstep, (A3 _ H).
  - apply Hstep, (U1 _ H).
  - apply Hstep, (U2 _ H).
  - apply Hstep, (U3 _ H).
  - eapply Hcalls, (Q1 _ H).
  - eapply Hcalls, (Q2 _ H).
  - eapply Hcalls, (Q3 _ H).
Qed.

Lemma X9_create_session_witness :
  exists s, @inr Exn Session (set_modifiedAt (py "2025-01-01T00:00:00")
                               (new_Session "s2" (py "t0") (py "t1"))) = inr s /\
    get_session_route "s2" (snd (create_session demo_assert_env "s2" (py "t0") (py "t1") (demo_world [])))
    = (inr s, snd (create_session demo_assert_env "s2" (py "t0") (py "t1") (demo_world []))) /\
    sessionId s = "s2"%string /\ knowledgeBase s = [] /\ createdAt s = py "t0" /\
    modifiedAt s = utcnow demo_assert_env (length (saved (demo_world []))) /\
    saved (snd (create_session demo_assert_env "s2" (py "t0") (py "t1") (demo_world [])))
    = saved (demo_world []) ++ [s] /\
    (forall sid, sid <> "s2"%string ->
       sessions (snd (create_session demo_assert_env "s2" (py "t0") (py "t1") (demo_world []))) !! sid
       = sessions (demo_world []) !! sid) /\
    (store_ok (demo_world []) ->
     store_ok (snd (create_session demo_assert_env "s2" (py "t0") (py "t1") (demo_world [])))) /\
    (forall l l', list_sessions (demo_world []) = (inr l, demo_world []) ->
       list_sessions (snd (create_session demo_assert_env "s2" (py "t0") (py "t1") (demo_world [])))
       = (inr l', snd (create_session demo_assert_env "s2" (py "t0") (py "t1") (demo_world []))) ->
       forall x, In x l' <-> x = py "s2" \/ In x l).
Proof.
  apply (X9_create_session demo_assert_env "s2" (py "t0") (py "t1") (demo_world [])).
  reflexivity.
Defined.

Lemma X10_listing_stable_witness :
  fst (list_sessions demo_assert_world1) = fst (list_sessions (demo_world (py "p(a)."))).
Proof.
  apply (proj2 (proj2 (proj1 (X10_listing_stable demo_assert_env demo_prompts
           demo_prompts demo_prompts3 "s1" (py "A fact.") (demo_world (py "p(a)."))
           demo_assert_world1 (demo_world_ok (py "p(a)."))))) (inr demo_assert_resp1)).
  reflexivity.
Defined.

(** ** The schema of a knowledge base *)

Lemma set_add_NoDup (x : str) (s : list str) :
  List.NoDup s -> List.NoDup (set_add x s).
Proof.
  intros H. unfold set_add. destruct (str_in x s) eqn:E; [exact H|].
  apply str_in_false in E. apply List.NoDup_rev in H.
  rewrite <- (rev_involutive (s ++ [x])). apply List.NoDup_rev.
  rewrite rev_app_distr. simpl. constructor; [|exact H].
  rewrite <- in_rev. exact E.
Qed.

Lemma fold_set_add_NoDup (atoms : list str) :
  forall items, List.NoDup items ->
    List.NoDup (fold_left (fun items atom => set_add atom items) atoms items).
Proof.
  induction atoms as [|a atoms IH]; intros items H; simpl; [exact H|].
  apply IH, set_add_NoDup, H.
Qed.

Lemma fold_set_add_In (x : str) (atoms : list str) :
  forall items,
    In x (fold_left (fun items atom => set_add atom items) atoms items)
    <-> In x items \/ In x atoms.
Proof.
  induction atoms as [|a atoms IH]; intros items; simpl; [tauto|].
  rewrite IH, set_add_In. intuition congruence.
Qed.

Lemma v2_schema_step_NoDup (items : list str) (line : str) :
  List.NoDup items -> List.NoDup (Mcrws2.schema_step items line).
Proof.
  intros H. unfold Mcrws2.schema_step.
  destruct (is_empty (strip line) || startswith (strip line) [PERCENT]); [exact H|].
  destruct (Regex.match_name_lparen (strip line)); [|exact H].
  apply set_add_NoDup, H.
Qed.

Lemma v3_schema_step_NoDup (items : list str) (line : str) :
  List.NoDup items -> List.NoDup (Mcrws3.schema_step items line).
Proof.
  intros H. unfold Mcrws3.schema_step.
  destruct (is_empty (strip line) || startswith (strip line) [PERCENT]); [exact H|].
  assert (H1 : List.NoDup
            match Regex.match_predicate_regex (strip line) with
            | Some name =>
                set_add (name ++ py "/" ++ str_of_nat (Mcrws3.line_arity (strip line))) items
            | None => items
            end).
  { destruct (Regex.match_predicate_regex (strip line)); [|exact H].
    apply set_add_NoDup, H. }
  revert H1. generalize (match Regex.match_predicate_regex (strip line) with
            | Some name =>
                set_add (name ++ py "/" ++ str_of_nat (Mcrws3.line_arity (strip line))) items
            | None => items
            end).
  induction (Regex.finditer_atom_regex (strip line)) as [|g gs IH]; intros acc Ha;
    simpl; [exact Ha|].
  apply IH, fold_set_add_NoDup, Ha.
Qed.

Lemma fold_step_NoDup (step : list str -> str -> list str) (lines : list str) :
  (forall items line, List.NoDup items -> List.NoDup (step items line)) ->
  forall items, List.NoDup items -> List.NoDup (fold_left step lines items).
Proof.
  intros Hstep. induction lines as [|l lines IH]; intros items H; simpl; auto.
Qed.

(** X11.  The schema of a knowledge base lists each of its entries once, in
    ascending order of the code points, in mcrws2 and in mcrws3. *)
Theorem X11_schema_sorted (kb : str) :
  (ascending (Mcrws2._get_kb_schema kb) /\ List.NoDup (Mcrws2._get_kb_schema kb)) /\
  (ascending (Mcrws3._get_kb_schema kb) /\ List.NoDup (Mcrws3._get_kb_schema kb)).
Proof.
  unfold Mcrws2._get_kb_schema, Mcrws3._get_kb_schema.
  split; (split; [apply sorted_ascending|apply sorted_NoDup]).
  - apply fold_step_NoDup; [apply v2_schema_step_NoDup|constructor].
  - apply fold_step_NoDup; [apply v3_schema_step_NoDup|constructor].
Qed.

Lemma fold_groups_In (x : str) (groups : list str) :
  forall items,
    In x (fold_left
            (fun items group1 =>
               fold_left (fun items atom => set_add atom items)
                         (Mcrws3.group_atoms group1) items)
            groups items)
    <-> In x items \/ exists g, In g groups /\ In x (Mcrws3.group_atoms g).
Proof.
  induction groups as [|g groups IH]; intros items; simpl.
  - split; [auto|]. intros [H|(g & [] & _)]. exact H.
  - rewrite IH, fold_set_add_In. split.
    + intros [[H|H]|(g' & Hg & H)]; eauto.
    + intros [H|(g' & [<-|Hg] & H)]; eauto.
Qed.

Lemma v2_schema_step_In (x : str) (items : list str) (line : str) :
  In x (Mcrws2.schema_step items line)
  <-> In x items \/ In x (Mcrws2.schema_step [] line).
Proof.
  unfold Mcrws2.schema_step.
  destruct (is_empty (strip line) || startswith (strip line) [PERCENT]);
    [simpl; tauto|].
  destruct (Regex.match_name_lparen (strip line)); [|simpl; tauto].
  rewrite !set_add_In. simpl. tauto.
Qed.

Lemma v3_schema_step_In (x : str) (items : list str) (line : str) :
  In x (Mcrws3.schema_step items line)
  <-> In x items \/ In x (Mcrws3.schema_step [] line).
Proof.
  unfold Mcrws3.schema_step.
  destruct (is_empty (strip line) || startswith (strip line) [PERCENT]);
    [simpl; tauto|].
  rewrite !fold_groups_In.
  destruct (Regex.match_predicate_regex (strip line));
    rewrite ?set_add_In; simpl; tauto.
Qed.

Lemma fold_step_In (step : list str -> str -> list str) (x : str)
    (lines : list str) :
  (forall items line, In x (step items line) <-> In x items \/ In x (step [] line)) ->
  forall items,
    In x (fold_left step lines items)
    <-> In x items \/ exists line, In line lines /\ In x (step [] line).
Proof.
  intros Hstep. induction lines as [|l lines IH]; intros items; simpl.
  - split; [auto|]. intros [H|(l & [] & _)]. exact H.
  - rewrite IH, Hstep. split.
    + intros [[H|H]|(l' & Hl & H)]; eauto.
    + intros [H|(l' & [<-|Hl] & H)]; eauto.
Qed.

(** An entry of the schema comes from one line of the text, and a line
    gives its entries whatever the other lines are. *)
Lemma v2_schema_In (kb x : str) :
  In x (Mcrws2._get_kb_schema kb)
  <-> exists line, In line (fields kb) /\ In x (Mcrws2.schema_step [] line).
Proof.
  unfold Mcrws2._get_kb_schema. rewrite sorted_In.
  rewrite (fold_step_In Mcrws2.schema_step x (splitlines kb)
             (v2_schema_step_In x)).
  simpl. split.
  - intros [[]|(l & Hl & H)]. exists l. split; [|exact H].
    apply splitlines_fields; [|exact Hl]. intros ->. exact H.
  - intros (l & Hl & H). right. exists l. split; [|exact H].
    apply splitlines_fields; [|exact Hl]. intros ->. exact H.
Qed.

Lemma v3_schema_In (kb x : str) :
  In x (Mcrws3._get_kb_schema kb)
  <-> exists line, In line (fields kb) /\ In x (Mcrws3.schema_step [] line).
Proof.
  unfold Mcrws3._get_kb_schema. rewrite sorted_In.
  rewrite (fold_step_In Mcrws3.schema_step x (splitlines kb)
             (v3_schema_step_In x)).
  simpl. split.
  - intros [[]|(l & Hl & H)]. exists l. split; [|exact H].
    apply splitlines_fields; [|exact Hl]. intros ->. exact H.
  - intros (l & Hl & H). right. exists l. split; [|exact H].
    apply splitlines_fields; [|exact Hl]. intros ->. exact H.
Qed.

Lemma v2_schema_NoDup (kb : str) : List.NoDup (Mcrws2._get_kb_schema kb).
Proof.
  apply sorted_NoDup, fold_step_NoDup; [apply v2_schema_step_NoDup|constructor].
Qed.

Lemma v3_schema_NoDup (kb : str) : List.NoDup (Mcrws3._get_kb_schema kb).
Proof.
  apply sorted_NoDup, fold_step_NoDup; [apply v3_schema_step_NoDup|constructor].
Qed.

(** X12.  The schema is read line by line: the entries of two texts put
    together with a line feed are the entries of the one and the entries
    of the other, and the schema does not depend on the order of the two
    parts (mcrws2 and mcrws3). *)
Theorem X12_schema_by_lines (a b : str) :
  ((forall x, In x (Mcrws2._get_kb_schema (a ++ [LF] ++ b))
              <-> In x (Mcrws2._get_kb_schema a) \/ In x (Mcrws2._get_kb_schema b)) /\
   Mcrws2._get_kb_schema (a ++ [LF] ++ b) = Mcrws2._get_kb_schema (b ++ [LF] ++ a)) /\
  ((forall x, In x (Mcrws3._get_kb_schema (a ++ [LF] ++ b))
              <-> In x (Mcrws3._get_kb_schema a) \/ In x (Mcrws3._get_kb_schema b)) /\
   Mcrws3._get_kb_schema (a ++ [LF] ++ b) = Mcrws3._get_kb_schema (b ++ [LF] ++ a)).
Proof.
  assert (H2 : forall a b x, In x (Mcrws2._get_kb_schema (a ++ [LF] ++ b))
              <-> In x (Mcrws2._get_kb_schema a) \/ In x (Mcrws2._get_kb_schema b)).
  { intros a0 b0 x. rewrite !v2_schema_In. simpl app.
    rewrite fields_app_break by reflexivity. split.
    - intros (l & Hl & H). apply in_app_iff in Hl as [Hl|Hl]; eauto.
    - intros [(l & Hl & H)|(l & Hl & H)]; exists l; rewrite in_app_iff; auto. }
  assert (H3 : forall a b x, In x (Mcrws3._get_kb_schema (a ++ [LF] ++ b))
              <-> In x (Mcrws3._get_kb_schema a) \/ In x (Mcrws3._get_kb_schema b)).
  { intros a0 b0 x. rewrite !v3_schema_In. simpl app.
    rewrite fields_app_break by reflexivity. split.
    - intros (l & Hl & H). apply in_app_iff in Hl as [Hl|Hl]; eauto.
    - intros [(l & Hl & H)|(l & Hl & H)]; exists l; rewrite in_app_iff; auto. }
  split; (split; [auto|]).
  - apply ascending_unique; try apply sorted_ascending; try apply v2_schema_NoDup.
    intros x. rewrite !H2. tauto.
  - apply ascending_unique; try apply sorted_ascending; try apply v3_schema_NoDup.
    intros x. rewrite !H3. tauto.
Qed.

Lemma v2_schema_step_strip (line : str) :
  Mcrws2.schema_step [] (strip line) = Mcrws2.schema_step [] line.
Proof. unfold Mcrws2.schema_step. rewrite strip_idem. reflexivity. Qed.

Lemma v3_schema_step_strip (line : str) :
  Mcrws3.schema_step [] (strip line) = Mcrws3.schema_step [] line.
Proof. unfold Mcrws3.schema_step. rewrite strip_idem. reflexivity. Qed.

Lemma fields_strip_appended (kb : str) (added : list str) (c : str) :
  c <> [] -> added <> [] -> Forall clean_clause added ->
  In c (map strip (fields kb)) ->
  In c (map strip (fields (appended_kb kb added))).
Proof.
  intros Hc Hne Hclean H.
  rewrite lstrip_appended by assumption.
  apply fields_lstrip_strip; [exact Hc|].
  rewrite fields_app_break by reflexivity.
  rewrite map_app. apply in_app_iff. left. exact H.
Qed.

(** An entry of a line is an entry of the text after an append. *)
Lemma schema_kb_after (step : list str -> str -> list str) (kb : str)
    (added : list str) (x : str) :
  (forall line, step [] (strip line) = step [] line) ->
  step [] [] = [] ->
  Forall clean_clause added ->
  (exists line, In line (fields kb) /\ In x (step [] line)) ->
  exists line, In line (fields (kb_after kb added)) /\ In x (step [] line).
Proof.
  intros Hstrip Hnil Hclean (l & Hl & H). unfold kb_after.
  destruct (is_empty added) eqn:E; [eauto|]. apply is_empty_false in E.
  assert (Hc : strip l <> []).
  { intros E'. rewrite <- Hstrip, E', Hnil in H. destruct H. }
  assert (Hin : In (strip l) (map strip (fields (appended_kb kb added)))).
  { apply fields_strip_appended; try assumption. apply in_map. exact Hl. }
  apply in_map_iff in Hin as (l' & E' & Hl').
  exists l'. split; [exact Hl'|]. rewrite <- Hstrip, E', Hstrip. exact H.
Qed.

(** X13.  An assert never takes an entry out of the schema: every entry of
    the schema of the text before a successful assert is an entry of the
    schema of the text that the assert reports (mcrws2 and mcrws3). *)
Theorem X13_assert_keeps_schema (env : Env) (P2 : string -> option Template)
    (P3 : string -> list Template) (sid : string) (text : str) (w w' : World)
    (x : str) :
  (forall resp, Mcrws2.assert_into_session env P2 sid text w = (inr resp, w') ->
     exists s, sessions w !! sid = Some s /\
       (In x (Mcrws2._get_kb_schema (knowledgeBase s)) ->
        In x (Mcrws2._get_kb_schema (Mcrws2.ar_knowledgeBase resp)))) /\
  (forall resp, Mcrws3.assert_into_session env P3 sid text w = (inr resp, w') ->
     exists s, sessions w !! sid = Some s /\
       (In x (Mcrws3._get_kb_schema (knowledgeBase s)) ->
        In x (Mcrws3._get_kb_schema (Mcrws3.ar_knowledgeBase resp)))).
Proof.
  split; intros resp H.
  - apply v2_assert_inv in H as (s & w2 & r & Hs & _ & Hnew & Hadd & Hc).
    exists s. split; [exact Hs|]. apply commit_fst in Hc. rewrite Hc.
    rewrite !v2_schema_In. apply schema_kb_after.
    + apply v2_schema_step_strip.
    + reflexivity.
    + rewrite Hadd, Hnew. apply filter_clean, v2_extract_prolog_clean.
  - apply v3_assert_inv in H as (s & w2 & r & Hs & _ & Hnew & _ & Hadd & Hc).
    exists s. split; [exact Hs|]. apply commit_fst in Hc. rewrite Hc.
    rewrite !v3_schema_In. apply schema_kb_after.
    + apply v3_schema_step_strip.
    + reflexivity.
    + rewrite Hadd, Hnew. apply filter_clean, v3_extract_prolog_clean.
Qed.

Lemma X13_assert_keeps_schema_witness :
  In (py "p/1") (Mcrws3._get_kb_schema (Mcrws3.ar_knowledgeBase demo_assert_resp1)).
Proof.
  destruct (proj2 (X13_assert_keeps_schema demo_assert_env demo_prompts
              demo_prompts3 "s1" (py "A fact.") (demo_world (py "p(a)."))
              demo_assert_world1 (py "p/1")) demo_assert_resp1 eq_refl)
    as (s & Hs & H).
  apply H. vm_compute in Hs. injection Hs as <-. vm_compute. right. left. reflexivity.
Defined.

(** ** The normalizers of mcrws1 and mcrws2 on their own output *)













(** ** The configuration of the backend *)

Lemma model_dump_api_key (config : LlmConfig) :
  dict_get (model_dump config) "api_key" = api_key config.
Proof.
  unfold dict_get, model_dump.
  rewrite lookup_insert_ne by discriminate.
  rewrite lookup_insert_ne by discriminate.
  rewrite lookup_insert_eq. reflexivity.
Qed.

Lemma model_dump_provider (config : LlmConfig) :
  dict_get (model_dump config) "provider" = Some (provider config).
Proof. unfold dict_get, model_dump. rewrite lookup_insert_eq. reflexivity. Qed.

Lemma dict_get_insert (d : ConfigDict) (k : string) (v : option str) :
  dict_get (<[k := v]> d) k = v.
Proof. unfold dict_get. rewrite lookup_insert_eq. reflexivity. Qed.

Lemma dict_get_insert_ne (d : ConfigDict) (k k' : string) (v : option str) :
  k <> k' -> dict_get (<[k := v]> d) k' = dict_get d k'.
Proof. intros H. unfold dict_get. rewrite lookup_insert_ne by exact H. reflexivity. Qed.

(** The dictionary that a request leaves in the store when it is stored. *)
Lemma new_dict_api_key (config : LlmConfig) (st : ConfigState) :
  dict_get
    (if is_masked (api_key config)
     then <["api_key"%string := dict_get (llm_config_store st) "api_key"]> (model_dump config)
     else model_dump config) "api_key"
  = if is_masked (api_key config) then dict_get (llm_config_store st) "api_key"
    else api_key config.
Proof.
  destruct (is_masked (api_key config)).
  - apply dict_get_insert.
  - apply model_dump_api_key.
Qed.

Lemma set_llm_config_key (penv : ProviderEnv) (config : LlmConfig) (st : ConfigState) :
  let kept := if is_masked (api_key config)
              then dict_get (llm_config_store st) "api_key" else api_key config in
  (forall r st', Mcrws1_api.set_llm_config penv config st = (r, st') ->
     st' = st \/ dict_get (llm_config_store st') "api_key" = kept) /\
  (forall r st', Mcrws2_api.set_llm_config penv config st = (r, st') ->
     st' = st \/ dict_get (llm_config_store st') "api_key" = kept) /\
  (forall r st', Mcrws3_api.set_llm_config penv config st = (r, st') ->
     dict_get (llm_config_store st') "api_key" = kept).
Proof.
  cbv zeta. split; [|split]; intros r st'.
  - unfold Mcrws1_api.set_llm_config.
    destruct (Mcrws1_api.create_llm_provider _ _); intros H; injection H as _ <-;
      [left; reflexivity|right]. simpl. apply dict_get_insert.
  - unfold Mcrws2_api.set_llm_config.
    destruct (Mcrws2_api.create_llm_provider _ _); intros H; injection H as _ <-;
      [left; reflexivity|right]. simpl. apply new_dict_api_key.
  - unfold Mcrws3_api.set_llm_config, Mcrws3_api.container_set_llm_config.
    destruct (Mcrws3_api._create_llm_provider _ _); intros H; injection H as _ <-;
      simpl; apply new_dict_api_key.
Qed.



Lemma new_dict_provider (config : LlmConfig) (st : ConfigState) :
  dict_get
    (if is_masked (api_key config)
     then <["api_key"%string := dict_get (llm_config_store st) "api_key"]> (model_dump config)
     else model_dump config) "provider"
  = Some (provider config).
Proof.
  destruct (is_masked (api_key config)).
  - rewrite dict_get_insert_ne by discriminate. apply model_dump_provider.
  - apply model_dump_provider.
Qed.

(** X16.  A configuration request that fails is answered with status 400.
    In mcrws1 and mcrws2 it changes nothing: the stored configuration and
    the backend in use are as before.  In mcrws3 the stored configuration
    is replaced before the backend is built, so after a failed request the
    store names the provider of the request while the backend in use is
    still the old one.  A request that succeeds stores the provider of the
    request in every variant. *)
Theorem X16_config_failure (penv : ProviderEnv) (config : LlmConfig)
    (st st' : ConfigState) :
  (forall code detail,
     Mcrws1_api.set_llm_config penv config st = (HTTPException code detail, st') ->
     code = 400 /\ st' = st) /\
  (forall code detail,
     Mcrws2_api.set_llm_config penv config st = (HTTPException code detail, st') ->
     code = 400 /\ st' = st) /\
  (forall code detail,
     Mcrws3_api.set_llm_config penv config st = (HTTPException code detail, st') ->
     code = 400 /\ llm_provider st' = llm_provider st /\
     dict_get (llm_config_store st') "provider" = Some (provider config)) /\
  (forall message,
     Mcrws1_api.set_llm_config penv config st = (ConfigUpdated message, st') \/
     Mcrws2_api.set_llm_config penv config st = (ConfigUpdated message, st') \/
     Mcrws3_api.set_llm_config penv config st = (ConfigUpdated message, st') ->
     message = py "LLM provider updated to " ++ provider config ++ py "." /\
     dict_get (llm_config_store st') "provider" = Some (provider config)).
Proof.
  split; [|split; [|split]].
  - intros code detail. unfold Mcrws1_api.set_llm_config.
    destruct (Mcrws1_api.create_llm_provider _ _); intros H; [|discriminate H].
    injection H as <- _ <-. auto.
  - intros code detail. unfold Mcrws2_api.set_llm_config.
    destruct (Mcrws2_api.create_llm_provider _ _); intros H; [|discriminate H].
    injection H as <- _ <-. auto.
  - intros code detail.
    unfold Mcrws3_api.set_llm_config, Mcrws3_api.container_set_llm_config.
    destruct (Mcrws3_api._create_llm_provider _ _); intros H; [|discriminate H].
    injection H as <- _ <-. simpl. split; [reflexivity|]. split; [reflexivity|].
    apply new_dict_provider.
  - intros message [H|[H|H]].
    + unfold Mcrws1_api.set_llm_config in H.
      destruct (Mcrws1_api.create_llm_provider _ _); [discriminate H|].
      injection H as <- <-. split; [reflexivity|]. simpl.
      rewrite dict_get_insert_ne by discriminate. apply model_dump_provider.
    + unfold Mcrws2_api.set_llm_config in H.
      destruct (Mcrws2_api.create_llm_provider _ _); [discriminate H|].
      injection H as <- <-. split; [reflexivity|]. simpl. apply new_dict_provider.
    + unfold Mcrws3_api.set_llm_config, Mcrws3_api.container_set_llm_config in H.
      destruct (Mcrws3_api._create_llm_provider _ _); [discriminate H|].
      injection H as <- <-. split; [reflexivity|]. simpl. apply new_dict_provider.
Qed.

Lemma X16_config_failure_witness :
  400 = 400 /\
  llm_provider (snd (Mcrws3_api.set_llm_config failing_penv ollama_config demo_config_state))
  = llm_provider demo_config_state /\
  dict_get (llm_config_store
              (snd (Mcrws3_api.set_llm_config failing_penv ollama_config demo_config_state)))
    "provider" = Some (provider ollama_config).
Proof.
  apply (proj1 (proj2 (proj2 (X16_config_failure failing_penv ollama_config
           demo_config_state
           (snd (Mcrws3_api.set_llm_config failing_penv ollama_config demo_config_state)))))
         400 (py "Failed to init Ollama: connection refused")).
  reflexivity.
Defined.

(** X17.  A request that names a provider other than Ollama, Gemini and
    Mock is treated in three ways.  mcrws1 rejects it with status 400 and
    the text "Unknown LLM provider: ..."; mcrws2 rejects it with status 400
    too, but with that text wrapped as a failure of the initialization,
    because the error is raised inside the guarded block; both leave the
    configuration as it is.  mcrws3 accepts the request: it stores the
    configuration with the unknown name and uses the mock backend. *)
Theorem X17_unknown_provider (penv : ProviderEnv) (config : LlmConfig)
    (st : ConfigState) :
  known_provider (provider config) = false ->
  Mcrws1_api.set_llm_config penv config st
  = (HTTPException 400 (py "Unknown LLM provider: " ++ provider config), st) /\
  Mcrws2_api.set_llm_config penv config st
  = (HTTPException 400
       (py "Failed to initialize " ++ provider config
        ++ py ": " ++ py "Unknown LLM provider: " ++ provider config), st) /\
  exists store',
    Mcrws3_api.set_llm_config penv config st
    = (ConfigUpdated (py "LLM provider updated to " ++ provider config ++ py "."),
       {| llm_config_store := store'; llm_provider := MockLlmProvider |}) /\
    dict_get store' "provider" = Some (provider config).
Proof.
  intros Hk. unfold known_provider in Hk.
  apply orb_false_iff in Hk as [Hk Hm]. apply orb_false_iff in Hk as [Ho Hg].
  split; [|split].
  - unfold Mcrws1_api.set_llm_config, Mcrws1_api.create_llm_provider.
    rewrite dict_get_insert_ne by discriminate. rewrite model_dump_provider.
    rewrite Ho, Hg, Hm. reflexivity.
  - unfold Mcrws2_api.set_llm_config, Mcrws2_api.create_llm_provider.
    rewrite new_dict_provider. rewrite Ho, Hg, Hm. reflexivity.
  - unfold Mcrws3_api.set_llm_config, Mcrws3_api.container_set_llm_config,
      Mcrws3_api._create_llm_provider.
    rewrite new_dict_provider. rewrite Ho, Hg. simpl.
    eexists. split; [reflexivity|]. apply new_dict_provider.
Qed.

Lemma X17_unknown_provider_witness :
  Mcrws1_api.set_llm_config demo_penv unknown_config demo_config_state
  = (HTTPException 400 (py "Unknown LLM provider: " ++ provider unknown_config),
     demo_config_state) /\
  Mcrws2_api.set_llm_config demo_penv unknown_config demo_config_state
  = (HTTPException 400
       (py "Failed to initialize " ++ provider unknown_config
        ++ py ": " ++ py "Unknown LLM provider: " ++ provider unknown_config),
     demo_config_state) /\
  exists store',
    Mcrws3_api.set_llm_config demo_penv unknown_config demo_config_state
    = (ConfigUpdated (py "LLM provider updated to " ++ provider unknown_config ++ py "."),
       {| llm_config_store := store'; llm_provider := MockLlmProvider |}) /\
    dict_get store' "provider" = Some (provider unknown_config).
Proof.
  apply (X17_unknown_provider demo_penv unknown_config demo_config_state).
  reflexivity.
Defined.

Lemma model_dump_item (config : LlmConfig) :
  dict_item (model_dump config) "model" = inr (model config) /\
  dict_item (model_dump config) "api_key" = inr (api_key config) /\
  dict_item (model_dump config) "base_url" = inr (base_url config).
Proof.
  unfold dict_item, model_dump. split; [|split].
  - rewrite lookup_insert_ne by discriminate. rewrite lookup_insert_eq. reflexivity.
  - do 2 (rewrite lookup_insert_ne by discriminate). rewrite lookup_insert_eq. reflexivity.
  - do 3 (rewrite lookup_insert_ne by discriminate). rewrite lookup_insert_eq. reflexivity.
Qed.

Lemma dict_item_insert_ne (d : ConfigDict) (k k' : string) (v : option str) :
  k <> k' -> dict_item (<[k := v]> d) k' = dict_item d k'.
Proof. intros H. unfold dict_item. rewrite lookup_insert_ne by exact H. reflexivity. Qed.

Lemma dict_item_insert (d : ConfigDict) (k : string) (v : option str) :
  dict_item (<[k := v]> d) k = inr v.
Proof. unfold dict_item. rewrite lookup_insert_eq. reflexivity. Qed.

(** X18.  A request for the Gemini backend whose key is not a mask.  In
    mcrws3 the key of the request is used when it is a string that is not
    empty, and the environment variable otherwise; when neither is there
    the request fails with status 400 and the text of the missing key,
    after the stored configuration was replaced; a key taken from the
    environment is given to the backend but is not stored.  In mcrws1 and
    mcrws2 the key of the request is handed to the constructor as it is,
    missing or not, and the environment is not consulted. *)
Theorem X18_gemini_key (penv : ProviderEnv) (config : LlmConfig) (st : ConfigState) :
  provider config = py "Gemini" ->
  is_masked (api_key config) = false ->
  let key3 := if usable_key (api_key config) then api_key config
              else getenv_GOOGLE_API_KEY penv in
  let updated := ConfigUpdated (py "LLM provider updated to Gemini.") in
  (usable_key key3 = false ->
   Mcrws3_api.set_llm_config penv config st
   = (HTTPException 400 (py "Failed to init Gemini: Gemini API key not found."),
      {| llm_config_store := model_dump config; llm_provider := llm_provider st |})) /\
  (usable_key key3 = true ->
   provider_init penv (GeminiLlmProvider (model config) key3) = None ->
   Mcrws3_api.set_llm_config penv config st
   = (updated, {| llm_config_store := model_dump config;
                  llm_provider := GeminiLlmProvider (model config) key3 |})) /\
  (provider_init penv (GeminiLlmProvider (model config) (api_key config)) = None ->
   Mcrws1_api.set_llm_config penv config st
   = (updated,
      {| llm_config_store := <["api_key"%string := api_key config]> (model_dump config);
         llm_provider := GeminiLlmProvider (model config) (api_key config) |}) /\
   Mcrws2_api.set_llm_config penv config st
   = (updated, {| llm_config_store := model_dump config;
                  llm_provider := GeminiLlmProvider (model config) (api_key config) |})).
Proof.
  intros Hp Hm. cbv zeta.
  destruct (model_dump_item config) as (Imodel & Ikey & _).
  split; [|split].
  - intros Hkey.
    unfold Mcrws3_api.set_llm_config, Mcrws3_api.container_set_llm_config,
      Mcrws3_api._create_llm_provider.
    rewrite Hm, model_dump_provider, model_dump_api_key, Hp.
    change (str_eqb (py "Gemini") (py "Ollama")) with false.
    change (str_eqb (py "Gemini") (py "Gemini")) with true. cbv iota.
    destruct (api_key config) as [[|c k]|]; simpl in Hkey; try discriminate Hkey;
      destruct (getenv_GOOGLE_API_KEY penv) as [[|c' k']|]; try discriminate Hkey;
      reflexivity.
  - intros Hkey Hinit.
    unfold Mcrws3_api.set_llm_config, Mcrws3_api.container_set_llm_config,
      Mcrws3_api._create_llm_provider.
    rewrite Hm, model_dump_provider, model_dump_api_key, Hp, Imodel.
    change (str_eqb (py "Gemini") (py "Ollama")) with false.
    change (str_eqb (py "Gemini") (py "Gemini")) with true. cbv iota.
    unfold construct.
    destruct (api_key config) as [[|c k]|]; simpl in Hkey, Hinit; cbv beta iota zeta;
      rewrite Hinit; try reflexivity;
      destruct (getenv_GOOGLE_API_KEY penv) as [[|c' k']|]; try discriminate Hkey;
      reflexivity.
  - intros Hinit. split.
    + unfold Mcrws1_api.set_llm_config, Mcrws1_api.create_llm_provider.
      rewrite Hm. rewrite dict_get_insert_ne by discriminate.
      rewrite model_dump_provider, Hp.
      rewrite dict_item_insert_ne by discriminate. rewrite Imodel.
      rewrite dict_item_insert. unfold construct. rewrite Hinit. reflexivity.
    + unfold Mcrws2_api.set_llm_config, Mcrws2_api.create_llm_provider.
      rewrite Hm, model_dump_provider, Hp, Imodel, Ikey.
      unfold construct. rewrite Hinit. reflexivity.
Qed.

Lemma X18_gemini_key_witness :
  Mcrws3_api.set_llm_config demo_penv gemini_keyless_config demo_config_state
  = (HTTPException 400 (py "Failed to init Gemini: Gemini API key not found."),
     {| llm_config_store := model_dump gemini_keyless_config;
        llm_provider := llm_provider demo_config_state |}).
Proof.
  apply (proj1 (X18_gemini_key demo_penv gemini_keyless_config demo_config_state
                 eq_refl eq_refl)).
  reflexivity.
Defined.

(** The schema section that a prompt is given names every entry of the
    schema. *)
Example schema_section_ex :
  Mcrws3.PromptManager_get
    (fun _ => [fun k => match kw_schema_section k with Some s => s | None => [] end])
    "NL_TO_FACTS"
    {| kw_text := None; kw_query := None; kw_schema := Some [py "a/1"; py "b/2"];
       kw_result := None; kw_style := None; kw_schema_section := None |}
  = [py "--- SCHEMA ---" ++ [LF] ++ py "% KB contains: a/1, b/2" ++ [LF]]
  /\
  Mcrws2.PromptManager_get
    (fun _ => Some (fun k => match kw_schema_section k with Some s => s | None => [] end))
    "NL_TO_RULES"
    {| kw_text := None; kw_query := None; kw_schema := Some [py "a/1"; py "b/2"];
       kw_result := None; kw_style := None; kw_schema_section := None |}
    (demo_world [])
  = (inr (py "--- SCHEMA ---" ++ [LF]
          ++ py "% The knowledge base currently has these predicates: a/1, b/2"
          ++ [LF]), demo_world []).
Proof. split; reflexivity. Qed.

(** ** The settings dialog and the stored key *)

(** X19.  What the settings dialog does to the stored key.  When Gemini is
    selected and the key field is left empty, the dialog sends a mask and
    the service keeps the key that is stored, in the three variants.  When
    another provider is selected, the dialog sends no key, and a request
    that is stored (every request in mcrws3, a successful one in mcrws1 and
    mcrws2) erases the stored key. *)
Theorem X19_dialog_key (penv : ProviderEnv) (d : SettingsDialog)
    (st st' : ConfigState) (r : ConfigResult) :
  Mcrws1_api.set_llm_config penv (get_config_data d) st = (r, st') \/
  Mcrws2_api.set_llm_config penv (get_config_data d) st = (r, st') \/
  Mcrws3_api.set_llm_config penv (get_config_data d) st = (r, st') ->
  (provider_combo d = py "Gemini" -> gemini_api_key d = [] ->
   dict_get (llm_config_store st') "api_key"
   = dict_get (llm_config_store st) "api_key") /\
  (provider_combo d <> py "Gemini" ->
   st' = st \/ dict_get (llm_config_store st') "api_key" = None).
Proof.
  intros H.
  destruct (set_llm_config_key penv (get_config_data d) st) as (H1 & H2 & H3).
  cbv zeta in *.
  assert (Hkey : st' = st \/
            dict_get (llm_config_store st') "api_key"
            = if is_masked (api_key (get_config_data d))
              then dict_get (llm_config_store st) "api_key"
              else api_key (get_config_data d)).
  { destruct H as [H|[H|H]]; [apply (H1 _ _ H)|apply (H2 _ _ H)|right; apply (H3 _ _ H)]. }
  clear H H1 H2 H3. split.
  - intros Hp He. destruct Hkey as [->|Hkey]; [reflexivity|].
    rewrite Hkey. unfold get_config_data. rewrite Hp, He. reflexivity.
  - intros Hp. destruct Hkey as [->|Hkey]; [left; reflexivity|right].
    rewrite Hkey. unfold get_config_data.
    destruct (str_eqb (provider_combo d) (py "Ollama")); [reflexivity|].
    destruct (str_eqb (provider_combo d) (py "Gemini")) eqn:E; [|reflexivity].
    apply str_eqb_eq in E. contradiction.
Qed.

Lemma X19_dialog_key_witness :
  dict_get (llm_config_store
              (snd (Mcrws1_api.set_llm_config demo_penv (get_config_data demo_dialog)
                      demo_config_state))) "api_key"
  = dict_get (llm_config_store demo_config_state) "api_key".
Proof.
  apply (proj1 (X19_dialog_key demo_penv demo_dialog demo_config_state
           (snd (Mcrws1_api.set_llm_config demo_penv (get_config_data demo_dialog)
                   demo_config_state))
           (ConfigUpdated (py "LLM provider updated to Gemini."))
           (or_introl eq_refl)) eq_refl eq_refl).
Defined.

(** ** The trace of a query in the window *)

Lemma eq_list_No_spec (v : PyValue) :
  eq_list_No v = true <-> v = PyList [IStr (py "No")].
Proof.
  split; [|intros ->; reflexivity].
  destruct v as [| | |l]; try discriminate.
  destruct l as [|[t|b] [|i l]]; try discriminate.
  unfold eq_list_No. intros H. apply str_eqb_eq in H. subst t. reflexivity.
Qed.

(** X20.  How the window colours the raw result of a query.  In mcrws3 the
    test [result is not False] of the success flag adds nothing: the flag
    is set exactly when the result counts as true and is not the list
    ['No'], which is exactly when mcrws2 paints the result green; mcrws2
    paints it red exactly for the list ['No'].  The flag of mcrws3 agrees
    with what the explanation step is told: it is off exactly when the
    shaped value is the token "No" (the string "No" as a result apart), and
    for the result of a successful query exactly when the result is the
    empty list or the list ['No']. *)
Theorem X20_trace_colour (env : Env) (P3 : string -> list Template)
    (sid : string) (q : str) (w w' : World) :
  (forall v, Mcrws3_api.is_success v = truthy v && negb (eq_list_No v)) /\
  (forall v, Mcrws2_api.result_color v = Mcrws2_api.Green
             <-> Mcrws3_api.is_success v = true) /\
  (forall v, Mcrws2_api.result_color v = Mcrws2_api.Red
             <-> v = PyList [IStr (py "No")]) /\
  (forall v, Mcrws3_api.is_success v = false
             <-> Mcrws3.result_for_llm v = PyStr (py "No") /\ v <> PyStr (py "No")) /\
  (forall r, Mcrws3.run_query env P3 sid q w = (inr r, w') ->
     (Mcrws3_api.is_success (Mcrws3.result r) = false
      <-> Mcrws3.result r = PyList [] \/ Mcrws3.result r = PyList [IStr (py "No")])).
Proof.
  assert (H1 : forall v, Mcrws3_api.is_success v = truthy v && negb (eq_list_No v)).
  { intros v. unfold Mcrws3_api.is_success.
    destruct v as [|[|]|t|l]; simpl; try reflexivity;
      rewrite andb_true_r; reflexivity. }
  split; [exact H1|]. split; [|split; [|split]].
  - intros v. rewrite H1. unfold Mcrws2_api.result_color.
    destruct (truthy v && negb (eq_list_No v)); [tauto|].
    destruct (eq_list_No v); split; discriminate.
  - intros v. rewrite <- eq_list_No_spec. unfold Mcrws2_api.result_color.
    destruct (eq_list_No v) eqn:E.
    + rewrite andb_false_r. tauto.
    + rewrite andb_true_r. destruct (truthy v); split; discriminate.
  - intros v. rewrite H1. unfold Mcrws3.result_for_llm.
    destruct (eq_list_No v) eqn:E.
    + apply eq_list_No_spec in E. subst v. simpl. split; [|reflexivity].
      intros _. split; [reflexivity|discriminate].
    + rewrite andb_true_r, orb_false_r.
      destruct v as [|[|]|t|l]; simpl.
      * split; [intros _; split; [reflexivity|discriminate]|reflexivity].
      * split; [discriminate|]. intros [H _]. discriminate H.
      * split; [intros _; split; [reflexivity|discriminate]|reflexivity].
      * destruct t as [|c t]; simpl.
        -- split; [intros _; split; [reflexivity|discriminate]|reflexivity].
        -- split; [discriminate|]. intros [H Hne]. contradiction.
      * destruct l as [|i l]; simpl.
        -- split; [intros _; split; [reflexivity|discriminate]|reflexivity].
        -- split; [discriminate|]. intros [H _]. discriminate H.
  - intros r H. apply v3_run_query_inv in H as (s & raw & _ & _ & _ & Hr & _).
    apply v3_query_truthy in Hr. rewrite H1. rewrite <- eq_list_No_spec.
    destruct Hr as [->|Ht]; [simpl; tauto|]. rewrite Ht. simpl.
    destruct (eq_list_No (Mcrws3.result r)); simpl.
    + split; auto.
    + split; [discriminate|]. intros [E|E]; [|discriminate E].
      rewrite E in Ht. discriminate Ht.
Qed.

Lemma X20_trace_colour_witness :
  Mcrws3_api.is_success (Mcrws3.result demo_query_response3) = false
  <-> Mcrws3.result demo_query_response3 = PyList []
      \/ Mcrws3.result demo_query_response3 = PyList [IStr (py "No")].
Proof.
  apply (proj2 (proj2 (proj2 (proj2 (X20_trace_colour demo_query_env demo_prompts3
           "s1" (py "Who?") (demo_world (py "p(a).")) demo_query_world3))))
         demo_query_response3).
  reflexivity.
Defined.

(** ** The mock backend *)

Lemma v3_mock_answers (prompt : str) :
  blank (Mcrws3_api.MockLlmProvider_generate prompt) = false /\
  strip (Mcrws3_api.MockLlmProvider_generate prompt)
  = Mcrws3_api.MockLlmProvider_generate prompt.
Proof.
  unfold Mcrws3_api.MockLlmProvider_generate.
  repeat match goal with
         | |- context [if ?b then _ else _] => destruct b
         end; split; reflexivity.
Qed.

Lemma v1_mock_one_line (prompt : str) :
  blank (Mcrws1_api.MockLlmProvider_generate prompt) = false /\
  Forall one_line (Mcrws1._extract_prolog (Mcrws1_api.MockLlmProvider_generate prompt)).
Proof.
  unfold Mcrws1_api.MockLlmProvider_generate.
  repeat match goal with
         | |- context [if ?b then _ else _] => destruct b
         end; split; try reflexivity; vm_compute; repeat constructor.
Qed.

Lemma v2_mock_not_blank (prompt : str) :
  blank (Mcrws2_api.MockLlmProvider_generate prompt) = false.
Proof.
  unfold Mcrws2_api.MockLlmProvider_generate.
  repeat match goal with
         | |- context [if ?b then _ else _] => destruct b
         end; reflexivity.
Qed.

(** X21.  The mock backend never gives a blank answer, in the three
    variants.  So with the mock backend a prompt chain of mcrws3 never goes
    on to a second variant: it returns the answer of the mock to the first
    variant, as it is, after one call.  In mcrws1, where the prompt of an
    assert does not depend on the stored text, a second assert of the same
    input with the mock backend adds nothing and leaves the store as it
    is. *)
Theorem X21_mock_backend (env : Env) :
  (forall prompt,
     blank (Mcrws1_api.MockLlmProvider_generate prompt) = false /\
     blank (Mcrws2_api.MockLlmProvider_generate prompt) = false /\
     blank (Mcrws3_api.MockLlmProvider_generate prompt) = false) /\
  (forall (P : string -> list Template) name kwargs w p ps,
     Mcrws3.PromptManager_get P name kwargs = p :: ps ->
     Mcrws3._run_prompt_chain (with_llm env Mcrws3_api.MockLlmProvider_generate)
       P name kwargs w
     = (inr (Mcrws3_api.MockLlmProvider_generate p), after_calls w [p])) /\
  (forall (P : string -> option Template) sid text w w1 w2 resp1 resp2,
     store_ok w ->
     Mcrws1.assert_into_session (with_llm env Mcrws1_api.MockLlmProvider_generate)
       P sid text w = (inr resp1, w1) ->
     Mcrws1.assert_into_session (with_llm env Mcrws1_api.MockLlmProvider_generate)
       P sid text w1 = (inr resp2, w2) ->
     Mcrws1.addedFacts resp2 = [] /\
     Mcrws1.ar_knowledgeBase resp2 = Mcrws1.ar_knowledgeBase resp1 /\
     same_store w1 w2).
Proof.
  split; [|split].
  - intros prompt. split; [apply v1_mock_one_line|].
    split; [apply v2_mock_not_blank|apply v3_mock_answers].
  - intros P name kwargs w p ps E. unfold Mcrws3._run_prompt_chain.
    rewrite E. cbn [is_empty]. rewrite try_variants_cons. simpl llm_generate.
    destruct (v3_mock_answers p) as [-> ->]. reflexivity.
  - intros P sid text w w1 w2 resp1 resp2 Hok H1 H2.
    apply (v1_assert_again _ P sid text w w1 w2 resp1 resp2 Hok H1 H2).
    + intros prompt. reflexivity.
    + intros prompt r H. simpl in H. injection H as <-. apply v1_mock_one_line.
Qed.

Lemma X21_mock_backend_witness :
  Mcrws3._run_prompt_chain (with_llm demo_query_env Mcrws3_api.MockLlmProvider_generate)
    demo_prompts3 "NL_TO_FACTS" no_kwargs (demo_world [])
  = (inr (Mcrws3_api.MockLlmProvider_generate (py "NL_TO_FACTS|")),
     after_calls (demo_world []) [py "NL_TO_FACTS|"]).
Proof.
  apply (proj1 (proj2 (X21_mock_backend demo_query_env)) demo_prompts3
           "NL_TO_FACTS" no_kwargs (demo_world []) (py "NL_TO_FACTS|") []).
  reflexivity.
Defined.

(** ** Error responses *)

(** X22.  The answers of the service to failed requests.  A replacement of
    the knowledge base that fails is answered with 404 and the not-found
    error, or with 400 and the validation error whose message carries the
    text of the engine; it is never answered with 502, in any variant.  A
    timeout of the reasoner is a provider error in the three variants, but
    it is answered with status 400 in mcrws1 (5 seconds) and mcrws2
    (10 seconds) and with status 502 in mcrws3 (10 seconds); in mcrws1 and
    mcrws2 the status alone does not tell it from a validation error. *)
Theorem X22_error_responses (env : Env) (sid : string) (text : str) (w w' : World)
    (e : Exn) :
  (Mcrws1.update_kb env sid text w = (inl e, w') \/
   Mcrws2.update_kb env sid text w = (inl e, w') \/
   Mcrws3.update_kb env sid text w = (inl e, w') ->
   let not_found :=
     {| status_code := 404; error_type := py "NotFoundError";
        error_message := py "Session '" ++ py sid ++ py "' not found." |} in
   let invalid err :=
     {| status_code := 400; error_type := py "ValidationError";
        error_message := py "KB validation failed: " ++ err |} in
   (sessions w !! sid = None /\
    Mcrws1_api.mcr_exception_handler e = not_found /\
    Mcrws2_api.mcr_exception_handler e = not_found /\
    Mcrws3_api.mcr_exception_handler e = not_found) \/
   (exists err, validate env text = Some err /\
    Mcrws1_api.mcr_exception_handler e = invalid err /\
    Mcrws2_api.mcr_exception_handler e = invalid err /\
    Mcrws3_api.mcr_exception_handler e = invalid err)) /\
  (forall kb goal,
     engine_load env (splitlines kb) = None ->
     engine_query env (splitlines kb) goal = TimedOut ->
     (exists e1, Mcrws1.PythologReasonProvider_query env kb goal = inl e1 /\
        Mcrws1_api.mcr_exception_handler e1
        = {| status_code := 400; error_type := py "ProviderError";
             error_message := py "Reasoning query timed out after 5s." |}) /\
     (exists e2, Mcrws2.PythologReasonProvider_query env kb goal = inl e2 /\
        Mcrws2_api.mcr_exception_handler e2
        = {| status_code := 400; error_type := py "ProviderError";
             error_message := py "Reasoning query timed out after 10s." |}) /\
     (exists e3, Mcrws3.PythologReasonProvider_query env kb goal = inl e3 /\
        Mcrws3_api.mcr_exception_handler e3
        = {| status_code := 502; error_type := py "ProviderError";
             error_message := py "Reasoning query timed out after 10s." |})).
Proof.
  split.
  - intros H. cbv zeta.
    assert (He : (sessions w !! sid = None /\ e = no_session sid) \/
                 exists err, validate env text = Some err /\ e = ValidationFailure err).
    { unfold Mcrws1.update_kb, Mcrws2.update_kb, Mcrws3.update_kb, bind, get_session in H.
      destruct (sessions w !! sid) as [s|].
      - right. destruct (validate env text) as [err|].
        + exists err. split; [reflexivity|].
          destruct H as [H|[H|H]]; unfold raise in H; injection H as <- _; reflexivity.
        + destruct H as [H|[H|H]]; discriminate H.
      - left. split; [reflexivity|].
        destruct H as [H|[H|H]]; injection H as <- _; reflexivity. }
    destruct He as [[Hs ->]|(err & Hv & ->)].
    + left. repeat split; assumption || reflexivity.
    + right. exists err. repeat split; assumption || reflexivity.
  - intros kb goal Hl Hq.
    unfold Mcrws1.PythologReasonProvider_query, Mcrws2.PythologReasonProvider_query,
      Mcrws3.PythologReasonProvider_query.
    rewrite Hl, Hq. repeat split; eexists; split; reflexivity.
Qed.

Lemma X22_error_responses_witness :
  exists e3, Mcrws3.PythologReasonProvider_query (demo_env (const_llm []) TimedOut)
               (py "p(a).") (py "p(X)") = inl e3 /\
    Mcrws3_api.mcr_exception_handler e3
    = {| status_code := 502; error_type := py "ProviderError";
         error_message := py "Reasoning query timed out after 10s." |}.
Proof.
  apply (proj2 (X22_error_responses (demo_env (const_llm []) TimedOut) "s1" []
                  (demo_world []) (demo_world []) (no_session "s1"))
           (py "p(a).") (py "p(X)") eq_refl eq_refl).
Defined.

(** ** Replacing the text and reading it *)

(** X23.  After a successful replacement of the knowledge base, a fetch of
    the session gives the new text as it was sent, not trimmed, with the
    clock reading of the save as modification time.  The text passed the
    loader that the reasoner uses, so a query on it does not fail at
    loading: an outcome of the engine that is not [None] (mcrws1, mcrws2)
    or that counts as true (mcrws3) is what the reasoner returns. *)
Theorem X23_replace_then_read (env : Env) (sid : string) (text msg : str)
    (w w1 : World) :
  store_ok w ->
  Mcrws1.update_kb env sid text w = (inr msg, w1) \/
  Mcrws2.update_kb env sid text w = (inr msg, w1) \/
  Mcrws3.update_kb env sid text w = (inr msg, w1) ->
  exists s1,
    get_session sid w1 = (inr s1, w1) /\
    knowledgeBase s1 = text /\
    modifiedAt s1 = utcnow env (length (saved w)) /\
    engine_load env (splitlines (knowledgeBase s1)) = None /\
    (forall goal v,
       engine_query env (splitlines text) goal = Returned v ->
       (is_not_None v = true ->
        Mcrws1.PythologReasonProvider_query env (knowledgeBase s1) goal = inr v /\
        Mcrws2.PythologReasonProvider_query env (knowledgeBase s1) goal = inr v) /\
       (truthy v = true ->
        Mcrws3.PythologReasonProvider_query env (knowledgeBase s1) goal = inr v)).
Proof.
  intros Hok H.
  destruct (update_kb_inv env sid text w) as (U1 & U2 & U3).
  assert (Hw : exists s, sessions w !! sid = Some s /\ validate env text = None /\
                         w1 = saved_world env s text w).
  { assert (Hne : forall r : Exn + str, r = inr msg ->
              (Mcrws1.update_kb env sid text w = (r, w1) \/
               Mcrws2.update_kb env sid text w = (r, w1) \/
               Mcrws3.update_kb env sid text w = (r, w1)) ->
              w1 = w -> exists s, sessions w !! sid = Some s /\
                          validate env text = None /\ w1 = saved_world env s text w).
    { intros r -> H' ->. exfalso.
      unfold Mcrws1.update_kb, Mcrws2.update_kb, Mcrws3.update_kb, bind, get_session in H'.
      destruct (sessions w !! sid) as [s|].
      - destruct (validate env text).
        + destruct H' as [H'|[H'|H']]; discriminate H'.
        + unfold save_session, ret in H'.
          assert (Hlen : length (saved w) = length (saved w ++ [set_modifiedAt (utcnow env (length (saved w))) (set_knowledgeBase text s)])).
          { destruct H' as [H'|[H'|H']]; injection H' as _ H'; rewrite <- H' at 1; reflexivity. }
          rewrite length_app in Hlen. simpl in Hlen. lia.
      - destruct H' as [H'|[H'|H']]; discriminate H'. }
    destruct H as [H|[H|H]].
    - destruct (U1 _ _ H) as [E|E]; [apply (Hne _ eq_refl); auto|exact E].
    - destruct (U2 _ _ H) as [E|E]; [apply (Hne _ eq_refl); auto|exact E].
    - destruct (U3 _ _ H) as [E|E]; [apply (Hne _ eq_refl); auto|exact E]. }
  destruct Hw as (s & Hs & Hv & ->).
  pose proof (Hok _ _ Hs) as Hid.
  eexists. split.
  { unfold get_session, saved_world. simpl. rewrite Hid.
    rewrite lookup_insert_eq. reflexivity. }
  simpl. split; [reflexivity|]. split; [reflexivity|]. split; [exact Hv|].
  intros goal v Hq. unfold validate in Hv.
  unfold Mcrws1.PythologReasonProvider_query, Mcrws2.PythologReasonProvider_query,
    Mcrws3.PythologReasonProvider_query.
  rewrite Hv, Hq. split.
  - intros ->. auto.
  - intros ->. reflexivity.
Qed.

Lemma X23_replace_then_read_witness :
  exists s1,
    get_session "s1"
      (snd (Mcrws3.update_kb demo_query_env "s1" (py " q(b).") (demo_world (py "p(a)."))))
    = (inr s1,
       snd (Mcrws3.update_kb demo_query_env "s1" (py " q(b).") (demo_world (py "p(a).")))) /\
    knowledgeBase s1 = py " q(b).".
Proof.
  destruct (X23_replace_then_read demo_query_env "s1" (py " q(b).")
              (py "Knowledge base updated successfully.") (demo_world (py "p(a)."))
              (snd (Mcrws3.update_kb demo_query_env "s1" (py " q(b).")
                      (demo_world (py "p(a)."))))
              (demo_world_ok (py "p(a).")) (or_intror (or_intror eq_refl)))
    as (s1 & Hg & Hkb & _).
  exists s1. split; assumption.
Defined.

(** ** The intent of an assert in mcrws3 *)






